(** * demule: the discrete-event core of the Cloudlet/Cloud simulator

  A shallow embedding of the Python sources
  - [core/random/rndgen.py]            (Lehmer generators),
  - [core/simulation/model/calendar.py] (next-event calendar),
  - [core/simulation/model/taskgen.py]  (arrival generator),
  - [core/simulations/cloud/model/system.py] (routing state machine),
  - [core/simulation/model/statistics.py]    (batch statistics group),
  together with the properties stated about them. *)

From Stdlib Require Import ZArith QArith Lia.
From stdpp Require Import base decidable option list sorting strings gmap.

Local Open Scope Z_scope.

(** ** Python run-time conventions

  Python integers are unbounded: they are [Z].  A method of an object
  with state [S] is a function [S -> result A * S]: the state comes back
  also when the method raises, since whatever was assigned before the
  [raise] stays assigned. *)

Inductive exception : Set :=
| ValueError
| ZeroDivisionError
| IndexError.

Inductive result (A : Type) : Type :=
| Ok (a : A)
| Raise (e : exception).
Arguments Ok {A} a.
Arguments Raise {A} e.

Definition M (S A : Type) : Type := S -> result A * S.

#[global] Instance M_ret {S} : MRet (M S) := fun A a s => (Ok a, s).
#[global] Instance M_bind {S} : MBind (M S) := fun A B k m s =>
match m s with
| (Ok a, s') => k a s'
| (Raise e, s') => (Raise e, s')
end.

Definition raise {S A} (e : exception) : M S A := fun s => (Raise e, s).
Definition get {S} : M S S := fun s => (Ok s, s).
Definition gets {S A} (f : S -> A) : M S A := fun s => (Ok (f s), s).
Definition modify {S} (f : S -> S) : M S unit := fun s => (Ok tt, f s).
(** An expression that reads no state, evaluated inside a method. *)
Definition lift {S A} (r : result A) : M S A := fun s => (r, s).

(** [preserves R m]: whatever [m] returns or raises, the state it leaves is
    related by [R] to the state it found. *)
Definition preserves {S A} (R : S -> S -> Prop) (m : M S A) : Prop :=
  forall s, R s (snd (m s)).

(** Unfolds the plumbing of a method down to its reads and writes. *)
Ltac run_m :=
  cbv [mbind M_bind mret M_ret gets get lift modify raise].

Module Py.

(** [a % b] on integers: the remainder has the sign of the divisor. *)
Definition mod_ (a b : Z) : result Z :=
  if b =? 0 then Raise ZeroDivisionError else Ok (a mod b).

(** [int(a / b)] on integers: [a / b] is the float nearest to the exact
    quotient and [int] truncates it toward zero.  For [|a| < 2^53] a
    quotient that is not an integer is at least [1/|b|] away from the next
    integer, more than the rounding error, so the result is the truncated
    quotient.  All seeds and moduli of the 8-, 16- and 32-bit parameter
    rows are in that range.  From [2^53] on the float quotient can differ
    from the truncated one (it does for the 64-bit row): a property that
    depends on the value of the quotient is stated for a modulus below
    [2^53]. *)
Definition int_truediv (a b : Z) : result Z :=
  if b =? 0 then Raise ZeroDivisionError else Ok (Z.quot a b).

(** [float(a / b)], kept as the exact ratio the float approximates. *)
Definition truediv (a b : Z) : result Q :=
  if b =? 0 then Raise ZeroDivisionError
  else Ok (inject_Z a / inject_Z b)%Q.

(** The cell that index [i] denotes in a list of length [n]: negative
    indices count from the end. *)
Definition position (n : nat) (i : Z) : option nat :=
  if (0 <=? i) && (i <? Z.of_nat n) then Some (Z.to_nat i)
  else if (- Z.of_nat n <=? i) && (i <? 0) then Some (Z.to_nat (Z.of_nat n + i))
  else None.

(** [l[i]] *)
Definition getitem {A} (l : list A) (i : Z) : result A :=
  match position (length l) i with
  | Some p => match l !! p with Some x => Ok x | None => Raise IndexError end
  | None => Raise IndexError
  end.

(** [l[i] = x] *)
Definition setitem {A} (l : list A) (i : Z) (x : A) : result (list A) :=
  match position (length l) i with
  | Some p => Ok (<[p:=x]> l)
  | None => Raise IndexError
  end.

(** [[x] * n] *)
Definition repeat {A} (x : A) (n : Z) : list A := replicate (Z.to_nat n) x.

(** [for j in range(lo, hi): body(j)] *)
Definition for_range {S} (lo hi : Z) (body : Z -> M S unit) : M S unit :=
  foldr (fun j k => body j ≫= fun _ => k) (mret tt)
        ((fun i : nat => lo + Z.of_nat i) <$> seq 0 (Z.to_nat (hi - lo))).

End Py.

(** ** core/random/rndgen.py *)

Definition DEFAULT_MODULUS : Z := 2147483647.
Definition DEFAULT_MULTIPLIER : Z := 48271.
Definition DEFAULT_STREAMS : Z := 256.
Definition DEFAULT_JUMPER : Z := 22925.
Definition DEFAULT_ISEED : Z := 123456789.

Module MarcianiMultiStream.

Record t : Type := mk {
  _iseed : Z;
  _seed : Z;
  _stream : Z;
  _modulus : Z;
  _multiplier : Z;
  _streams : Z;
  _jumper : Z;
  _init : bool;
  _seeds : list Z
}.

Definition set_stream (s : Z) (g : t) : t :=
  mk (_iseed g) (_seed g) s (_modulus g) (_multiplier g) (_streams g)
     (_jumper g) (_init g) (_seeds g).
Definition set_init (b : bool) (g : t) : t :=
  mk (_iseed g) (_seed g) (_stream g) (_modulus g) (_multiplier g)
     (_streams g) (_jumper g) b (_seeds g).
Definition set_seeds (l : list Z) (g : t) : t :=
  mk (_iseed g) (_seed g) (_stream g) (_modulus g) (_multiplier g)
     (_streams g) (_jumper g) (_init g) l.

(** [self._seeds[i]] *)
Definition seeds_get (i : Z) : M t Z :=
  l ← gets _seeds; lift (Py.getitem l i).

(** [self._seeds[i] = x] *)
Definition seeds_set (i x : Z) : M t unit :=
  l ← gets _seeds; l' ← lift (Py.setitem l i x); modify (set_seeds l').

Definition get_initial_seed : M t Z := gets _iseed.

Definition get_seed : M t Z :=
  s ← gets _stream; seeds_get s.

Definition put_seed (x : Z) : M t unit :=
  x ← (if 0 <? x
       then m ← gets _modulus; lift (Py.mod_ x m)
       else raise ValueError);
  s ← gets _stream;
  seeds_set s x.

(** [stream] and [plant_seeds] call each other.  [stream_with plant] is
    the body of [stream] with the call [self.plant_seeds] bound to
    [plant]. *)
Definition stream_with (plant : Z -> M t unit) (stream_id : Z) : M t unit :=
  n ← gets _streams;
  s ← lift (Py.mod_ stream_id n);
  _ ← modify (set_stream s);
  init ← gets _init;
  if negb init && negb (s =? 0)
  then i ← gets _iseed; plant i
  else mret tt.

(** One turn of the loop of [plant_seeds]. *)
Definition plant_seeds_step (Q R : Z) (j : Z) : M t unit :=
  jumper ← gets _jumper;
  prev ← seeds_get (j - 1);
  a ← lift (Py.mod_ prev Q);
  prev' ← seeds_get (j - 1);
  b ← lift (Py.int_truediv prev' Q);
  let x := jumper * a - R * b in
  if 0 <? x then seeds_set j x
  else m ← gets _modulus; seeds_set j (x + m).

(** The body of [plant_seeds], with the call [self.stream(0)] bound to
    [stream_0]. *)
Definition plant_seeds_with (stream_0 : M t unit) (x : Z) : M t unit :=
  m ← gets _modulus;
  jumper ← gets _jumper;
  Q ← lift (Py.int_truediv m jumper);
  R ← lift (Py.mod_ m jumper);
  _ ← modify (set_init true);
  s ← gets _stream;
  _ ← stream_0;
  _ ← put_seed x;
  _ ← modify (set_stream s);
  n ← gets _streams;
  Py.for_range 1 n (plant_seeds_step Q R).

(** [plant_seeds] sets [_init] before it calls [stream(0)], so that call
    never comes back into [plant_seeds]: the knot is tied with a [stream]
    whose call of [plant_seeds] does nothing.  [plant_seeds_unfold] and
    [stream_unfold] below show that the two definitions satisfy the
    equations of the source, each calling the other. *)
Definition plant_seeds (x : Z) : M t unit :=
  plant_seeds_with (stream_with (fun _ => mret tt) 0) x.

Definition stream (stream_id : Z) : M t unit :=
  stream_with plant_seeds stream_id.

Definition get_streams_number : M t Z := gets _streams.

Definition rnd : M t Q :=
  m ← gets _modulus;
  a ← gets _multiplier;
  Q ← lift (Py.int_truediv m a);
  R ← lift (Py.mod_ m a);
  i ← gets _stream;
  s ← seeds_get i;
  lo ← lift (Py.mod_ s Q);
  s' ← seeds_get i;
  hi ← lift (Py.int_truediv s' Q);
  let t := a * lo - R * hi in
  _ ← (if 0 <? t then seeds_set i t else seeds_set i (t + m));
  s'' ← seeds_get i;
  lift (Py.truediv s'' m).

(** The constructor: the object exists only if [__init__] returns. *)
Definition __init__ (iseed modulus multiplier streams jumper : Z) : result t :=
  let g := mk iseed iseed 0 modulus multiplier streams jumper false
              (Py.repeat iseed streams) in
  match plant_seeds iseed g with
  | (Ok _, g') => Ok g'
  | (Raise e, _) => Raise e
  end.

(** A generator is well formed when its modulus is not zero and the
    active stream is one of its seeds; [__init__] builds only such
    generators and every method keeps them so. *)
Definition wf (g : t) : Prop :=
  _modulus g <> 0 /\ 0 <= _stream g < Z.of_nat (length (_seeds g)).

(** [for _ in range(0, n): generator.rnd()] *)
Fixpoint draws (n : nat) : M t unit :=
  match n with
  | O => mret tt
  | S n' => _ ← rnd; draws n'
  end.

(** The generator [MarcianiMultiStream()], all parameters at their
    defaults (see [default_generator_built]). *)
Definition default_generator : t := Eval vm_compute in
  match __init__ DEFAULT_ISEED DEFAULT_MODULUS DEFAULT_MULTIPLIER
                 DEFAULT_STREAMS DEFAULT_JUMPER with
  | Ok g => g
  | Raise _ => mk 0 0 0 0 0 0 0 false []
  end.

(** What [__init__] establishes and every method keeps: the modulus is not
    zero, there are as many seeds as streams, the active stream is one of
    them, and the seeds are planted. *)
Definition consistent (g : t) : Prop :=
  _modulus g <> 0 /\
  _streams g = Z.of_nat (length (_seeds g)) /\
  0 <= _stream g < _streams g /\
  _init g = true.

(** [same_shape g g']: [g'] is [g] but for the values of the seeds. *)
Definition same_shape (g g' : t) : Prop :=
  _iseed g' = _iseed g /\ _seed g' = _seed g /\ _stream g' = _stream g /\
  _modulus g' = _modulus g /\ _multiplier g' = _multiplier g /\
  _streams g' = _streams g /\ _jumper g' = _jumper g /\ _init g' = _init g /\
  length (_seeds g') = length (_seeds g).

(** [frame_at i g g']: [g'] is [g] but for the seed in the cell that index
    [i] denotes. *)
Definition frame_at (i : Z) (g g' : t) : Prop :=
  _iseed g' = _iseed g /\ _seed g' = _seed g /\ _stream g' = _stream g /\
  _modulus g' = _modulus g /\ _multiplier g' = _multiplier g /\
  _streams g' = _streams g /\ _jumper g' = _jumper g /\ _init g' = _init g /\
  length (_seeds g') = length (_seeds g) /\
  forall j : nat, Py.position (length (_seeds g)) i <> Some j ->
                  _seeds g' !! j = _seeds g !! j.

(** The state that [MarcianiMultiStream(1, 127, 14, 4, 14)] builds. *)
Definition example_generator : t :=
  mk 1 1 0 127 14 4 14 true [1; 14; 69; 77].

End MarcianiMultiStream.

Module MarcianiSingleStream.

Record t : Type := mk {
  _iseed : Z;
  _seed : Z;
  _modulus : Z;
  _multiplier : Z
}.

Definition set_seed (s : Z) (g : t) : t :=
  mk (_iseed g) s (_modulus g) (_multiplier g).

Definition __init__ (iseed modulus multiplier : Z) : t :=
  mk iseed iseed modulus multiplier.

Definition get_initial_seed : M t Z := gets _iseed.

Definition get_seed : M t Z := gets _seed.

(** The reduced [x] is a local: nothing is assigned to [self]. *)
Definition put_seed (x : Z) : M t unit :=
  x ← (if 0 <? x
       then m ← gets _modulus; lift (Py.mod_ x m)
       else raise ValueError);
  mret tt.

Definition rnd : M t Q :=
  m ← gets _modulus;
  a ← gets _multiplier;
  Q ← lift (Py.int_truediv m a);
  R ← lift (Py.mod_ m a);
  s ← gets _seed;
  lo ← lift (Py.mod_ s Q);
  hi ← lift (Py.int_truediv s Q);
  let t := a * lo - R * hi in
  _ ← (if 0 <? t then modify (set_seed t) else modify (set_seed (t + m)));
  s' ← gets _seed;
  lift (Py.truediv s' m).

Fixpoint draws (n : nat) : M t unit :=
  match n with
  | O => mret tt
  | S n' => _ ← rnd; draws n'
  end.

End MarcianiSingleStream.


(** ** Simulated time

    Event times, the clock and the horizon are Python floats, and the
    calendar only compares them.  A finite float is a rational, and
    [float("inf")] (the default horizon) is above all of them; comparison of
    floats is exact, so [leb] is the order the code tests.  [nan] is left
    out. *)

Module PyFloat.

Inductive t : Type :=
| fin (q : Q)
| inf.

(** [a <= b] *)
Definition leb (a b : t) : bool :=
  match a, b with
  | _, inf => true
  | inf, fin _ => false
  | fin x, fin y => Qle_bool x y
  end.

(** [a < b] *)
Definition ltb (a b : t) : bool := negb (leb b a).

(** [a >= b] *)
Definition geb (a b : t) : bool := leb b a.

Definition of_Z (z : Z) : t := fin (inject_Z z).

End PyFloat.

(** ** core/simulation/model/scope.py and event.py *)

(** Modelled from the spec: the enumerations [ActionScope], [SystemScope]
    and [TaskScope] and the class [EventType] (core/simulation/model/scope.py
    and event.py) are not part of the sources at hand.  An event type is a
    composite of an action, a scope and a task class; the members listed are
    the ones the spec and the callers name. *)
Inductive ActionScope : Set := ARRIVAL | COMPLETION.

(** Modelled from the spec: the scope of an event, one of the system as a
    whole, the Cloudlet and the Cloud (core/simulation/model/scope.py is not
    part of the sources at hand). *)
Inductive SystemScope : Set := SYSTEM | CLOUDLET | CLOUD.

(** Modelled from the spec: the two task classes
    (core/simulation/model/scope.py is not part of the sources at hand). *)
Inductive TaskScope : Set := TASK_1 | TASK_2.

Module EventType.

(** Modelled from the spec: an event type is the composite of an action, a
    scope and a task class (core/simulation/model/event.py is not part of
    the sources at hand); [of_] is [EventType.of]. *)
Record t : Set := of_ { act : ActionScope; sys : SystemScope; tsk : TaskScope }.

End EventType.

#[global] Instance ActionScope_eq_dec : EqDecision ActionScope.
Proof. solve_decision. Defined.
#[global] Instance SystemScope_eq_dec : EqDecision SystemScope.
Proof. solve_decision. Defined.
#[global] Instance TaskScope_eq_dec : EqDecision TaskScope.
Proof. solve_decision. Defined.
#[global] Instance EventType_eq_dec : EqDecision EventType.t.
Proof. solve_decision. Defined.

Definition EventType_code (ty : EventType.t) : nat * nat * nat :=
  (match EventType.act ty with ARRIVAL => 0 | COMPLETION => 1 end,
   match EventType.sys ty with SYSTEM => 0 | CLOUDLET => 1 | CLOUD => 2 end,
   match EventType.tsk ty with TASK_1 => 0 | TASK_2 => 1 end)%nat.

Definition EventType_decode (c : nat * nat * nat) : EventType.t :=
  let '(a, s, k) := c in
  EventType.of_
    (match a with O => ARRIVAL | _ => COMPLETION end)
    (match s with O => SYSTEM | 1%nat => CLOUDLET | _ => CLOUD end)
    (match k with O => TASK_1 | _ => TASK_2 end).

#[global] Instance EventType_countable : Countable EventType.t.
Proof.
  refine (inj_countable' EventType_code EventType_decode _).
  by intros [[] [] []].
Defined.

Module SimpleEvent.

(** Modelled from the spec: the class [SimpleEvent]
    (core/simulation/model/event.py) is not part of the sources at hand.  An
    event is a type and a time, immutable once created; the calendar
    tells events apart by identity, not by value, so [id] stands for the
    identity of the Python object. *)
Record t : Type := mk { id : nat; type : EventType.t; time : PyFloat.t }.

End SimpleEvent.

(** ** queue.PriorityQueue, by its contract

    Entries are the tuples [(ev.time, ev)].  [get] hands out an entry of
    least time; among entries of equal time the order is the one the spec
    asks for, first in first out.  The heap of the library does not keep
    that order among entries of equal time; the properties below are about
    times and hold of any queue that hands out an entry of least time.
    [get] on an empty queue waits for another thread to [put]: with the
    single thread of the simulator it never returns. *)

Module PriorityQueue.

Definition entry : Type := PyFloat.t * SimpleEvent.t.

Definition t : Type := list entry.

Definition empty (q : t) : bool :=
  match q with [] => true | _ => false end.

Fixpoint put (e : entry) (q : t) : t :=
  match q with
  | [] => [e]
  | e' :: q' => if PyFloat.ltb (fst e) (fst e') then e :: q else e' :: put e q'
  end.

End PriorityQueue.

(** What a call that may wait for ever does. *)
Inductive outcome (A : Type) : Type :=
| Returns (a : A)
| Blocks.
Arguments Returns {A} a.
Arguments Blocks {A}.

(** ** core/simulation/model/calendar.py *)

Module NextEventCalendar.

Record t : Type := mk {
  _clock : PyFloat.t;
  _stop : PyFloat.t;
  _arrival_types : gset EventType.t;
  _events : PriorityQueue.t;
  _ignore : gset nat
}.

Definition __init__ (t_clock t_stop : PyFloat.t) (arrival_types : gset EventType.t) : t :=
  mk t_clock t_stop arrival_types [] ∅.

Definition get_clock (c : t) : PyFloat.t := _clock c.

Definition set_clock (time : PyFloat.t) (c : t) : t :=
  mk time (_stop c) (_arrival_types c) (_events c) (_ignore c).

Definition schedule (ev : SimpleEvent.t) (c : t) : bool * t :=
  if bool_decide (SimpleEvent.type ev ∈ _arrival_types c)
     && PyFloat.geb (SimpleEvent.time ev) (_stop c)
  then (false, c)
  else (true, mk (_clock c) (_stop c) (_arrival_types c)
                 (PriorityQueue.put (SimpleEvent.time ev, ev) (_events c))
                 (_ignore c)).

Definition unschedule (events : list SimpleEvent.t) (c : t) : t :=
  mk (_clock c) (_stop c) (_arrival_types c) (_events c)
     (foldl (fun ign ev => {[SimpleEvent.id ev]} ∪ ign) (_ignore c) events).

(** The loop of [get_next_event], entered with [candidate] already popped
    and [events] the rest of the queue: as long as the candidate is to be
    ignored it is taken off the ignore set and the next entry is popped,
    with no test that one is left. *)
Fixpoint skip_ignored (candidate : SimpleEvent.t) (events : PriorityQueue.t)
    (ignore : gset nat) : outcome SimpleEvent.t * PriorityQueue.t * gset nat :=
  if bool_decide (SimpleEvent.id candidate ∈ ignore) then
    match events with
    | [] => (Blocks, [], ignore ∖ {[SimpleEvent.id candidate]})
    | (_, next) :: events' =>
        skip_ignored next events' (ignore ∖ {[SimpleEvent.id candidate]})
    end
  else (Returns candidate, events, ignore).

Definition get_next_event (c : t) : outcome (option SimpleEvent.t) * t :=
  match _events c with
  | [] => (Returns None, c)
  | (_, candidate) :: events =>
      match skip_ignored candidate events (_ignore c) with
      | (Returns ev, events', ignore') =>
          (Returns (Some ev),
           set_clock (SimpleEvent.time ev)
             (mk (_clock c) (_stop c) (_arrival_types c) events' ignore'))
      | (Blocks, events', ignore') =>
          (Blocks, mk (_clock c) (_stop c) (_arrival_types c) events' ignore')
      end
  end.

Definition empty (c : t) : bool := PriorityQueue.empty (_events c).

(** A run of the driver's calls against one calendar. *)
Inductive call : Type :=
| Schedule (ev : SimpleEvent.t)
| Unschedule (events : list SimpleEvent.t).

Definition perform (c : t) (k : call) : t :=
  match k with
  | Schedule ev => snd (schedule ev c)
  | Unschedule events => unschedule events c
  end.

Definition perform_all (ks : list call) (c : t) : t := foldl perform c ks.

(** [n] successive calls of [get_next_event]; the events they returned, in
    order, up to the first call that returned [None] or did not return. *)
Fixpoint next_events (n : nat) (c : t) : list SimpleEvent.t :=
  match n with
  | O => []
  | S n' =>
      match get_next_event c with
      | (Returns (Some ev), c') => ev :: next_events n' c'
      | _ => []
      end
  end.

(** The order of the queue: by the time the entry was put under. *)
Definition by_time (e1 e2 : PriorityQueue.entry) : Prop :=
  PyFloat.leb (fst e1) (fst e2) = true.

(** What [schedule] maintains: entries are in order of time and each is
    an event under its own time. *)
Definition well_queued (c : t) : Prop :=
  StronglySorted by_time (_events c) /\
  Forall (fun e => fst e = SimpleEvent.time (snd e)) (_events c).

(** No event object is in the queue twice. *)
Definition queued_once (c : t) : Prop :=
  NoDup (SimpleEvent.id <$> (snd <$> _events c)).

(** The events are in non-decreasing order of time. *)
Definition nondecreasing (evs : list SimpleEvent.t) : Prop :=
  StronglySorted
    (fun e1 e2 => PyFloat.leb (SimpleEvent.time e1) (SimpleEvent.time e2) = true)
    evs.

End NextEventCalendar.

(** ** core/simulation/model/taskgen.py *)

Definition STREAM_ARRIVAL_TYPE : Z := 100.
Definition STREAM_ARRIVAL_TIME : Z := 101.

Module SimpleTaskgen.

Section Taskgen.

(** Modelled from the spec: [exponential] (core/random/rndvar.py) is not
    part of the sources at hand; it turns a mean [m] and a uniform draw [u]
    into the duration [-m * ln(1 - u)].  It is taken as given, as is the
    float sum [t_clock + duration]. *)
Variable exponential : Q -> Q -> PyFloat.t.
Variable float_add : PyFloat.t -> PyFloat.t -> PyFloat.t.

(** The fields [_generate_exponential] reads; [rndgen] is the generator
    object the task generator shares with the rest of the simulation. *)
Record t : Type := mk {
  rndgen : MarcianiMultiStream.t;
  r_tot : Q;
  p1 : Q
}.

(** A method of [self.rndgen], called from a method of the task generator. *)
Definition on_rndgen {A} (m : M MarcianiMultiStream.t A) : M t A := fun s =>
  let '(r, g) := m (rndgen s) in (r, mk g (r_tot s) (p1 s)).

(** [1.0 / x] on floats, kept as the exact quotient the float approximates;
    a zero divisor raises. *)
Definition float_inv (x : Q) : result Q :=
  if Qeq_bool x 0 then Raise ZeroDivisionError else Ok (1 / x)%Q.

Definition _generate_exponential (t_clock : PyFloat.t) : M t (TaskScope * PyFloat.t) :=
  _ ← on_rndgen (MarcianiMultiStream.stream STREAM_ARRIVAL_TYPE);
  u ← on_rndgen MarcianiMultiStream.rnd;
  p ← gets p1;
  let tsk := if Qle_bool u p then TASK_1 else TASK_2 in
  r ← gets r_tot;
  m ← lift (float_inv r);
  u' ← on_rndgen MarcianiMultiStream.rnd;
  let t_event := float_add t_clock (exponential m u') in
  mret (tsk, t_event).

(** The arrival rates of the reference scenario: [3.25] and [6.25] tasks
    per second. *)
Definition reference (g : MarcianiMultiStream.t) : t :=
  mk g (19 # 2) (13 # 38).

End Taskgen.

End SimpleTaskgen.

(** ** core/simulations/cloud/model/system.py *)

(** A method that cannot raise: it returns a value and the new state. *)
Definition State (S A : Type) : Type := S -> A * S.

#[global] Instance State_ret {S} : MRet (State S) := fun A a s => (a, s).
#[global] Instance State_bind {S} : MBind (State S) := fun A B k m s =>
  let '(a, s') := m s in k a s'.

Module SimpleCloudletCloudSystem.

(** Modelled from the spec: the classes [SimpleCloudLet]
    (core/simulations/cloud/model/cloudlet.py), [SimpleCloud] (cloud.py) and
    [SimpleSampleStatistics] (core/statistics/sample_statistics.py) are not
    part of the sources at hand.  The system is stated over any
    implementation of the attributes it reads and the methods it calls.
    Cloudlet and Cloud were both built with the generator [rndgen] and draw
    their durations from it, so their methods act on the tier together with
    that shared generator; by the spec routing never fails, so they return,
    and each of those that emit a completion event returns that event.
    The float operations [+] and [-] of the bookkeeping are part of the
    interface too. *)
Class Tiers : Type := {
  Cloudlet : Type;
  Cloud : Type;
  SampleStatistic : Type;
  cloudlet_n_1 : Cloudlet -> Z;
  cloudlet_n_2 : Cloudlet -> Z;
  cloudlet_n_servers : Cloudlet -> Z;
  cloudlet_threshold : Cloudlet -> Z;
  cloudlet_submit_arrival_task_1 :
    PyFloat.t -> State (Cloudlet * MarcianiMultiStream.t) SimpleEvent.t;
  cloudlet_submit_arrival_task_2 :
    PyFloat.t -> State (Cloudlet * MarcianiMultiStream.t) SimpleEvent.t;
  cloudlet_submit_removal_task_2 :
    PyFloat.t -> State (Cloudlet * MarcianiMultiStream.t) SimpleEvent.t;
  cloudlet_submit_completion_task_1 :
    PyFloat.t -> State (Cloudlet * MarcianiMultiStream.t) unit;
  cloudlet_submit_completion_task_2 :
    PyFloat.t -> State (Cloudlet * MarcianiMultiStream.t) unit;
  cloud_submit_arrival_task_1 :
    PyFloat.t -> State (Cloud * MarcianiMultiStream.t) SimpleEvent.t;
  cloud_submit_arrival_task_2 :
    PyFloat.t -> State (Cloud * MarcianiMultiStream.t) SimpleEvent.t;
  cloud_submit_restart_task_2 :
    PyFloat.t -> State (Cloud * MarcianiMultiStream.t) SimpleEvent.t;
  cloud_submit_completion_task_1 :
    PyFloat.t -> State (Cloud * MarcianiMultiStream.t) unit;
  cloud_submit_completion_task_2 :
    PyFloat.t -> State (Cloud * MarcianiMultiStream.t) unit;
  add_value : PyFloat.t -> SampleStatistic -> SampleStatistic;
  float_add : PyFloat.t -> PyFloat.t -> PyFloat.t;
  float_sub : PyFloat.t -> PyFloat.t -> PyFloat.t
}.

Section System.

Context {tiers : Tiers}.

Record t : Type := mk {
  cloudlet : Cloudlet;
  cloud : Cloud;
  rndgen : MarcianiMultiStream.t;
  n_1 : Z;
  n_2 : Z;
  n_arrival_1 : Z;
  n_arrival_2 : Z;
  n_served_1 : Z;
  n_served_2 : Z;
  response_time : SampleStatistic;
  t_last_event : PyFloat.t;
  t_last_completion : PyFloat.t;
  area_service : PyFloat.t
}.

Definition set_cloudlet (v : Cloudlet) (s : t) : t :=
  mk v (cloud s) (rndgen s) (n_1 s) (n_2 s) (n_arrival_1 s) (n_arrival_2 s)
     (n_served_1 s) (n_served_2 s) (response_time s) (t_last_event s)
     (t_last_completion s) (area_service s).
Definition set_cloud (v : Cloud) (s : t) : t :=
  mk (cloudlet s) v (rndgen s) (n_1 s) (n_2 s) (n_arrival_1 s)
     (n_arrival_2 s) (n_served_1 s) (n_served_2 s) (response_time s)
     (t_last_event s) (t_last_completion s) (area_service s).
Definition set_rndgen (v : MarcianiMultiStream.t) (s : t) : t :=
  mk (cloudlet s) (cloud s) v (n_1 s) (n_2 s) (n_arrival_1 s)
     (n_arrival_2 s) (n_served_1 s) (n_served_2 s) (response_time s)
     (t_last_event s) (t_last_completion s) (area_service s).
Definition set_n_1 (v : Z) (s : t) : t :=
  mk (cloudlet s) (cloud s) (rndgen s) v (n_2 s) (n_arrival_1 s)
     (n_arrival_2 s) (n_served_1 s) (n_served_2 s) (response_time s)
     (t_last_event s) (t_last_completion s) (area_service s).
Definition set_n_2 (v : Z) (s : t) : t :=
  mk (cloudlet s) (cloud s) (rndgen s) (n_1 s) v (n_arrival_1 s)
     (n_arrival_2 s) (n_served_1 s) (n_served_2 s) (response_time s)
     (t_last_event s) (t_last_completion s) (area_service s).
Definition set_n_arrival_1 (v : Z) (s : t) : t :=
  mk (cloudlet s) (cloud s) (rndgen s) (n_1 s) (n_2 s) v (n_arrival_2 s)
     (n_served_1 s) (n_served_2 s) (response_time s) (t_last_event s)
     (t_last_completion s) (area_service s).
Definition set_n_arrival_2 (v : Z) (s : t) : t :=
  mk (cloudlet s) (cloud s) (rndgen s) (n_1 s) (n_2 s) (n_arrival_1 s) v
     (n_served_1 s) (n_served_2 s) (response_time s) (t_last_event s)
     (t_last_completion s) (area_service s).
Definition set_n_served_1 (v : Z) (s : t) : t :=
  mk (cloudlet s) (cloud s) (rndgen s) (n_1 s) (n_2 s) (n_arrival_1 s)
     (n_arrival_2 s) v (n_served_2 s) (response_time s) (t_last_event s)
     (t_last_completion s) (area_service s).
Definition set_n_served_2 (v : Z) (s : t) : t :=
  mk (cloudlet s) (cloud s) (rndgen s) (n_1 s) (n_2 s) (n_arrival_1 s)
     (n_arrival_2 s) (n_served_1 s) v (response_time s) (t_last_event s)
     (t_last_completion s) (area_service s).
Definition set_response_time (v : SampleStatistic) (s : t) : t :=
  mk (cloudlet s) (cloud s) (rndgen s) (n_1 s) (n_2 s) (n_arrival_1 s)
     (n_arrival_2 s) (n_served_1 s) (n_served_2 s) v (t_last_event s)
     (t_last_completion s) (area_service s).
Definition set_t_last_event (v : PyFloat.t) (s : t) : t :=
  mk (cloudlet s) (cloud s) (rndgen s) (n_1 s) (n_2 s) (n_arrival_1 s)
     (n_arrival_2 s) (n_served_1 s) (n_served_2 s) (response_time s) v
     (t_last_completion s) (area_service s).
Definition set_t_last_completion (v : PyFloat.t) (s : t) : t :=
  mk (cloudlet s) (cloud s) (rndgen s) (n_1 s) (n_2 s) (n_arrival_1 s)
     (n_arrival_2 s) (n_served_1 s) (n_served_2 s) (response_time s)
     (t_last_event s) v (area_service s).
Definition set_area_service (v : PyFloat.t) (s : t) : t :=
  mk (cloudlet s) (cloud s) (rndgen s) (n_1 s) (n_2 s) (n_arrival_1 s)
     (n_arrival_2 s) (n_served_1 s) (n_served_2 s) (response_time s)
     (t_last_event s) (t_last_completion s) v.

(** The constructor, given the tiers it builds from its configuration and
    an empty response-time statistic. *)
Definition __init__ (g : MarcianiMultiStream.t) (cl : Cloudlet) (cd : Cloud)
    (rt : SampleStatistic) : t :=
  mk cl cd g 0 0 0 0 0 0 rt (PyFloat.of_Z 0) (PyFloat.of_Z 0) (PyFloat.of_Z 0).

Definition modify (f : t -> t) : State t unit := fun s => (tt, f s).
Definition gets {A} (f : t -> A) : State t A := fun s => (f s, s).

(** A method of [self.cloudlet], called from a method of the system. *)
Definition on_cloudlet {A} (m : State (Cloudlet * MarcianiMultiStream.t) A) : State t A :=
  fun s => let '(a, (cl, g)) := m (cloudlet s, rndgen s) in
           (a, set_rndgen g (set_cloudlet cl s)).

(** A method of [self.cloud], called from a method of the system. *)
Definition on_cloud {A} (m : State (Cloud * MarcianiMultiStream.t) A) : State t A :=
  fun s => let '(a, (cd, g)) := m (cloud s, rndgen s) in
           (a, set_rndgen g (set_cloud cd s)).

Definition empty : State t bool :=
  gets (fun s => n_1 s + n_2 s =? 0).

(** The lines under [# Update meta] of an arrival. *)
Definition update_meta_arrival (event_time : PyFloat.t) : State t unit :=
  busy ← gets (fun s => 0 <? n_1 s + n_2 s);
  _ ← (if busy : bool
       then modify (fun s =>
              set_area_service
                (float_add (area_service s)
                           (float_sub event_time (t_last_event s))) s)
       else mret tt);
  modify (set_t_last_event event_time).

(** The lines under [# Update meta] of a completion. *)
Definition update_meta_completion (event_time : PyFloat.t) : State t unit :=
  _ ← update_meta_arrival event_time;
  modify (set_t_last_completion event_time).

(** The lines under [# Update statistics] of an arrival. *)
Definition update_statistics (completion_event : SimpleEvent.t)
    (event_time : PyFloat.t) : State t unit :=
  let t_service := float_sub (SimpleEvent.time completion_event) event_time in
  modify (fun s => set_response_time (add_value t_service (response_time s)) s).

Definition submit_arrival_task_1 (event_time : PyFloat.t)
  : State t (SimpleEvent.t * option SimpleEvent.t * option SimpleEvent.t) :=
  _ ← modify (fun s => set_n_1 (n_1 s + 1) s);
  _ ← modify (fun s => set_n_arrival_1 (n_arrival_1 s + 1) s);
  _ ← update_meta_arrival event_time;
  cl ← gets cloudlet;
  if cloudlet_n_1 cl =? cloudlet_n_servers cl then
    completion_event ← on_cloud (cloud_submit_arrival_task_1 event_time);
    _ ← update_statistics completion_event event_time;
    mret (completion_event, None, None)
  else if cloudlet_n_1 cl + cloudlet_n_2 cl <? cloudlet_threshold cl then
    completion_event ← on_cloudlet (cloudlet_submit_arrival_task_1 event_time);
    _ ← update_statistics completion_event event_time;
    mret (completion_event, None, None)
  else if 0 <? cloudlet_n_2 cl then
    completion_to_ignore ← on_cloudlet (cloudlet_submit_removal_task_2 event_time);
    completion_restart_event ← on_cloud (cloud_submit_restart_task_2 event_time);
    completion_event ← on_cloudlet (cloudlet_submit_arrival_task_1 event_time);
    _ ← update_statistics completion_event event_time;
    mret (completion_event, Some completion_restart_event, Some completion_to_ignore)
  else
    completion_event ← on_cloudlet (cloudlet_submit_arrival_task_1 event_time);
    _ ← update_statistics completion_event event_time;
    mret (completion_event, None, None).

Definition submit_arrival_task_2 (event_time : PyFloat.t) : State t SimpleEvent.t :=
  _ ← modify (fun s => set_n_2 (n_2 s + 1) s);
  _ ← modify (fun s => set_n_arrival_2 (n_arrival_2 s + 1) s);
  _ ← update_meta_arrival event_time;
  cl ← gets cloudlet;
  if cloudlet_threshold cl <=? cloudlet_n_1 cl + cloudlet_n_2 cl then
    completion_event ← on_cloud (cloud_submit_arrival_task_2 event_time);
    _ ← update_statistics completion_event event_time;
    mret completion_event
  else
    completion_event ← on_cloudlet (cloudlet_submit_arrival_task_2 event_time);
    _ ← update_statistics completion_event event_time;
    mret completion_event.

Definition submit_completion_cloudlet_task_1 (event_time : PyFloat.t) : State t unit :=
  _ ← modify (fun s => set_n_1 (n_1 s - 1) s);
  _ ← modify (fun s => set_n_served_1 (n_served_1 s + 1) s);
  _ ← update_meta_completion event_time;
  on_cloudlet (cloudlet_submit_completion_task_1 event_time).

Definition submit_completion_cloudlet_task_2 (event_time : PyFloat.t) : State t unit :=
  _ ← modify (fun s => set_n_2 (n_2 s - 1) s);
  _ ← modify (fun s => set_n_served_2 (n_served_2 s + 1) s);
  _ ← update_meta_completion event_time;
  on_cloudlet (cloudlet_submit_completion_task_2 event_time).

Definition submit_completion_cloud_task_1 (event_time : PyFloat.t) : State t unit :=
  _ ← modify (fun s => set_n_1 (n_1 s - 1) s);
  _ ← modify (fun s => set_n_served_1 (n_served_1 s + 1) s);
  _ ← update_meta_completion event_time;
  on_cloud (cloud_submit_completion_task_1 event_time).

Definition submit_completion_cloud_task_2 (event_time : PyFloat.t) : State t unit :=
  _ ← modify (fun s => set_n_2 (n_2 s - 1) s);
  _ ← modify (fun s => set_n_served_2 (n_served_2 s + 1) s);
  _ ← update_meta_completion event_time;
  on_cloud (cloud_submit_completion_task_2 event_time).

(** The six submissions the driver makes, and a run of them. *)
Inductive submission : Type :=
| ARRIVAL_TASK_1 (event_time : PyFloat.t)
| ARRIVAL_TASK_2 (event_time : PyFloat.t)
| COMPLETION_CLOUDLET_TASK_1 (event_time : PyFloat.t)
| COMPLETION_CLOUDLET_TASK_2 (event_time : PyFloat.t)
| COMPLETION_CLOUD_TASK_1 (event_time : PyFloat.t)
| COMPLETION_CLOUD_TASK_2 (event_time : PyFloat.t).

Definition submit (s : t) (e : submission) : t :=
  match e with
  | ARRIVAL_TASK_1 time => snd (submit_arrival_task_1 time s)
  | ARRIVAL_TASK_2 time => snd (submit_arrival_task_2 time s)
  | COMPLETION_CLOUDLET_TASK_1 time => snd (submit_completion_cloudlet_task_1 time s)
  | COMPLETION_CLOUDLET_TASK_2 time => snd (submit_completion_cloudlet_task_2 time s)
  | COMPLETION_CLOUD_TASK_1 time => snd (submit_completion_cloud_task_1 time s)
  | COMPLETION_CLOUD_TASK_2 time => snd (submit_completion_cloud_task_2 time s)
  end.

Definition submit_all (es : list submission) (s : t) : t := foldl submit s es.

(** Arrivals and completions of a task class among the submissions. *)
Definition is_arrival (k : TaskScope) (e : submission) : bool :=
  match k, e with
  | TASK_1, ARRIVAL_TASK_1 _ | TASK_2, ARRIVAL_TASK_2 _ => true
  | _, _ => false
  end.

Definition is_completion (k : TaskScope) (e : submission) : bool :=
  match k, e with
  | TASK_1, COMPLETION_CLOUDLET_TASK_1 _ | TASK_1, COMPLETION_CLOUD_TASK_1 _
  | TASK_2, COMPLETION_CLOUDLET_TASK_2 _ | TASK_2, COMPLETION_CLOUD_TASK_2 _ => true
  | _, _ => false
  end.

Definition arrivals (k : TaskScope) (es : list submission) : Z :=
  Z.of_nat (length (filter (fun e => is_arrival k e = true) es)).

Definition completions (k : TaskScope) (es : list submission) : Z :=
  Z.of_nat (length (filter (fun e => is_completion k e = true) es)).

(** Each completion submitted so far is matched by an earlier arrival of
    its class. *)
Definition matched (es : list submission) : Prop :=
  forall (p : list submission) (k : TaskScope),
    p `prefix_of` es -> completions k p <= arrivals k p.

(** The in-service count of a class. *)
Definition in_service (k : TaskScope) (s : t) : Z :=
  match k with TASK_1 => n_1 s | TASK_2 => n_2 s end.

(** A submission counts [+1] for an arrival of the class, [-1] for a
    completion of the class. *)
Definition weight (k : TaskScope) (e : submission) : Z :=
  (if is_arrival k e then 1 else 0) - (if is_completion k e then 1 else 0).

End System.

End SimpleCloudletCloudSystem.

(** ** A deterministic pair of tiers

    An implementation of [Tiers] with deterministic service and setup times
    (one of the two duration laws the spec requires), on which the system
    can be run.  Deterministic durations draw nothing from the generator. *)

Module Deterministic.

(** Modelled from the spec: the sum of two times, exact on finite ones (the
    float sum rounds it). *)
Definition float_add (a b : PyFloat.t) : PyFloat.t :=
  match a, b with
  | PyFloat.fin x, PyFloat.fin y => PyFloat.fin (x + y)
  | _, _ => PyFloat.inf
  end.

(** Modelled from the spec: the difference of two times, exact on finite
    ones.  Differences with an infinite subtrahend do not occur: event times
    are finite. *)
Definition float_sub (a b : PyFloat.t) : PyFloat.t :=
  match a, b with
  | PyFloat.fin x, PyFloat.fin y => PyFloat.fin (x - y)
  | PyFloat.inf, PyFloat.fin _ => PyFloat.inf
  | _, PyFloat.inf => PyFloat.fin 0
  end.

(** Modelled from the spec: a Cloudlet (cloudlet.py is not part of the
    sources at hand) holds its occupancy counts, its number of servers and
    its threshold; this one has fixed service times and keeps the pending
    completion events of its type-2 tasks, so that a removal can hand back
    the completion to cancel.  [created] counts the events it made: they get
    the even identities. *)
Record Cloudlet : Type := mkCloudlet {
  n_1 : Z;
  n_2 : Z;
  n_servers : Z;
  threshold : Z;
  t_service_1 : Q;
  t_service_2 : Q;
  serving_2 : list SimpleEvent.t;
  created : nat
}.

(** Modelled from the spec: a Cloud (cloud.py is not part of the sources
    at hand) holds its occupancy counts; this one has fixed service times and
    a fixed setup time.  The events it makes get the odd identities. *)
Record Cloud : Type := mkCloud {
  cloud_n_1 : Z;
  cloud_n_2 : Z;
  cloud_t_service_1 : Q;
  cloud_t_service_2 : Q;
  t_setup : Q;
  cloud_created : nat
}.

(** Modelled from the spec: the completion event of a task that enters
    service at [event_time] for [duration]. *)
Definition completion (id : nat) (sys : SystemScope) (tsk : TaskScope)
    (event_time : PyFloat.t) (duration : Q) : SimpleEvent.t :=
  SimpleEvent.mk id (EventType.of_ COMPLETION sys tsk)
                 (float_add event_time (PyFloat.fin duration)).

(** Modelled from the spec: an admission samples one service duration of
    the class and returns the completion event at [t + duration]. *)
Definition cloudlet_arrival_task_1 (event_time : PyFloat.t)
  : State (Cloudlet * MarcianiMultiStream.t) SimpleEvent.t := fun '(c, g) =>
  let ev := completion (2 * created c) CLOUDLET TASK_1 event_time (t_service_1 c) in
  (ev, (mkCloudlet (n_1 c + 1) (n_2 c) (n_servers c) (threshold c)
          (t_service_1 c) (t_service_2 c) (serving_2 c) (S (created c)), g)).

(** Modelled from the spec: as for type 1, and the completion is kept as
    pending. *)
Definition cloudlet_arrival_task_2 (event_time : PyFloat.t)
  : State (Cloudlet * MarcianiMultiStream.t) SimpleEvent.t := fun '(c, g) =>
  let ev := completion (2 * created c) CLOUDLET TASK_2 event_time (t_service_2 c) in
  (ev, (mkCloudlet (n_1 c) (n_2 c + 1) (n_servers c) (threshold c)
          (t_service_1 c) (t_service_2 c) (serving_2 c ++ [ev]) (S (created c)), g)).

(** Modelled from the spec: a removal takes one type-2 task out of the
    Cloudlet and hands back its pending completion event; the spec leaves
    the choice of the task open, this one takes the task that entered
    first. *)
Definition cloudlet_removal_task_2 (event_time : PyFloat.t)
  : State (Cloudlet * MarcianiMultiStream.t) SimpleEvent.t := fun '(c, g) =>
  let ev := default (completion (2 * created c) CLOUDLET TASK_2 event_time 0)
                    (head (serving_2 c)) in
  (ev, (mkCloudlet (n_1 c) (n_2 c - 1) (n_servers c) (threshold c)
          (t_service_1 c) (t_service_2 c) (tail (serving_2 c)) (created c), g)).

(** Modelled from the spec: a completion decrements the occupancy counter
    of its class. *)
Definition cloudlet_completion_task_1 (event_time : PyFloat.t)
  : State (Cloudlet * MarcianiMultiStream.t) unit := fun '(c, g) =>
  (tt, (mkCloudlet (n_1 c - 1) (n_2 c) (n_servers c) (threshold c)
          (t_service_1 c) (t_service_2 c) (serving_2 c) (created c), g)).

(** Modelled from the spec: as for type 1; the completions due by
    [event_time] are no longer pending. *)
Definition cloudlet_completion_task_2 (event_time : PyFloat.t)
  : State (Cloudlet * MarcianiMultiStream.t) unit := fun '(c, g) =>
  (tt, (mkCloudlet (n_1 c) (n_2 c - 1) (n_servers c) (threshold c)
          (t_service_1 c) (t_service_2 c)
          (filter (fun ev => PyFloat.ltb event_time (SimpleEvent.time ev) = true)
                  (serving_2 c))
          (created c), g)).

(** Modelled from the spec: the Cloud admits without bound; a type-2 task
    pays the setup time before its service, on arrival as on restart. *)
Definition cloud_arrival (tsk : TaskScope) (setup : bool) (event_time : PyFloat.t)
  : State (Cloud * MarcianiMultiStream.t) SimpleEvent.t := fun '(c, g) =>
  let service := match tsk with
                 | TASK_1 => cloud_t_service_1 c
                 | TASK_2 => cloud_t_service_2 c
                 end in
  let duration := if setup then (t_setup c + service)%Q else service in
  let ev := completion (2 * cloud_created c + 1) CLOUD tsk event_time duration in
  (ev, (mkCloud (match tsk with TASK_1 => cloud_n_1 c + 1 | TASK_2 => cloud_n_1 c end)
                (match tsk with TASK_1 => cloud_n_2 c | TASK_2 => cloud_n_2 c + 1 end)
                (cloud_t_service_1 c) (cloud_t_service_2 c) (t_setup c)
                (S (cloud_created c)), g)).

(** Modelled from the spec: a completion decrements the occupancy counter
    of its class. *)
Definition cloud_completion (tsk : TaskScope) (event_time : PyFloat.t)
  : State (Cloud * MarcianiMultiStream.t) unit := fun '(c, g) =>
  (tt, (mkCloud (match tsk with TASK_1 => cloud_n_1 c - 1 | TASK_2 => cloud_n_1 c end)
                (match tsk with TASK_1 => cloud_n_2 c | TASK_2 => cloud_n_2 c - 1 end)
                (cloud_t_service_1 c) (cloud_t_service_2 c) (t_setup c)
                (cloud_created c), g)).

(** Modelled from the spec: the deterministic tiers as an implementation
    of the interface; the response-time statistic is the list of the values
    added. *)
#[global] Instance tiers : SimpleCloudletCloudSystem.Tiers := {|
  SimpleCloudletCloudSystem.Cloudlet := Cloudlet;
  SimpleCloudletCloudSystem.Cloud := Cloud;
  SimpleCloudletCloudSystem.SampleStatistic := list PyFloat.t;
  SimpleCloudletCloudSystem.cloudlet_n_1 := n_1;
  SimpleCloudletCloudSystem.cloudlet_n_2 := n_2;
  SimpleCloudletCloudSystem.cloudlet_n_servers := n_servers;
  SimpleCloudletCloudSystem.cloudlet_threshold := threshold;
  SimpleCloudletCloudSystem.cloudlet_submit_arrival_task_1 := cloudlet_arrival_task_1;
  SimpleCloudletCloudSystem.cloudlet_submit_arrival_task_2 := cloudlet_arrival_task_2;
  SimpleCloudletCloudSystem.cloudlet_submit_removal_task_2 := cloudlet_removal_task_2;
  SimpleCloudletCloudSystem.cloudlet_submit_completion_task_1 := cloudlet_completion_task_1;
  SimpleCloudletCloudSystem.cloudlet_submit_completion_task_2 := cloudlet_completion_task_2;
  SimpleCloudletCloudSystem.cloud_submit_arrival_task_1 := cloud_arrival TASK_1 false;
  SimpleCloudletCloudSystem.cloud_submit_arrival_task_2 := cloud_arrival TASK_2 true;
  SimpleCloudletCloudSystem.cloud_submit_restart_task_2 := cloud_arrival TASK_2 true;
  SimpleCloudletCloudSystem.cloud_submit_completion_task_1 := cloud_completion TASK_1;
  SimpleCloudletCloudSystem.cloud_submit_completion_task_2 := cloud_completion TASK_2;
  SimpleCloudletCloudSystem.add_value := cons;
  SimpleCloudletCloudSystem.float_add := float_add;
  SimpleCloudletCloudSystem.float_sub := float_sub
|}.

(** A new system over a two-server Cloudlet with threshold two. *)
Definition small_system (g : MarcianiMultiStream.t) : SimpleCloudletCloudSystem.t :=
  SimpleCloudletCloudSystem.__init__ g
    (mkCloudlet 0 0 2 2 (20 # 9) (10 # 3) [] 0)
    (mkCloud 0 0 4 (50 # 11) (4 # 5) 0)
    [].

(** The small system after two type-2 arrivals: the Cloudlet is at its
    threshold, holds no type-1 task and two type-2 tasks. *)
Definition saturated_system : SimpleCloudletCloudSystem.t :=
  SimpleCloudletCloudSystem.submit_all
    [SimpleCloudletCloudSystem.ARRIVAL_TASK_2 (PyFloat.of_Z 0);
     SimpleCloudletCloudSystem.ARRIVAL_TASK_2 (PyFloat.of_Z 1)]
    (small_system MarcianiMultiStream.example_generator).

(** A run in which every completion follows an arrival of its class. *)
Definition example_run : list SimpleCloudletCloudSystem.submission :=
  [SimpleCloudletCloudSystem.ARRIVAL_TASK_1 (PyFloat.of_Z 0);
   SimpleCloudletCloudSystem.ARRIVAL_TASK_2 (PyFloat.of_Z 1);
   SimpleCloudletCloudSystem.COMPLETION_CLOUDLET_TASK_1 (PyFloat.of_Z 3);
   SimpleCloudletCloudSystem.ARRIVAL_TASK_1 (PyFloat.of_Z 4)].

End Deterministic.

(** ** core/simulation/model/statistics.py *)

(** Modelled from the spec: the classes [BatchedMeasure],
    [BatchedSampleStatistic] and [BatchedSamplePathStatistic]
    (core/statistics/batch_means.py) are not part of the sources at hand.
    Each owns a growing ordered sequence of closed-batch values and one open
    accumulator; [register_batch] seals the open batch as one data point,
    appends it and resets the accumulator to its identity value;
    [discard_batch] drops the open batch without sealing it.  How an open
    batch is reduced to its value ([seal]) differs between the three
    classes and is left to each. *)
Class Accumulator (O V : Type) : Type := {
  identity : O;
  seal : O -> V
}.

Module Batched.

(** Modelled from the spec: an accumulator owns the ordered sequence of
    its closed-batch values and one open accumulator. *)
Record t (O V : Type) : Type := mk { closed : list V; open : O }.
Arguments mk {O V} closed open.
Arguments closed {O V} _.
Arguments open {O V} _.

(** Modelled from the spec: a new accumulator has no closed batch and an
    empty open one. *)
Definition __init__ {O V} `{!Accumulator O V} : t O V := mk [] identity.

(** Modelled from the spec: seal the open batch as one data point, append
    it, reset the accumulator. *)
Definition register_batch {O V} `{!Accumulator O V} (b : t O V) : t O V :=
  mk (closed b ++ [seal (open b)]) identity.

(** Modelled from the spec: drop the open batch without sealing it. *)
Definition discard_batch {O V} `{!Accumulator O V} (b : t O V) : t O V :=
  mk (closed b) identity.

(** Modelled from the spec: the number of sealed batches held, the length
    of the closed sequence. *)
Definition sealed {O V} (b : t O V) : Z := Z.of_nat (length (closed b)).

(** Modelled from the spec: [b'] is [b] with its open batch sealed: the
    closed batches of [b] followed by the value of its open batch, and an
    empty open batch. *)
Definition seals {O V} `{!Accumulator O V} (b b' : t O V) : Prop :=
  closed b' = closed b ++ [seal (open b)] /\ open b' = identity.

End Batched.

Module BatchStatistics.

Section Group.

Context {Measure SampleStatistic SamplePathStatistic V : Type}.
Context {measure : Accumulator Measure V}.
Context {sample : Accumulator SampleStatistic V}.
Context {sample_path : Accumulator SamplePathStatistic V}.

Record t : Type := mk {
  arrived : Batched.t Measure V;
  completed : Batched.t Measure V;
  switched : Batched.t Measure V;
  service : Batched.t Measure V;
  n : Batched.t SampleStatistic V;
  response : Batched.t SampleStatistic V;
  throughput : Batched.t SamplePathStatistic V;
  n_batches : Z
}.

Definition __init__ : t :=
  mk Batched.__init__ Batched.__init__ Batched.__init__ Batched.__init__
     Batched.__init__ Batched.__init__ Batched.__init__ 0.

Definition register_batch (s : t) : t :=
  mk (Batched.register_batch (arrived s))
     (Batched.register_batch (completed s))
     (Batched.register_batch (switched s))
     (Batched.register_batch (service s))
     (Batched.register_batch (n s))
     (Batched.register_batch (response s))
     (Batched.register_batch (throughput s))
     (n_batches s + 1).

Definition discard_batch (s : t) : t :=
  mk (Batched.discard_batch (arrived s))
     (Batched.discard_batch (completed s))
     (Batched.discard_batch (switched s))
     (Batched.discard_batch (service s))
     (Batched.discard_batch (n s))
     (Batched.discard_batch (response s))
     (Batched.discard_batch (throughput s))
     (n_batches s).

(** The numbers of sealed batches of the seven accumulators. *)
Definition sealed_counts (s : t) : list Z :=
  [Batched.sealed (arrived s); Batched.sealed (completed s);
   Batched.sealed (switched s); Batched.sealed (service s);
   Batched.sealed (n s); Batched.sealed (response s);
   Batched.sealed (throughput s)].

(** Every accumulator of the group holds [k] sealed batches. *)
Definition all_sealed (k : Z) (s : t) : Prop :=
  Batched.sealed (arrived s) = k /\ Batched.sealed (completed s) = k /\
  Batched.sealed (switched s) = k /\ Batched.sealed (service s) = k /\
  Batched.sealed (n s) = k /\ Batched.sealed (response s) = k /\
  Batched.sealed (throughput s) = k.

(** Every accumulator of the group has an empty open batch. *)
Definition all_reset (s : t) : Prop :=
  Batched.open (arrived s) = identity /\ Batched.open (completed s) = identity /\
  Batched.open (switched s) = identity /\ Batched.open (service s) = identity /\
  Batched.open (n s) = identity /\ Batched.open (response s) = identity /\
  Batched.open (throughput s) = identity.

(** [s'] is [s] with the open batch of every accumulator sealed. *)
Definition all_seal (s s' : t) : Prop :=
  Batched.seals (arrived s) (arrived s') /\
  Batched.seals (completed s) (completed s') /\
  Batched.seals (switched s) (switched s') /\
  Batched.seals (service s) (service s') /\
  Batched.seals (n s) (n s') /\
  Batched.seals (response s) (response s') /\
  Batched.seals (throughput s) (throughput s').

End Group.

End BatchStatistics.


(** ** core/random/rndgen.py: the multipliers the recurrence is written for *)

Module Lehmer.

(** A multiplier [a] is modulus-compatible with the modulus [m] when the
    remainder of [m] by [a] is below their quotient: the condition under
    which the recurrence of [rnd] and of [plant_seeds], which splits the seed
    by [Q = m / a] and [R = m % a], computes [a * seed mod m]. *)
Definition compatible (m a : Z) : Prop :=
  0 < a /\ 0 < m /\ m mod a < m / a.

End Lehmer.

(** The seeds [l] follow the jump relation up to position [upto]: each of
    the seeds at positions [1 .. upto - 1] lies in [(0, m]] and is congruent
    modulo [m] to the jumper [G] times the seed before it. *)
Definition planted (m G : Z) (upto : nat) (l : list Z) : Prop :=
  forall k : nat, (1 <= k < upto)%nat ->
    exists prev cur : Z,
      l !! (k - 1)%nat = Some prev /\ l !! k = Some cur /\
      0 < cur <= m /\ cur mod m = (G * prev) mod m.

(** ** core/simulation/model/calendar.py: what the queue never holds *)

(** No queued event of an arrival type is at or past the horizon. *)
Definition within_horizon (c : NextEventCalendar.t) : Prop :=
  Forall (fun e : PriorityQueue.entry =>
            SimpleEvent.type (snd e) ∈ NextEventCalendar._arrival_types c ->
            PyFloat.ltb (SimpleEvent.time (snd e)) (NextEventCalendar._stop c) = true)
         (NextEventCalendar._events c).

(** A calendar with horizon 10 after three completions were scheduled, at
    times 3, 1 and 2, and the one at time 1 was cancelled. *)
Definition example_calendar : NextEventCalendar.t :=
  NextEventCalendar.perform_all
    [NextEventCalendar.Schedule
       (SimpleEvent.mk 0 (EventType.of_ COMPLETION CLOUDLET TASK_1) (PyFloat.of_Z 3));
     NextEventCalendar.Schedule
       (SimpleEvent.mk 1 (EventType.of_ COMPLETION CLOUDLET TASK_2) (PyFloat.of_Z 1));
     NextEventCalendar.Schedule
       (SimpleEvent.mk 2 (EventType.of_ COMPLETION CLOUD TASK_2) (PyFloat.of_Z 2));
     NextEventCalendar.Unschedule
       [SimpleEvent.mk 1 (EventType.of_ COMPLETION CLOUDLET TASK_2) (PyFloat.of_Z 1)]]
    (NextEventCalendar.__init__ (PyFloat.of_Z 0) (PyFloat.of_Z 10)
       {[EventType.of_ ARRIVAL SYSTEM TASK_1; EventType.of_ ARRIVAL SYSTEM TASK_2]}).

(** ** core/simulations/cloud/model/system.py: throughput and utilization *)

Module SystemMetrics.

Section Metrics.

Import SimpleCloudletCloudSystem.

Context {tiers : Tiers}.

(** The float quotients [n / y] of an integer by a float and [x / y] of two
    floats, for a divisor other than zero, are taken as given (the division
    rounds). *)
Variable int_div_float : Z -> PyFloat.t -> PyFloat.t.
Variable float_div : PyFloat.t -> PyFloat.t -> PyFloat.t.

(** [y == 0.0] *)
Definition is_zero (y : PyFloat.t) : bool :=
  match y with
  | PyFloat.fin q => Qeq_bool q 0
  | PyFloat.inf => false
  end.

Definition get_throughput (s : t) : result PyFloat.t :=
  if is_zero (t_last_completion s) then Raise ZeroDivisionError
  else Ok (int_div_float (n_served_1 s + n_served_2 s) (t_last_completion s)).

Definition get_utilization (s : t) : result PyFloat.t :=
  if is_zero (t_last_event s) then Raise ZeroDivisionError
  else Ok (float_div (area_service s) (t_last_event s)).

End Metrics.

(** The time of a submission, and whether it is a completion. *)
Definition event_time (e : SimpleCloudletCloudSystem.submission) : PyFloat.t :=
  match e with
  | SimpleCloudletCloudSystem.ARRIVAL_TASK_1 time
  | SimpleCloudletCloudSystem.ARRIVAL_TASK_2 time
  | SimpleCloudletCloudSystem.COMPLETION_CLOUDLET_TASK_1 time
  | SimpleCloudletCloudSystem.COMPLETION_CLOUDLET_TASK_2 time
  | SimpleCloudletCloudSystem.COMPLETION_CLOUD_TASK_1 time
  | SimpleCloudletCloudSystem.COMPLETION_CLOUD_TASK_2 time => time
  end.

Definition completes (e : SimpleCloudletCloudSystem.submission) : bool :=
  SimpleCloudletCloudSystem.is_completion TASK_1 e
  || SimpleCloudletCloudSystem.is_completion TASK_2 e.

(** The time of the last submission of a run, [0.0] for an empty run. *)
Definition last_event_time (es : list SimpleCloudletCloudSystem.submission)
  : PyFloat.t :=
  default (PyFloat.of_Z 0) (event_time <$> last es).

(** The time of the last completion of a run, [0.0] when there is none. *)
Definition last_completion_time (es : list SimpleCloudletCloudSystem.submission)
  : PyFloat.t :=
  default (PyFloat.of_Z 0)
          (event_time <$> last (filter (fun e => completes e = true) es)).

End SystemMetrics.

(** ** core/simulation/model/statistics.py: the calls on a group *)

Module BatchCalls.

Section Calls.

Context {Measure SampleStatistic SamplePathStatistic V : Type}.
Context {measure : Accumulator Measure V}.
Context {sample : Accumulator SampleStatistic V}.
Context {sample_path : Accumulator SamplePathStatistic V}.

(** Modelled from the spec: [add_value] and [add_event] of the accumulators
    (core/statistics/batch_means.py is not part of the sources at hand) go
    into the open batch; [f] is what they make of it. *)
Definition accumulate {O} (f : O -> O) (b : Batched.t O V) : Batched.t O V :=
  Batched.mk (Batched.closed b) (f (Batched.open b)).

(** What the simulation does with a statistics group: it closes the
    batch, discards it, or adds to the open batches of the accumulators. *)
Inductive call : Type :=
| Register
| Discard
| Accumulate (arrived completed switched service : Measure -> Measure)
             (n response : SampleStatistic -> SampleStatistic)
             (throughput : SamplePathStatistic -> SamplePathStatistic).

Definition perform (s : BatchStatistics.t) (k : call) : BatchStatistics.t :=
  match k with
  | Register => BatchStatistics.register_batch s
  | Discard => BatchStatistics.discard_batch s
  | Accumulate fa fc fw fv fn fr ft =>
      BatchStatistics.mk
        (accumulate fa (BatchStatistics.arrived s))
        (accumulate fc (BatchStatistics.completed s))
        (accumulate fw (BatchStatistics.switched s))
        (accumulate fv (BatchStatistics.service s))
        (accumulate fn (BatchStatistics.n s))
        (accumulate fr (BatchStatistics.response s))
        (accumulate ft (BatchStatistics.throughput s))
        (BatchStatistics.n_batches s)
  end.

Definition perform_all (ks : list call) (s : BatchStatistics.t) : BatchStatistics.t :=
  foldl perform s ks.

Definition is_register (k : call) : bool :=
  match k with Register => true | _ => false end.

(** The number of [register_batch] calls among the calls. *)
Definition registers (ks : list call) : Z :=
  Z.of_nat (length (filter (fun k => is_register k = true) ks)).

End Calls.

End BatchCalls.

(** ** core/simulation/model/config.py *)

Module Config.

(** One entry of a well-formed configuration: a distribution by name and
    its parameters by name.  The values of the parameters are numbers; a
    float is kept as the rational it is.  A dictionary that lacks one of
    the two keys, or holds a rate that is not a number, makes [normalize]
    raise [KeyError] or [TypeError] at the subscript or at the division:
    such inputs are outside this type, and the properties of [normalize]
    are stated for well-formed configurations. *)
Record entry : Type := mk_entry {
  distribution : string;
  parameters : gmap string Q
}.

(** A dictionary from task names to entries, in the order of its keys. *)
Definition section : Type := list (string * entry).

(** The parts of the configuration that [normalize] goes through. *)
Record t : Type := mk {
  arrival : section;
  cloudlet_service : section;
  cloud_service : section;
  cloud_setup : section
}.

(** [Variate.EXPONENTIAL.name] *)
Definition EXPONENTIAL : string := "EXPONENTIAL".

(** The body of each of the four loops of [normalize], on the entry of one
    task.  The rate is looked up only in an exponential entry that has one;
    [1 / r] is evaluated before anything is assigned, and raises when [r] is
    zero. *)
Definition normalize_entry (e : entry) : result entry :=
  match (if String.eqb (distribution e) EXPONENTIAL
         then parameters e !! "r" else None) with
  | Some r =>
      if Qeq_bool r 0 then Raise ZeroDivisionError
      else Ok (mk_entry (distribution e)
                        (delete "r" (<["m" := (1 / r)%Q]> (parameters e))))
  | None => Ok e
  end.

(** One loop of [normalize]: the entries are updated in place, in order,
    up to the first that raises. *)
Fixpoint normalize_section (sec : section) : result unit * section :=
  match sec with
  | [] => (Ok tt, [])
  | (tsk, e) :: rest =>
      match normalize_entry e with
      | Ok e' =>
          let '(r, rest') := normalize_section rest in (r, (tsk, e') :: rest')
      | Raise x => (Raise x, (tsk, e) :: rest)
      end
  end.

(** [# Normalize - Arrival] *)
Definition normalize_arrival : M t unit := fun c =>
  let '(r, sec) := normalize_section (arrival c) in
  (r, mk sec (cloudlet_service c) (cloud_service c) (cloud_setup c)).

(** [# Normalize - Cloudlet] *)
Definition normalize_cloudlet : M t unit := fun c =>
  let '(r, sec) := normalize_section (cloudlet_service c) in
  (r, mk (arrival c) sec (cloud_service c) (cloud_setup c)).

(** [# Normalize - Cloud], the loop over the service entries *)
Definition normalize_cloud_service : M t unit := fun c =>
  let '(r, sec) := normalize_section (cloud_service c) in
  (r, mk (arrival c) (cloudlet_service c) sec (cloud_setup c)).

(** [# Normalize - Cloud], the loop over the setup entries *)
Definition normalize_cloud_setup : M t unit := fun c =>
  let '(r, sec) := normalize_section (cloud_setup c) in
  (r, mk (arrival c) (cloudlet_service c) (cloud_service c) sec).

Definition normalize : M t unit :=
  _ ← normalize_arrival;
  _ ← normalize_cloudlet;
  _ ← normalize_cloud_service;
  normalize_cloud_setup.

(** All the entries of a configuration, in the order [normalize] visits
    them. *)
Definition entries (c : t) : list entry :=
  snd <$> (arrival c ++ cloudlet_service c ++ cloud_service c ++ cloud_setup c).

(** An entry is normal when it is not an exponential one given by a rate. *)
Definition normal (e : entry) : Prop :=
  distribution e = EXPONENTIAL -> parameters e !! "r" = None.

(** An entry asks for a division by zero: exponential with rate zero. *)
Definition zero_rate (e : entry) : Prop :=
  distribution e = EXPONENTIAL /\
  exists r, parameters e !! "r" = Some r /\ Qeq_bool r 0 = true.

(** What [normalize] makes of the entry [e]: the same distribution, and
    for an exponential entry given by a rate [r] the mean [1 / r] under "m"
    in place of the rate, the other parameters as they were. *)
Definition normalized_from (e e' : entry) : Prop :=
  distribution e' = distribution e /\
  match (if String.eqb (distribution e) EXPONENTIAL
         then parameters e !! "r" else None) with
  | Some r =>
      parameters e' !! "r" = None /\
      parameters e' !! "m" = Some (1 / r)%Q /\
      forall k : string, k <> "r" -> k <> "m" ->
        parameters e' !! k = parameters e !! k
  | None => e' = e
  end.

(** The same for a dictionary of entries: the same keys in the same order,
    each entry normalized, and none left to normalize. *)
Definition normalized_section (sec sec' : section) : Prop :=
  Forall2 (fun x x' => fst x' = fst x /\ normalized_from (snd x) (snd x')
                       /\ normal (snd x'))
          sec sec'.

(** An exponential entry with the rate [r]. *)
Definition exponential_r (r : Q) : entry :=
  mk_entry EXPONENTIAL {["r" := r]}.

(** [default_configuration], by its entries *)
Definition default_configuration : t :=
  mk [("TASK_1", exponential_r 6); ("TASK_2", exponential_r (25 # 4))]
     [("TASK_1", exponential_r (45 # 100)); ("TASK_2", exponential_r (27 # 100))]
     [("TASK_1", exponential_r (25 # 100)); ("TASK_2", exponential_r (22 # 100))]
     [("TASK_1", mk_entry "DETERMINISTIC" {["v" := 0%Q]});
      ("TASK_2", mk_entry EXPONENTIAL {["m" := (8 # 10)%Q]})].

End Config.

(** ** demule/rnd/tests/permutation.py *)

Module PermutationTest.

(** [range(lo, hi)] *)
Definition range (lo hi : Z) : list Z :=
  (fun i : nat => lo + Z.of_nat i) <$> seq 0 (Z.to_nat (hi - lo)).

(** The loop [for j in range(1, r + 1): if U[j] > U[mx]: mx = j], entered
    with the current [mx], over the indices [js] still to visit. *)
Fixpoint argmax (U : list Q) (js : list Z) (mx : Z) : result Z :=
  match js with
  | [] => Ok mx
  | j :: js' =>
      match Py.getitem U j with
      | Ok uj =>
          match Py.getitem U mx with
          | Ok um => argmax U js' (if negb (Qle_bool uj um) then j else mx)
          | Raise e => Raise e
          end
      | Raise e => Raise e
      end
  end.

(** One turn of the loop [while r > 0], for the current [r]: the largest
    of [U[0 .. r]] is found, its index goes into [b], and it is swapped to
    position [r]. *)
Definition round (r : Z) (U : list Q) (b : Z) : result (list Q * Z) :=
  match argmax U (range 1 (r + 1)) 0 with
  | Ok mx =>
      let b := (r + 1) * b + mx in
      match Py.getitem U r with
      | Ok ur =>
          match Py.getitem U mx with
          | Ok um =>
              match Py.setitem U mx ur with
              | Ok U1 =>
                  match Py.setitem U1 r um with
                  | Ok U2 => Ok (U2, b)
                  | Raise e => Raise e
                  end
              | Raise e => Raise e
              end
          | Raise e => Raise e
          end
      | Raise e => Raise e
      end
  | Raise e => Raise e
  end.

(** The loop [while r > 0: ...; r -= 1] entered with [r = k]: [r] is
    decremented by one at the end of each turn and nowhere else, so the
    turns are those for [r = k, k - 1, ..., 1]. *)
Fixpoint rounds (k : nat) (U : list Q) (b : Z) : result Z :=
  match k with
  | O => Ok b
  | S k' =>
      match round (Z.of_nat k) U b with
      | Ok (U', b') => rounds k' U' b'
      | Raise e => Raise e
      end
  end.

(** The bin of one sample [U] of [t] numbers: [r = t - 1], [b = 0], then
    the loop. *)
Definition permutation_index (t : Z) (U : list Q) : result Z :=
  rounds (Z.to_nat (t - 1)) U 0.

Section Observations.

Context {St : Type}.
Variable uniform : M St Q.

(** [[uniform() for _ in range(t)]] *)
Fixpoint draws (t : nat) : M St (list Q) :=
  match t with
  | O => mret []
  | S t' => u ← uniform; U ← draws t'; mret (u :: U)
  end.

(** One turn of the loop over the samples: [observed] is the histogram so
    far. *)
Definition observe (t : Z) (observed : list Z) : M St (list Z) :=
  U ← draws (Z.to_nat t);
  b ← lift (permutation_index t U);
  n ← lift (Py.getitem observed b);
  lift (Py.setitem observed b (n + 1)).

Fixpoint observe_all (samsize : nat) (t : Z) (observed : list Z) :
  M St (list Z) :=
  match samsize with
  | O => mret observed
  | S n => observed' ← observe t observed; observe_all n t observed'
  end.

Definition observations (samsize bins t : Z) : M St (list Z) :=
  observe_all (Z.to_nat samsize) t (Py.repeat 0 bins).

End Observations.

(** [sum(observed)] *)
Definition total (observed : list Z) : Z := foldr Z.add 0 observed.

End PermutationTest.


(** * Properties *)

#[local] Set Warnings "-clear-no-such-hyp".

(** ** Reasoning about methods *)

Section Preserves.

Context {S : Type} (R : S -> S -> Prop).
Hypothesis R_refl : forall s, R s s.
Hypothesis R_trans : forall s1 s2 s3, R s1 s2 -> R s2 s3 -> R s1 s3.

Lemma preserves_ret {A} (a : A) : preserves R (mret a).
Proof. intros s. apply R_refl. Qed.

Lemma preserves_raise {A} (e : exception) : preserves R (raise e : M S A).
Proof. intros s. apply R_refl. Qed.

Lemma preserves_gets {A} (f : S -> A) : preserves R (gets f).
Proof. intros s. apply R_refl. Qed.

Lemma preserves_lift {A} (r : result A) : preserves R (lift r).
Proof. intros s. apply R_refl. Qed.

Lemma preserves_bind {A B} (m : M S A) (k : A -> M S B) :
  preserves R m -> (forall a, preserves R (k a)) -> preserves R (m ≫= k).
Proof.
  intros Hm Hk s. unfold mbind, M_bind.
  specialize (Hm s). destruct (m s) as [[a|e] s']; simpl in *.
  - eapply R_trans; [exact Hm | apply Hk].
  - exact Hm.
Qed.

(** The same steps, taken from one given state. *)
Lemma gets_bind_at {A B} (f : S -> A) (k : A -> M S B) (s : S) :
  R s (snd (k (f s) s)) -> R s (snd ((gets f ≫= k) s)).
Proof. done. Qed.

Lemma lift_bind_at {A B} (r : result A) (k : A -> M S B) (s : S) :
  (forall a, r = Ok a -> R s (snd (k a s))) -> R s (snd ((lift r ≫= k) s)).
Proof. destruct r; intros H; [by apply H | apply R_refl]. Qed.

Lemma preserves_at {A} (m : M S A) (s : S) :
  preserves R m -> R s (snd (m s)).
Proof. intros H. apply H. Qed.

Lemma preserves_if {A} (b : bool) (m1 m2 : M S A) :
  preserves R m1 -> preserves R m2 -> preserves R (if b then m1 else m2).
Proof. by destruct b. Qed.

End Preserves.

(** ** core/random/rndgen.py *)

Section MultiStream.

Import MarcianiMultiStream.

Lemma frame_at_refl i g : frame_at i g g.
Proof. unfold frame_at; tauto. Qed.

Lemma frame_at_trans i g1 g2 g3 :
  frame_at i g1 g2 -> frame_at i g2 g3 -> frame_at i g1 g3.
Proof.
  unfold frame_at.
  intros (A1&A2&A3&A4&A5&A6&A7&A8&Al&Aj) (B1&B2&B3&B4&B5&B6&B7&B8&Bl&Bj).
  repeat split; try congruence.
  intros j Hj. rewrite Bj, Aj; [done..|]. by rewrite Al.
Qed.

Lemma seeds_get_frame i k : preserves (frame_at i) (seeds_get k).
Proof.
  unfold seeds_get.
  apply preserves_bind; [apply frame_at_trans | | intros l].
  - apply preserves_gets, frame_at_refl.
  - apply preserves_lift, frame_at_refl.
Qed.

Lemma seeds_set_frame i x : preserves (frame_at i) (seeds_set i x).
Proof.
  intros g. unfold seeds_set, Py.setitem. run_m.
  destruct (Py.position (length (_seeds g)) i) as [p|] eqn:Hp; cbn.
  - unfold frame_at; cbn. repeat split; [by rewrite length_insert|].
    intros j Hj. apply list_lookup_insert_ne. congruence.
  - apply frame_at_refl.
Qed.

(** Walks through a method built from reads, pure expressions and accesses
    to the seed of one stream. *)
Ltac frame_steps :=
  repeat first
    [ apply seeds_get_frame
    | apply seeds_set_frame
    | apply preserves_bind; [apply frame_at_trans | | intros ? ]
    | apply preserves_gets, frame_at_refl
    | apply preserves_lift, frame_at_refl
    | apply preserves_ret, frame_at_refl
    | apply preserves_raise, frame_at_refl
    | apply preserves_if ].

Lemma rnd_frame_at (g : t) : frame_at (_stream g) g (snd (rnd g)).
Proof.
  remember (_stream g) as i eqn:Hi. unfold rnd.
  do 2 apply (gets_bind_at (frame_at i)).
  apply (lift_bind_at (frame_at i)); [apply frame_at_refl|intros Q _].
  apply (lift_bind_at (frame_at i)); [apply frame_at_refl|intros R _].
  apply (gets_bind_at (frame_at i)). rewrite <- Hi.
  apply (preserves_at (frame_at i)).
  frame_steps.
Qed.

(** A well-formed generator addresses the cell of its active stream. *)
Lemma wf_position (g : t) :
  wf g -> Py.position (length (_seeds g)) (_stream g) = Some (Z.to_nat (_stream g)).
Proof.
  intros [_ [H0 H1]]. unfold Py.position.
  destruct (Z.leb_spec 0 (_stream g)); [|lia].
  destruct (Z.ltb_spec (_stream g) (Z.of_nat (length (_seeds g)))); [done|lia].
Qed.

Lemma position_nonneg (n : nat) (j : Z) :
  0 <= j < Z.of_nat n -> Py.position n j = Some (Z.to_nat j).
Proof.
  intros [H0 H1]. unfold Py.position.
  destruct (Z.leb_spec 0 j); [|lia].
  destruct (Z.ltb_spec j (Z.of_nat n)); [done|lia].
Qed.

(** The seed read at a stream other than the active one is the same after
    a draw. *)
Lemma rnd_keeps_other_seeds (g : t) (j : Z) :
  wf g ->
  0 <= j < Z.of_nat (length (_seeds g)) ->
  j <> _stream g ->
  fst (seeds_get j (snd (rnd g))) = fst (seeds_get j g).
Proof.
  intros Hwf Hj Hne.
  destruct (rnd_frame_at g) as (_&_&_&_&_&_&_&_&Hl&Hframe).
  unfold seeds_get, Py.getitem. run_m. rewrite Hl.
  rewrite (position_nonneg _ j Hj). rewrite Hframe; [done|].
  rewrite (wf_position g Hwf). intros [= E]. apply Hne.
  destruct Hwf as [_ [? ?]]. lia.
Qed.

(** C7.  A uniform draw mutates only the seed of the active stream: in a
    well-formed generator with active stream [i], for every other stream
    [j] the seed read at [j] after [rnd] is the seed read before, whether
    [rnd] returns or raises; no other field of the generator changes
    either. *)
Theorem rnd_mutates_only_active_seed (g : t) (j : Z) :
  wf g ->
  0 <= j < Z.of_nat (length (_seeds g)) ->
  j <> _stream g ->
  fst (seeds_get j (snd (rnd g))) = fst (seeds_get j g) /\
  _stream (snd (rnd g)) = _stream g /\
  _modulus (snd (rnd g)) = _modulus g /\
  _multiplier (snd (rnd g)) = _multiplier g /\
  _streams (snd (rnd g)) = _streams g /\
  _jumper (snd (rnd g)) = _jumper g /\
  length (_seeds (snd (rnd g))) = length (_seeds g).
Proof.
  intros Hwf Hj Hne.
  destruct (rnd_frame_at g) as (_&_&Hs&Hm&Ha&Hn&Hjm&_&Hl&_).
  repeat split; try assumption. by apply rnd_keeps_other_seeds.
Qed.

(** [example_generator] is the generator [MarcianiMultiStream(1, 127, 14,
    4, 14)]: the 8-bit parameters of the table, with four streams. *)
Lemma example_generator_built :
  __init__ 1 127 14 4 14 = Ok example_generator.
Proof. reflexivity. Qed.

Lemma rnd_mutates_only_active_seed_witness :
  fst (seeds_get 2 (snd (rnd example_generator))) = fst (seeds_get 2 example_generator) /\
  _stream (snd (rnd example_generator)) = _stream example_generator /\
  _modulus (snd (rnd example_generator)) = _modulus example_generator /\
  _multiplier (snd (rnd example_generator)) = _multiplier example_generator /\
  _streams (snd (rnd example_generator)) = _streams example_generator /\
  _jumper (snd (rnd example_generator)) = _jumper example_generator /\
  length (_seeds (snd (rnd example_generator))) = length (_seeds example_generator).
Proof.
  apply (rnd_mutates_only_active_seed example_generator 2).
  - split; [discriminate | simpl; lia].
  - simpl; lia.
  - discriminate.
Defined.

(** *** The two mutually recursive methods *)

(** Once the seeds are planted, [stream] never calls [plant_seeds]. *)
Lemma stream_with_init (plant plant' : Z -> M t unit) (stream_id : Z) (g : t) :
  _init g = true ->
  stream_with plant stream_id g = stream_with plant' stream_id g.
Proof.
  intros Hinit. unfold stream_with. run_m.
  destruct (Py.mod_ stream_id (_streams g)) as [s|e]; [|done].
  cbn. by rewrite Hinit.
Qed.

(** The equations of the source: [plant_seeds] calls [stream(0)], and
    [stream] calls [plant_seeds]. *)
Lemma plant_seeds_unfold (x : Z) (g : t) :
  plant_seeds x g = plant_seeds_with (stream 0) x g.
Proof.
  unfold plant_seeds, plant_seeds_with. run_m.
  destruct (Py.int_truediv (_modulus g) (_jumper g)) as [Q|e]; [|done].
  destruct (Py.mod_ (_modulus g) (_jumper g)) as [R|e]; [|done].
  by rewrite (stream_with_init _ plant_seeds).
Qed.

Lemma stream_unfold (stream_id : Z) (g : t) :
  stream stream_id g = stream_with plant_seeds stream_id g.
Proof. reflexivity. Qed.

(** *** Generators that [__init__] builds *)

Lemma consistent_wf (g : t) : consistent g -> wf g.
Proof. intros (Hm & Hn & Hs & _). split; [done|lia]. Qed.

Lemma same_shape_refl g : same_shape g g.
Proof. unfold same_shape; tauto. Qed.

Lemma same_shape_trans g1 g2 g3 :
  same_shape g1 g2 -> same_shape g2 g3 -> same_shape g1 g3.
Proof. unfold same_shape. intuition congruence. Qed.

Lemma frame_at_same_shape i g g' : frame_at i g g' -> same_shape g g'.
Proof. unfold frame_at, same_shape. tauto. Qed.

Lemma same_shape_consistent g g' :
  same_shape g g' -> consistent g -> consistent g'.
Proof.
  unfold same_shape, consistent.
  intros (_&_&Hs&Hm&_&Hn&_&Hi&Hl) (?&?&?&?). rewrite Hs, Hm, Hn, Hi, Hl. done.
Qed.

Lemma preserves_weaken {A} (R R' : t -> t -> Prop) (m : M t A) :
  (forall g g', R g g' -> R' g g') -> preserves R m -> preserves R' m.
Proof. intros HR Hm g. apply HR, Hm. Qed.

Lemma seeds_get_shape k : preserves same_shape (seeds_get k).
Proof.
  apply (preserves_weaken (frame_at k)); [apply frame_at_same_shape|].
  apply seeds_get_frame.
Qed.

Lemma seeds_set_shape k x : preserves same_shape (seeds_set k x).
Proof.
  apply (preserves_weaken (frame_at k)); [apply frame_at_same_shape|].
  apply seeds_set_frame.
Qed.

(** Walks through a method that only reads and writes seeds. *)
Ltac shape_steps :=
  repeat first
    [ apply seeds_get_shape
    | apply seeds_set_shape
    | apply preserves_bind; [apply same_shape_trans | | intros ? ]
    | apply preserves_gets, same_shape_refl
    | apply preserves_lift, same_shape_refl
    | apply preserves_ret, same_shape_refl
    | apply preserves_raise, same_shape_refl
    | apply preserves_if ].

Lemma rnd_shape : preserves same_shape rnd.
Proof. unfold rnd. shape_steps. Qed.

Lemma put_seed_shape x : preserves same_shape (put_seed x).
Proof. unfold put_seed. shape_steps. Qed.

Lemma plant_seeds_step_shape Q R j : preserves same_shape (plant_seeds_step Q R j).
Proof. unfold plant_seeds_step. shape_steps. Qed.

Lemma for_range_shape lo hi (body : Z -> M t unit) :
  (forall j, preserves same_shape (body j)) ->
  preserves same_shape (Py.for_range lo hi body).
Proof.
  intros Hbody. unfold Py.for_range.
  induction (_ <$> seq 0 (Z.to_nat (hi - lo))) as [|j js IH]; cbn.
  - apply preserves_ret, same_shape_refl.
  - apply preserves_bind; [apply same_shape_trans | apply Hbody | intros _; exact IH].
Qed.

(** A method that returned went through each of its steps. *)
Lemma bind_Ok {S A B} (m : M S A) (k : A -> M S B) (s s' : S) (b : B) :
  (m ≫= k) s = (Ok b, s') ->
  exists a s1, m s = (Ok a, s1) /\ k a s1 = (Ok b, s').
Proof.
  unfold mbind, M_bind. destruct (m s) as [[a|e] s1]; [|done].
  intros H. by exists a, s1.
Qed.

(** The draws, selections of a stream and reseedings keep a generator
    consistent, whether they return or raise. *)
Lemma rnd_consistent (g : t) : consistent g -> consistent (snd (rnd g)).
Proof. apply same_shape_consistent, rnd_shape. Qed.

Lemma put_seed_consistent (x : Z) (g : t) :
  consistent g -> consistent (snd (put_seed x g)).
Proof. apply same_shape_consistent, put_seed_shape. Qed.

Lemma stream_consistent (stream_id : Z) (g : t) :
  consistent g ->
  stream stream_id g = (Ok tt, set_stream (stream_id mod _streams g) g) /\
  consistent (snd (stream stream_id g)).
Proof.
  intros (Hm & Hn & Hs & Hi).
  assert (stream stream_id g = (Ok tt, set_stream (stream_id mod _streams g) g)) as E.
  { unfold stream, stream_with, Py.mod_. run_m.
    destruct (Z.eqb_spec (_streams g) 0) as [E0|_]; [lia|]. cbn. by rewrite Hi. }
  split; [exact E|]. rewrite E. cbn. repeat split; cbn; try done.
  - apply Z.mod_pos_bound. lia.
  - apply Z.mod_pos_bound. lia.
Qed.

(** [__init__] returns only consistent generators, with stream 0 active. *)
Lemma init_consistent (iseed modulus multiplier streams jumper : Z) (g : t) :
  __init__ iseed modulus multiplier streams jumper = Ok g ->
  consistent g /\ _stream g = 0.
Proof.
  unfold __init__.
  set (g0 := mk iseed iseed 0 modulus multiplier streams jumper false
                (Py.repeat iseed streams)).
  destruct (plant_seeds iseed g0) as [[[]|e] g'] eqn:Hplant; [|discriminate].
  intros [= ->]. revert Hplant. unfold plant_seeds, plant_seeds_with.
  intros Hplant.
  repeat (apply bind_Ok in Hplant as (? & ? & [= <- <-] & Hplant)).
  apply bind_Ok in Hplant as (Q & g1 & HQ & Hplant).
  apply bind_Ok in Hplant as (R & g2 & HR & Hplant).
  unfold lift in HQ, HR.
  injection HQ as HQ <-. injection HR as HR <-.
  repeat (apply bind_Ok in Hplant as (? & ? & [= <- <-] & Hplant)).
  apply bind_Ok in Hplant as ([] & g3 & Hstream & Hplant).
  apply bind_Ok in Hplant as ([] & g4 & Hput & Hplant).
  repeat (apply bind_Ok in Hplant as (? & ? & [= <- <-] & Hplant)).
  (* stream(0) on the new object *)
  unfold stream_with, Py.mod_ in Hstream. run_m. revert Hstream. run_m. cbn.
  destruct (Z.eqb_spec streams 0) as [|Hn0]; [done|]. cbn.
  rewrite Z.mod_0_l by done. cbn. intros [= <-].
  (* put_seed(iseed) *)
  pose proof (put_seed_shape iseed (set_stream 0 (set_init true g0))) as Hshape4.
  rewrite Hput in Hshape4. cbn [snd] in Hshape4.
  revert Hput. unfold put_seed, seeds_set, Py.setitem, Py.mod_. run_m.
  subst g0. cbn.
  destruct (0 <? iseed); [cbn|done].
  destruct (Z.eqb_spec modulus 0) as [|Hm0]; [discriminate|].
  destruct (Py.position (length (Py.repeat iseed streams)) 0) as [p|] eqn:Hpos;
    [|cbn; discriminate].
  intros _.
  assert (0 < streams) as Hpos_streams.
  { unfold Py.position, Py.repeat in Hpos. rewrite length_replicate in Hpos.
    cbn in Hpos. destruct (Z.ltb_spec 0 (Z.of_nat (Z.to_nat streams))); [lia|].
    rewrite andb_false_r in Hpos. discriminate. }
  (* the loop over the other streams *)
  pose proof (for_range_shape 1 (_streams g4)
                (plant_seeds_step Q R) (plant_seeds_step_shape Q R)
                (set_stream 0 g4)) as Hloop.
  rewrite Hplant in Hloop. cbn [snd] in Hloop.
  destruct Hshape4 as (_&_&_&Hm4&_&Hn4&_&Hi4&Hl4).
  destruct Hloop as (_&_&Hs&Hm&_&Hn&_&Hi&Hl).
  cbn in *. unfold consistent.
  rewrite Hs, Hm, Hn, Hi, Hl, Hm4, Hn4, Hi4, Hl4.
  unfold Py.repeat. rewrite length_replicate.
  repeat split; try done; lia.
Qed.

(** What [put_seed] does in a well-formed generator, by cases on [x]. *)
Lemma put_seed_positive (g : t) (x : Z) :
  wf g -> 0 < x ->
  put_seed x g =
    (Ok tt, set_seeds (<[Z.to_nat (_stream g) := x mod _modulus g]> (_seeds g)) g).
Proof.
  intros Hwf Hx. unfold put_seed, seeds_set, Py.setitem, Py.mod_. run_m.
  destruct (Z.ltb_spec 0 x); [|lia].
  destruct Hwf as [Hm Hs].
  destruct (Z.eqb_spec (_modulus g) 0); [done|].
  by rewrite (wf_position g (conj Hm Hs)).
Qed.

Lemma put_seed_nonpositive (g : t) (x : Z) :
  x <= 0 -> put_seed x g = (Raise ValueError, g).
Proof.
  intros Hx. unfold put_seed. run_m.
  destruct (Z.ltb_spec 0 x); [lia|done].
Qed.

(** C8.  [put_seed(x)] raises [ValueError] exactly when [x] is not
    strictly positive, and then changes nothing; when [x] is strictly
    positive it returns, the seed of the active stream becomes
    [x mod M], and the seed of every other stream and every other field
    stay as they were. *)
Theorem put_seed_spec (g : t) (x : Z) :
  wf g ->
  (fst (put_seed x g) = Raise ValueError <-> x <= 0) /\
  (x <= 0 -> snd (put_seed x g) = g) /\
  (0 < x ->
   fst (put_seed x g) = Ok tt /\
   fst (get_seed (snd (put_seed x g))) = Ok (x mod _modulus g) /\
   frame_at (_stream g) g (snd (put_seed x g)) /\
   forall j : Z, 0 <= j < Z.of_nat (length (_seeds g)) -> j <> _stream g ->
     fst (seeds_get j (snd (put_seed x g))) = fst (seeds_get j g)).
Proof.
  intros Hwf. split; [|split].
  - split.
    + intros Hr. destruct (Z.lt_ge_cases 0 x) as [Hx|Hx]; [|lia].
      rewrite (put_seed_positive g x Hwf Hx) in Hr. discriminate.
    + intros Hx. by rewrite put_seed_nonpositive.
  - intros Hx. by rewrite put_seed_nonpositive.
  - intros Hx. rewrite (put_seed_positive g x Hwf Hx). cbn [fst snd].
    pose proof (wf_position g Hwf) as Hp.
    destruct Hwf as [Hm [Hs0 Hs1]].
    assert (Hlt : (Z.to_nat (_stream g) < length (_seeds g))%nat) by lia.
    split; [done|]. split; [|split].
    + unfold get_seed, seeds_get, Py.getitem. run_m. cbn.
      rewrite length_insert, Hp.
      by rewrite list_lookup_insert_eq.
    + unfold frame_at; cbn. repeat split; [by rewrite length_insert|].
      intros j Hj. apply list_lookup_insert_ne. congruence.
    + intros j Hj Hne. unfold seeds_get, Py.getitem. run_m. cbn.
      rewrite length_insert, (position_nonneg _ j Hj).
      rewrite list_lookup_insert_ne; [done|lia].
Qed.

Lemma put_seed_spec_witness :
  (fst (put_seed 130 example_generator) = Raise ValueError <-> 130 <= 0) /\
  (130 <= 0 -> snd (put_seed 130 example_generator) = example_generator) /\
  (0 < 130 ->
   fst (put_seed 130 example_generator) = Ok tt /\
   fst (get_seed (snd (put_seed 130 example_generator)))
     = Ok (130 mod _modulus example_generator) /\
   frame_at (_stream example_generator) example_generator
            (snd (put_seed 130 example_generator)) /\
   forall j : Z, 0 <= j < Z.of_nat (length (_seeds example_generator)) ->
     j <> _stream example_generator ->
     fst (seeds_get j (snd (put_seed 130 example_generator)))
       = fst (seeds_get j example_generator)).
Proof.
  apply (put_seed_spec example_generator 130).
  split; [discriminate | simpl; lia].
Defined.

(** C3.  The generator built with the default parameters and seed 1 makes
    10000 draws on its initial stream without raising, and the seed of that
    stream is then 399268537. *)
Theorem multistream_known_answer :
  match __init__ 1 DEFAULT_MODULUS DEFAULT_MULTIPLIER DEFAULT_STREAMS DEFAULT_JUMPER with
  | Ok g => _stream g = 0 /\
            (_ ← draws (Z.to_nat 10000); get_seed) g
              = (Ok 399268537, snd (draws (Z.to_nat 10000) g))
  | Raise _ => False
  end.
Proof. vm_compute. split; reflexivity. Qed.

End MultiStream.

Section SingleStream.

Import MarcianiSingleStream.

(** The check of the module's self-test on the single-stream generator. *)
Lemma singlestream_known_answer :
  fst ((_ ← draws (Z.to_nat 10000); get_seed)
         (__init__ 1 DEFAULT_MODULUS DEFAULT_MULTIPLIER)) = Ok 399268537.
Proof. vm_compute. reflexivity. Qed.

(** C10.  In a single-stream generator (with a modulus other than zero),
    [put_seed(x)] with [x] strictly positive returns and leaves the
    generator as it was, so [get_seed] answers as before; with [x <= 0] it
    raises [ValueError], and nothing else makes it raise. *)
Theorem singlestream_put_seed_keeps_state (g : t) (x : Z) :
  _modulus g <> 0 ->
  (0 < x -> put_seed x g = (Ok tt, g)) /\
  (x <= 0 -> put_seed x g = (Raise ValueError, g)) /\
  (fst (put_seed x g) <> Ok tt -> x <= 0) /\
  get_seed (snd (put_seed x g)) = get_seed g.
Proof.
  intros Hm. unfold put_seed, Py.mod_. run_m.
  destruct (Z.ltb_spec 0 x); cbn; rewrite ?(proj2 (Z.eqb_neq _ _) Hm);
    repeat split; intros; cbn in *; congruence || lia.
Qed.

Lemma singlestream_put_seed_keeps_state_witness :
  (0 < 42 -> put_seed 42 (__init__ 1 DEFAULT_MODULUS DEFAULT_MULTIPLIER)
             = (Ok tt, __init__ 1 DEFAULT_MODULUS DEFAULT_MULTIPLIER)) /\
  (42 <= 0 -> put_seed 42 (__init__ 1 DEFAULT_MODULUS DEFAULT_MULTIPLIER)
              = (Raise ValueError, __init__ 1 DEFAULT_MODULUS DEFAULT_MULTIPLIER)) /\
  (fst (put_seed 42 (__init__ 1 DEFAULT_MODULUS DEFAULT_MULTIPLIER)) <> Ok tt -> 42 <= 0) /\
  get_seed (snd (put_seed 42 (__init__ 1 DEFAULT_MODULUS DEFAULT_MULTIPLIER)))
    = get_seed (__init__ 1 DEFAULT_MODULUS DEFAULT_MULTIPLIER).
Proof.
  apply (singlestream_put_seed_keeps_state
           (__init__ 1 DEFAULT_MODULUS DEFAULT_MULTIPLIER) 42).
  discriminate.
Defined.

End SingleStream.

(** ** Simulated time *)

Section Time.

Import PyFloat.

Lemma leb_refl (a : t) : leb a a = true.
Proof. destruct a; cbn; [|done]. apply Qle_bool_iff, Qle_refl. Qed.

Lemma leb_trans (a b c : t) : leb a b = true -> leb b c = true -> leb a c = true.
Proof.
  destruct a, b, c; cbn; try done.
  rewrite !Qle_bool_iff. apply Qle_trans.
Qed.

Lemma leb_total (a b : t) : leb a b = false -> leb b a = true.
Proof.
  destruct a, b; cbn; try done.
  intros H. apply Qle_bool_iff, Qlt_le_weak, Qnot_le_lt.
  intros Hle. apply Qle_bool_iff in Hle. congruence.
Qed.

Lemma ltb_leb (a b : t) : ltb a b = true -> leb a b = true.
Proof.
  unfold ltb. intros H. apply leb_total. by destruct (leb b a).
Qed.

End Time.

(** ** core/simulation/model/calendar.py *)

Section Calendar.

Import NextEventCalendar.

(** [put] adds its entry and keeps all the others. *)
Lemma put_Permutation (e : PriorityQueue.entry) (q : PriorityQueue.t) :
  PriorityQueue.put e q ≡ₚ e :: q.
Proof.
  induction q as [|e' q IH]; cbn; [done|].
  destruct (PyFloat.ltb e.1 e'.1); [done|].
  rewrite IH. apply Permutation_swap.
Qed.

(** C5.  [schedule] always returns, with a boolean.  It returns [False]
    exactly when the type of the event is one of the arrival types and its
    time is at or past the horizon, and then the calendar is as it was; in
    every other case it returns [True], the queue holds the event in
    addition to what it held, and nothing else changes. *)
Theorem schedule_spec (ev : SimpleEvent.t) (c : t) :
  (fst (schedule ev c) = false <->
     SimpleEvent.type ev ∈ _arrival_types c /\
     PyFloat.geb (SimpleEvent.time ev) (_stop c) = true) /\
  (fst (schedule ev c) = false -> snd (schedule ev c) = c) /\
  (fst (schedule ev c) = true ->
     _events (snd (schedule ev c)) ≡ₚ (SimpleEvent.time ev, ev) :: _events c /\
     _clock (snd (schedule ev c)) = _clock c /\
     _stop (snd (schedule ev c)) = _stop c /\
     _arrival_types (snd (schedule ev c)) = _arrival_types c /\
     _ignore (snd (schedule ev c)) = _ignore c).
Proof.
  unfold schedule.
  destruct (bool_decide_reflect (SimpleEvent.type ev ∈ _arrival_types c)) as [Hin|Hin];
    destruct (PyFloat.geb (SimpleEvent.time ev) (_stop c)) eqn:Hge; cbn;
    (split; [split; [intros; try done; by split | by intros [? ?]] |]);
    (split; [done|]); intros; try done;
    repeat split; apply put_Permutation.
Qed.

(** A completion past the horizon is enqueued, an arrival at the horizon
    is not. *)
Example schedule_completion_past_horizon :
  let c := __init__ (PyFloat.of_Z 0) (PyFloat.of_Z 10)
             {[EventType.of_ ARRIVAL SYSTEM TASK_1]} in
  let done_ := SimpleEvent.mk 0 (EventType.of_ COMPLETION CLOUD TASK_1) (PyFloat.of_Z 12) in
  let late := SimpleEvent.mk 1 (EventType.of_ ARRIVAL SYSTEM TASK_1) (PyFloat.of_Z 10) in
  schedule done_ c = (true, mk (PyFloat.of_Z 0) (PyFloat.of_Z 10)
                              {[EventType.of_ ARRIVAL SYSTEM TASK_1]}
                              [(PyFloat.of_Z 12, done_)] ∅) /\
  schedule late c = (false, c).
Proof. vm_compute. split; reflexivity. Qed.

(** *** The queue stays ordered *)

Lemma put_sorted (e : PriorityQueue.entry) (q : PriorityQueue.t) :
  StronglySorted by_time q -> StronglySorted by_time (PriorityQueue.put e q).
Proof.
  induction q as [|e' q IH]; cbn; intros Hq.
  - repeat constructor.
  - apply StronglySorted_cons in Hq as [Hall Hq].
    destruct (PyFloat.ltb e.1 e'.1) eqn:Hlt.
    + apply StronglySorted_cons. split; [|by apply StronglySorted_cons].
      apply ltb_leb in Hlt. constructor; [done|].
      eapply Forall_impl; [exact Hall|]. intros x Hx. unfold by_time in *.
      by eapply leb_trans.
    + apply StronglySorted_cons. split; [|by apply IH].
      rewrite (put_Permutation e q). constructor; [|done].
      unfold PyFloat.ltb in Hlt. unfold by_time.
      by destruct (PyFloat.leb e'.1 e.1).
Qed.

Lemma init_well_queued t_clock t_stop arrival_types :
  well_queued (__init__ t_clock t_stop arrival_types).
Proof. split; constructor. Qed.

Lemma schedule_well_queued (ev : SimpleEvent.t) (c : t) :
  well_queued c -> well_queued (snd (schedule ev c)).
Proof.
  intros [Hs Hf]. unfold schedule.
  destruct (_ && _); [by split|]. split; cbn.
  - by apply put_sorted.
  - rewrite put_Permutation. by constructor.
Qed.

Lemma unschedule_well_queued (events : list SimpleEvent.t) (c : t) :
  well_queued c -> well_queued (unschedule events c).
Proof. by intros [Hs Hf]. Qed.

Lemma perform_all_well_queued (ks : list call) (c : t) :
  well_queued c -> well_queued (perform_all ks c).
Proof.
  revert c. induction ks as [|k ks IH]; intros c Hc; [done|].
  apply IH. destruct k; [by apply schedule_well_queued | by apply unschedule_well_queued].
Qed.

(** *** The loop of [get_next_event] *)

(** When the loop ends by returning: it walked over a run [skipped] of
    entries, each ignored at that moment, took them off the ignore set, and
    stopped at the first entry not ignored. *)
Lemma skip_ignored_returns (e0 : PriorityQueue.entry) (events : PriorityQueue.t)
    (ignore : gset nat) ev events' ignore' :
  skip_ignored (snd e0) events ignore = (Returns ev, events', ignore') ->
  exists skipped e,
    e0 :: events = skipped ++ e :: events' /\ snd e = ev /\
    Forall (fun x => SimpleEvent.id (snd x) ∈ ignore) skipped /\
    ignore' = ignore ∖ list_to_set (SimpleEvent.id <$> (snd <$> skipped)) /\
    (SimpleEvent.id ev ∉ ignore').
Proof.
  revert e0 ignore. induction events as [|e1 events IH]; intros e0 ignore; cbn.
  - case_bool_decide as Hin; [done|]. intros [= <- <- <-].
    exists [], e0. cbn. repeat split; [constructor|set_solver|done].
  - case_bool_decide as Hin.
    + destruct e1 as [t1 next]. intros Hrec.
      destruct (IH (t1, next) _ Hrec) as (skipped & e & Heq & He & Hall & Hign & Hnot).
      exists (e0 :: skipped), e. cbn. rewrite Heq. repeat split; try done.
      * constructor; [done|]. eapply Forall_impl; [exact Hall|]. set_solver.
      * set_solver.
    + intros [= <- <- <-]. exists [], e0. cbn.
      repeat split; [constructor|set_solver|done].
Qed.

(** When the loop ends by waiting on the empty queue, every entry was
    ignored. *)
Lemma skip_ignored_blocks (e0 : PriorityQueue.entry) (events : PriorityQueue.t)
    (ignore : gset nat) events' ignore' :
  skip_ignored (snd e0) events ignore = (Blocks, events', ignore') ->
  events' = [] /\
  Forall (fun x => SimpleEvent.id (snd x) ∈ ignore) (e0 :: events).
Proof.
  revert e0 ignore. induction events as [|e1 events IH]; intros e0 ignore; cbn.
  - case_bool_decide as Hin; [|done]. intros [= <- <-]. by repeat constructor.
  - case_bool_decide as Hin; [|done].
    destruct e1 as [t1 next]. intros Hrec.
    destruct (IH (t1, next) _ Hrec) as [-> Hall]. split; [done|].
    constructor; [done|]. eapply Forall_impl; [exact Hall|]. set_solver.
Qed.

(** Conversely: if every entry is ignored and no event is queued twice,
    the loop ends by waiting on the empty queue. *)
Lemma skip_ignored_all_ignored (e0 : PriorityQueue.entry) (events : PriorityQueue.t)
    (ignore : gset nat) :
  NoDup (SimpleEvent.id <$> (snd <$> e0 :: events)) ->
  Forall (fun x => SimpleEvent.id (snd x) ∈ ignore) (e0 :: events) ->
  fst (fst (skip_ignored (snd e0) events ignore)) = Blocks.
Proof.
  revert e0 ignore. induction events as [|e1 events IH]; intros e0 ignore Hnd Hall; cbn.
  - apply Forall_cons in Hall as [Hin _]. by rewrite bool_decide_eq_true_2.
  - apply Forall_cons in Hall as [Hin Hall].
    rewrite bool_decide_eq_true_2 by done.
    destruct e1 as [t1 next]. apply (IH (t1, next)).
    + by apply NoDup_cons in Hnd as [_ Hnd].
    + cbn in Hnd. apply NoDup_cons in Hnd as [Hnot Hnd].
      apply Forall_forall. intros x Hx.
      rewrite Forall_forall in Hall. specialize (Hall x Hx).
      apply elem_of_difference. split; [done|].
      intros Heq%elem_of_singleton. apply Hnot. rewrite <- Heq.
      change (SimpleEvent.id (snd x)
                ∈ SimpleEvent.id <$> (snd <$> ((t1, next) :: events))).
      apply list_elem_of_fmap. exists (snd x). split; [done|].
      apply list_elem_of_fmap. by exists x.
Qed.

(** *** What [get_next_event] answers *)

(** It answers [None] exactly on an empty queue. *)
Lemma get_next_event_none (c : t) :
  fst (get_next_event c) = Returns None <-> _events c = [].
Proof.
  unfold get_next_event. destruct (_events c) as [|[t0 cand] events]; [done|].
  destruct (skip_ignored cand events (_ignore c)) as [[[ev|] events'] ignore']; done.
Qed.

(** When it answers an event: the clock is at the time of that event, the
    event was in the queue and is not in the ignore set, nothing left in the
    queue is earlier, and the queue is still in order. *)
Lemma get_next_event_some (c c' : t) (ev : SimpleEvent.t) :
  well_queued c ->
  get_next_event c = (Returns (Some ev), c') ->
  _clock c' = SimpleEvent.time ev /\
  ev ∈ snd <$> _events c /\
  (SimpleEvent.id ev ∉ _ignore c') /\
  (queued_once c -> SimpleEvent.id ev ∉ _ignore c) /\
  Forall (fun e => PyFloat.leb (SimpleEvent.time ev) (fst e) = true) (_events c') /\
  well_queued c' /\
  (queued_once c -> queued_once c').
Proof.
  intros [Hsorted Hown]. unfold get_next_event, queued_once.
  destruct (_events c) as [|[t0 cand] events] eqn:Hq; [done|].
  destruct (skip_ignored cand events (_ignore c)) as [[[ev'|] events'] ignore'] eqn:Hskip;
    [|done].
  intros [= -> <-].
  apply (skip_ignored_returns (t0, cand)) in Hskip
    as (skipped & e & Heq & He & Hall & Hign & Hnot).
  rewrite Heq in Hsorted, Hown |- *. clear Heq. cbn.
  apply StronglySorted_app in Hsorted as (_ & _ & Hsorted).
  apply StronglySorted_cons in Hsorted as [Hmin Hsorted].
  apply Forall_app in Hown as [_ Hown].
  apply Forall_cons in Hown as [Hown_e Hown].
  repeat split; try done.
  - rewrite fmap_app, fmap_cons, He. set_solver.
  - rewrite !fmap_app, !fmap_cons, He. intros Hnd Hin.
    apply NoDup_app in Hnd as (_ & Hdisj & _).
    subst ignore'. apply Hnot. apply elem_of_difference. split; [done|].
    intros Hsk%elem_of_list_to_set. apply (Hdisj _ Hsk). left.
  - rewrite <- He, <- Hown_e. exact Hmin.
  - rewrite !fmap_app, !fmap_cons. intros Hnd.
    apply NoDup_app in Hnd as (_ & _ & Hnd). by apply NoDup_cons in Hnd as [_ Hnd].
Qed.

(** It waits for ever exactly when the queue is not empty and every entry
    of it is ignored (no event being queued twice). *)
Lemma get_next_event_blocks (c : t) :
  queued_once c ->
  fst (get_next_event c) = Blocks <->
  _events c <> [] /\
  Forall (fun e => SimpleEvent.id (snd e) ∈ _ignore c) (_events c).
Proof.
  intros Hnd. unfold get_next_event, queued_once in *.
  destruct (_events c) as [|[t0 cand] events] eqn:Hq.
  { cbn. split; [done|]. intros [? _]. congruence. }
  pose proof (skip_ignored_all_ignored (t0, cand) events (_ignore c) Hnd) as Hconv.
  destruct (skip_ignored cand events (_ignore c)) as [[[ev'|] events'] ignore'] eqn:Hskip;
    cbn in *.
  - split; [done|]. intros [_ Hall]. specialize (Hconv Hall).
    rewrite Hskip in Hconv. discriminate.
  - split; [|done]. intros _. split; [done|].
    by apply (skip_ignored_blocks (t0, cand)) in Hskip as [_ Hall].
Qed.

(** Successive calls return events in non-decreasing order of time. *)
Lemma next_events_lower_bound (n : nat) (c : t) (t0 : PyFloat.t) :
  well_queued c ->
  Forall (fun e => PyFloat.leb t0 (fst e) = true) (_events c) ->
  Forall (fun ev => PyFloat.leb t0 (SimpleEvent.time ev) = true) (next_events n c).
Proof.
  revert c. induction n as [|n IH]; intros c Hwq Hlow; cbn; [constructor|].
  destruct (get_next_event c) as [[[ev|]|] c'] eqn:Hget; try constructor.
  - destruct (get_next_event_some c c' ev Hwq Hget) as (_ & Hin & _ & _ & Hmin & Hwq' & _).
    apply list_elem_of_fmap in Hin as ([t1 ev1] & -> & Hin). cbn.
    rewrite Forall_forall in Hlow. specialize (Hlow _ Hin).
    destruct Hwq as [_ Hown]. rewrite Forall_forall in Hown.
    specialize (Hown _ Hin). cbn in *. by rewrite <- Hown.
  - destruct (get_next_event_some c c' ev Hwq Hget) as (_ & Hin & _ & _ & Hmin & Hwq' & _).
    apply IH; [done|].
    apply list_elem_of_fmap in Hin as ([t1 ev1] & -> & Hin).
    rewrite Forall_forall in Hlow. specialize (Hlow _ Hin).
    destruct Hwq as [_ Hown]. rewrite Forall_forall in Hown.
    specialize (Hown _ Hin). cbn in *.
    eapply Forall_impl; [exact Hmin|]. intros e He. cbn in He.
    eapply leb_trans; [|exact He]. by rewrite <- Hown.
Qed.

Lemma next_events_nondecreasing (n : nat) (c : t) :
  well_queued c -> nondecreasing (next_events n c).
Proof.
  revert c. induction n as [|n IH]; intros c Hwq; cbn; [constructor|].
  destruct (get_next_event c) as [[[ev|]|] c'] eqn:Hget; try constructor.
  - destruct (get_next_event_some c c' ev Hwq Hget) as (_ & _ & _ & _ & _ & Hwq' & _).
    by apply IH.
  - destruct (get_next_event_some c c' ev Hwq Hget) as (_ & _ & _ & _ & Hmin & Hwq' & _).
    by apply next_events_lower_bound.
Qed.

(** After any run of [schedule] and [unschedule] calls on a new calendar,
    successive calls of [get_next_event] return events in non-decreasing
    order of time. *)
Lemma calendar_order (ks : list call) (n : nat) t_clock t_stop arrival_types :
  nondecreasing
    (next_events n (perform_all ks (__init__ t_clock t_stop arrival_types))).
Proof.
  apply next_events_nondecreasing, perform_all_well_queued, init_well_queued.
Qed.

(** C1.  The calendar after [schedule(ev)] and [unschedule(ev)] holds one
    entry, and it is cancelled: no non-cancelled event remains.
    [get_next_event] finds the queue not empty, pops [ev], finds it ignored
    and pops again from the now empty queue: the call waits for ever
    instead of returning [None]. *)
Theorem get_next_event_blocks_on_cancelled_only :
  let ev := SimpleEvent.mk 0 (EventType.of_ COMPLETION CLOUDLET TASK_2) (PyFloat.of_Z 1) in
  let c := perform_all [Schedule ev; Unschedule [ev]]
                       (__init__ (PyFloat.of_Z 0) PyFloat.inf ∅) in
  snd <$> _events c = [ev] /\
  SimpleEvent.id ev ∈ _ignore c /\
  empty c = false /\
  fst (get_next_event c) = Blocks /\
  fst (get_next_event c) <> Returns None.
Proof.
  cbv zeta. split; [|split; [|split; [|split]]].
  - vm_compute. reflexivity.
  - apply (bool_decide_unpack _). vm_compute. exact I.
  - vm_compute. reflexivity.
  - vm_compute. reflexivity.
  - vm_compute. discriminate.
Qed.

End Calendar.

(** ** core/simulations/cloud/model/system.py *)

Section System.

Import SimpleCloudletCloudSystem.

Context {tiers : Tiers}.

(** Unfolds a method of the system down to the calls on the tiers, and
    names what those calls return. *)
Ltac run_system :=
  cbv [submit_arrival_task_1 submit_arrival_task_2
       submit_completion_cloudlet_task_1 submit_completion_cloudlet_task_2
       submit_completion_cloud_task_1 submit_completion_cloud_task_2
       update_meta_arrival update_meta_completion update_statistics
       on_cloudlet on_cloud SimpleCloudletCloudSystem.modify
       SimpleCloudletCloudSystem.gets mbind State_bind mret State_ret];
  cbn [cloudlet cloud rndgen n_1 n_2 set_n_1 set_n_2 set_n_arrival_1
       set_n_arrival_2 set_n_served_1 set_n_served_2 set_area_service
       set_t_last_event set_t_last_completion set_response_time
       set_cloudlet set_cloud set_rndgen fst snd].

Ltac split_calls :=
  repeat
    (cbn;
     match goal with
      | |- context [if ?b then _ else _] => destruct b
      | |- context [cloudlet_submit_arrival_task_1 ?t ?x] =>
          destruct (cloudlet_submit_arrival_task_1 t x) as [? [? ?]]
      | |- context [cloudlet_submit_arrival_task_2 ?t ?x] =>
          destruct (cloudlet_submit_arrival_task_2 t x) as [? [? ?]]
      | |- context [cloudlet_submit_removal_task_2 ?t ?x] =>
          destruct (cloudlet_submit_removal_task_2 t x) as [? [? ?]]
      | |- context [cloudlet_submit_completion_task_1 ?t ?x] =>
          destruct (cloudlet_submit_completion_task_1 t x) as [? [? ?]]
      | |- context [cloudlet_submit_completion_task_2 ?t ?x] =>
          destruct (cloudlet_submit_completion_task_2 t x) as [? [? ?]]
      | |- context [cloud_submit_arrival_task_1 ?t ?x] =>
          destruct (cloud_submit_arrival_task_1 t x) as [? [? ?]]
      | |- context [cloud_submit_arrival_task_2 ?t ?x] =>
          destruct (cloud_submit_arrival_task_2 t x) as [? [? ?]]
      | |- context [cloud_submit_restart_task_2 ?t ?x] =>
          destruct (cloud_submit_restart_task_2 t x) as [? [? ?]]
      | |- context [cloud_submit_completion_task_1 ?t ?x] =>
          destruct (cloud_submit_completion_task_1 t x) as [? [? ?]]
      | |- context [cloud_submit_completion_task_2 ?t ?x] =>
          destruct (cloud_submit_completion_task_2 t x) as [? [? ?]]
      end);
  cbn.

(** C2.  In a state where the Cloudlet has fewer type-1 tasks than servers,
    is at or above its threshold and holds a type-2 task, an arrival of
    type 1 returns three results, none absent: the completion event that
    the Cloudlet gives for the admitted type-1 task, the completion event
    that the Cloud gives for the restarted type-2 task, and the completion
    event that the Cloudlet hands back for the removed type-2 task (the one
    to cancel).  The removal is made first, then the restart, then the
    admission, each on the tiers and generator as the call before left
    them. *)
Theorem preemption_returns_three (s : t) (event_time : PyFloat.t) :
  cloudlet_n_1 (cloudlet s) < cloudlet_n_servers (cloudlet s) ->
  cloudlet_threshold (cloudlet s) <= cloudlet_n_1 (cloudlet s) + cloudlet_n_2 (cloudlet s) ->
  0 < cloudlet_n_2 (cloudlet s) ->
  let removal := cloudlet_submit_removal_task_2 event_time (cloudlet s, rndgen s) in
  let restart := cloud_submit_restart_task_2 event_time (cloud s, snd (snd removal)) in
  let admission :=
    cloudlet_submit_arrival_task_1 event_time (fst (snd removal), snd (snd restart)) in
  fst (submit_arrival_task_1 event_time s)
    = (fst admission, Some (fst restart), Some (fst removal)) /\
  cloudlet (snd (submit_arrival_task_1 event_time s)) = fst (snd admission) /\
  cloud (snd (submit_arrival_task_1 event_time s)) = fst (snd restart) /\
  rndgen (snd (submit_arrival_task_1 event_time s)) = snd (snd admission) /\
  n_1 (snd (submit_arrival_task_1 event_time s)) = n_1 s + 1 /\
  n_2 (snd (submit_arrival_task_1 event_time s)) = n_2 s.
Proof.
  intros Hfree Hfull Hvictim. cbv zeta. run_system.
  assert ((cloudlet_n_1 (cloudlet s) =? cloudlet_n_servers (cloudlet s)) = false) as E1
    by (apply Z.eqb_neq; lia).
  assert ((cloudlet_n_1 (cloudlet s) + cloudlet_n_2 (cloudlet s)
             <? cloudlet_threshold (cloudlet s)) = false) as E2
    by (apply Z.ltb_ge; lia).
  assert ((0 <? cloudlet_n_2 (cloudlet s)) = true) as E3 by (apply Z.ltb_lt; lia).
  destruct (0 <? n_1 s + 1 + n_2 s); cbn; rewrite E1, E2, E3; cbn;
    destruct (cloudlet_submit_removal_task_2 event_time (cloudlet s, rndgen s))
      as [c3 [cl1 g1]]; cbn;
    destruct (cloud_submit_restart_task_2 event_time (cloud s, g1))
      as [c2 [cd2 g2]]; cbn;
    destruct (cloudlet_submit_arrival_task_1 event_time (cl1, g2))
      as [c1 [cl3 g3]]; cbn; done.
Qed.


(** *** Occupancy counts *)

(** A submission moves the count of a class by its weight. *)
Lemma submit_in_service (k : TaskScope) (s : t) (e : submission) :
  in_service k (submit s e) = in_service k s + weight k e.
Proof.
  destruct e, k; unfold submit, weight, in_service; cbn [is_arrival is_completion];
    run_system; split_calls; lia.
Qed.

Lemma arrivals_cons (k : TaskScope) (e : submission) (es : list submission) :
  arrivals k (e :: es) = (if is_arrival k e then 1 else 0) + arrivals k es.
Proof.
  unfold arrivals. rewrite filter_cons.
  destruct (is_arrival k e); case_decide; try done; cbn [length]; lia.
Qed.

Lemma completions_cons (k : TaskScope) (e : submission) (es : list submission) :
  completions k (e :: es) = (if is_completion k e then 1 else 0) + completions k es.
Proof.
  unfold completions. rewrite filter_cons.
  destruct (is_completion k e); case_decide; try done; cbn [length]; lia.
Qed.

Lemma submit_all_in_service (k : TaskScope) (es : list submission) (s : t) :
  in_service k (submit_all es s) = in_service k s + arrivals k es - completions k es.
Proof.
  revert s. induction es as [|e es IH]; intros s.
  - unfold arrivals, completions. cbn. lia.
  - change (submit_all (e :: es) s) with (submit_all es (submit s e)).
    rewrite IH, submit_in_service, arrivals_cons, completions_cons.
    unfold weight. lia.
Qed.

(** C6.  From a new system, after any run of submissions the in-service
    count of a class is the number of arrivals of that class submitted so
    far minus the number of its completions submitted so far; when every
    completion is matched by an earlier arrival of its class, the count was
    never negative along the run. *)
Theorem occupancy_conservation (g : MarcianiMultiStream.t) (cl : Cloudlet)
    (cd : Cloud) (rt : SampleStatistic) (es : list submission) (k : TaskScope) :
  matched es ->
  forall p : list submission, p `prefix_of` es ->
    in_service k (submit_all p (__init__ g cl cd rt))
      = arrivals k p - completions k p /\
    0 <= in_service k (submit_all p (__init__ g cl cd rt)).
Proof.
  intros Hm p Hp.
  assert (in_service k (submit_all p (__init__ g cl cd rt))
          = arrivals k p - completions k p) as E.
  { rewrite submit_all_in_service. destruct k; cbn; lia. }
  split; [exact E|]. rewrite E. specialize (Hm p k Hp). lia.
Qed.

End System.

(** ** The deterministic tiers at work *)

Section DeterministicRuns.

Import SimpleCloudletCloudSystem.

(** The three results of a preempting arrival at time 2: a Cloudlet
    completion of type 1, a Cloud completion of type 2 later by setup and
    service, and the completion of the type-2 task that entered first. *)
Example preemption_events :
  fst (submit_arrival_task_1 (PyFloat.of_Z 2) Deterministic.saturated_system) =
    (SimpleEvent.mk 4 (EventType.of_ COMPLETION CLOUDLET TASK_1)
                    (PyFloat.fin (2 + (20 # 9))%Q),
     Some (SimpleEvent.mk 1 (EventType.of_ COMPLETION CLOUD TASK_2)
                          (PyFloat.fin (2 + ((4 # 5) + (50 # 11)))%Q)),
     Some (SimpleEvent.mk 0 (EventType.of_ COMPLETION CLOUDLET TASK_2)
                          (PyFloat.fin (0 + (10 # 3))%Q))).
Proof. reflexivity. Qed.

Lemma preemption_returns_three_witness :
  let s := Deterministic.saturated_system in
  let event_time := PyFloat.of_Z 2 in
  let removal := cloudlet_submit_removal_task_2 event_time (cloudlet s, rndgen s) in
  let restart := cloud_submit_restart_task_2 event_time (cloud s, snd (snd removal)) in
  let admission :=
    cloudlet_submit_arrival_task_1 event_time (fst (snd removal), snd (snd restart)) in
  fst (submit_arrival_task_1 event_time s)
    = (fst admission, Some (fst restart), Some (fst removal)) /\
  cloudlet (snd (submit_arrival_task_1 event_time s)) = fst (snd admission) /\
  cloud (snd (submit_arrival_task_1 event_time s)) = fst (snd restart) /\
  rndgen (snd (submit_arrival_task_1 event_time s)) = snd (snd admission) /\
  n_1 (snd (submit_arrival_task_1 event_time s)) = n_1 s + 1 /\
  n_2 (snd (submit_arrival_task_1 event_time s)) = n_2 s.
Proof.
  apply (preemption_returns_three Deterministic.saturated_system (PyFloat.of_Z 2)).
  - vm_compute. reflexivity.
  - vm_compute. discriminate.
  - vm_compute. reflexivity.
Defined.

Lemma occupancy_conservation_witness :
  in_service TASK_1
    (submit_all Deterministic.example_run
       (__init__ MarcianiMultiStream.example_generator
          (Deterministic.mkCloudlet 0 0 2 2 (20 # 9) (10 # 3) [] 0)
          (Deterministic.mkCloud 0 0 4 (50 # 11) (4 # 5) 0) []))
    = arrivals TASK_1 Deterministic.example_run
      - completions TASK_1 Deterministic.example_run /\
  0 <= in_service TASK_1
         (submit_all Deterministic.example_run
            (__init__ MarcianiMultiStream.example_generator
               (Deterministic.mkCloudlet 0 0 2 2 (20 # 9) (10 # 3) [] 0)
               (Deterministic.mkCloud 0 0 4 (50 # 11) (4 # 5) 0) [])).
Proof.
  apply (occupancy_conservation _ _ _ _ Deterministic.example_run TASK_1).
  - intros p k [q Hq]. unfold Deterministic.example_run in Hq.
    destruct p as [|e1 [|e2 [|e3 [|e4 [|e5 p]]]]]; simplify_eq/=;
      destruct k; by vm_compute.
  - reflexivity.
Defined.

End DeterministicRuns.

(** ** core/simulation/model/statistics.py *)

Section Batches.

Import BatchStatistics.

Context {Measure SampleStatistic SamplePathStatistic V : Type}.
Context {measure : Accumulator Measure V}.
Context {sample : Accumulator SampleStatistic V}.
Context {sample_path : Accumulator SamplePathStatistic V}.

(** The group the code builds: four measures, two sample statistics and
    one sample-path statistic, each class with its own open accumulator
    and its own way of sealing it. *)
#[local] Abbreviation group :=
  (@BatchStatistics.t Measure SampleStatistic SamplePathStatistic V).
#[local] Abbreviation new_group :=
  (@BatchStatistics.__init__ Measure SampleStatistic SamplePathStatistic V
     measure sample sample_path).
#[local] Abbreviation register :=
  (@BatchStatistics.register_batch Measure SampleStatistic SamplePathStatistic V
     measure sample sample_path).

Lemma register_batch_seals {O} `{!Accumulator O V} (b : Batched.t O V) :
  Batched.seals b (Batched.register_batch b).
Proof. by split. Qed.

Lemma seals_sealed {O} `{!Accumulator O V} (b b' : Batched.t O V) :
  Batched.seals b b' -> Batched.sealed b' = Batched.sealed b + 1.
Proof.
  intros [Hc _]. unfold Batched.sealed. rewrite Hc, length_app. cbn. lia.
Qed.

Lemma register_batch_sealed {O} `{!Accumulator O V} (b : Batched.t O V) :
  Batched.sealed (Batched.register_batch b) = Batched.sealed b + 1.
Proof. apply seals_sealed, register_batch_seals. Qed.

Lemma register_batch_all_seal (s : group) : all_seal s (register s).
Proof. repeat split. Qed.

Lemma register_batch_counts (s : group) :
  sealed_counts (register s) = (fun c => c + 1) <$> sealed_counts s.
Proof. unfold sealed_counts. cbn. by rewrite !register_batch_sealed. Qed.

Lemma all_sealed_counts (c : Z) (s : group) :
  all_sealed c s <-> sealed_counts s = replicate 7 c.
Proof.
  unfold all_sealed, sealed_counts. cbn. split.
  - by intros (-> & -> & -> & -> & -> & -> & ->).
  - intros H. injection H as -> -> -> -> -> -> ->. done.
Qed.

Lemma register_batch_all_sealed (c : Z) (s : group) :
  all_sealed c s -> all_sealed (c + 1) (register s).
Proof.
  rewrite !all_sealed_counts, register_batch_counts. by intros ->.
Qed.

Lemma iter_register_counts (k : nat) (s : group) :
  n_batches (Nat.iter k register s) = n_batches s + Z.of_nat k /\
  sealed_counts (Nat.iter k register s)
    = (fun c => c + Z.of_nat k) <$> sealed_counts s.
Proof.
  induction k as [|k [IHn IHs]].
  - change (Nat.iter 0 register s) with s. split; [lia|].
    unfold sealed_counts. cbn. by rewrite !Z.add_0_r.
  - change (Nat.iter (S k) register s) with (register (Nat.iter k register s)).
    split.
    + change (n_batches (Nat.iter k register s) + 1 = n_batches s + Z.of_nat (S k)).
      rewrite IHn. lia.
    + rewrite register_batch_counts, IHs, <- list_fmap_compose.
      apply list_fmap_ext. intros i c _. cbn. lia.
Qed.

(** C9.  [register_batch] seals the open batch of each of the seven
    accumulators, whatever the three classes and whatever their open
    batches hold: each of the four measures, the two sample statistics and
    the sample-path statistic keeps its closed batches, followed by the
    value of the batch that was open, and has an empty open batch; and
    [n_batches] is incremented by exactly one.  So each of them holds one
    sealed batch more, a group whose accumulators all hold [n_batches]
    sealed batches stays so, [k] calls add [k] to [n_batches] and to the
    number of sealed batches of each of them, and after any number [k] of
    calls on a new group [n_batches] is [k] and is the number of sealed
    batches of every accumulator. *)
Theorem register_batch_uniform (s : group) (k : nat) :
  n_batches (register s) = n_batches s + 1 /\
  all_seal s (register s) /\
  sealed_counts (register s) = (fun c => c + 1) <$> sealed_counts s /\
  (all_sealed (n_batches s) s ->
   all_sealed (n_batches (register s)) (register s)) /\
  n_batches (Nat.iter k register s) = n_batches s + Z.of_nat k /\
  sealed_counts (Nat.iter k register s)
    = (fun c => c + Z.of_nat k) <$> sealed_counts s /\
  n_batches (Nat.iter k register new_group) = Z.of_nat k /\
  all_sealed (n_batches (Nat.iter k register new_group))
             (Nat.iter k register new_group).
Proof.
  split; [done|]. split; [apply register_batch_all_seal|].
  split; [apply register_batch_counts|].
  split; [apply register_batch_all_sealed|].
  destruct (iter_register_counts k s) as [Hn Hs].
  split; [exact Hn|]. split; [exact Hs|].
  destruct (iter_register_counts k new_group) as [Hn0 Hs0].
  split; [rewrite Hn0; cbn; lia|].
  apply all_sealed_counts. rewrite Hs0, Hn0. cbn. by rewrite !Z.add_0_l.
Qed.

(** [discard_batch] keeps the counts as they are. *)
Lemma discard_batch_all_sealed (c : Z) (s : group) :
  all_sealed c s ->
  all_sealed c (discard_batch s) /\ n_batches (discard_batch s) = n_batches s.
Proof. by intros H. Qed.

End Batches.

(** ** core/simulation/model/taskgen.py *)

Section Taskgen.

Import MarcianiMultiStream.

Variable exponential : Q -> Q -> PyFloat.t.
Variable float_add : PyFloat.t -> PyFloat.t -> PyFloat.t.

Lemma default_generator_built :
  __init__ DEFAULT_ISEED DEFAULT_MODULUS DEFAULT_MULTIPLIER DEFAULT_STREAMS
           DEFAULT_JUMPER = Ok default_generator.
Proof. vm_compute. reflexivity. Qed.

(** Whatever the generator and the rates, [_generate_exponential] leaves
    the seed of every stream but the type stream as it was: no draw is
    taken anywhere else. *)
Lemma generate_exponential_touches_only_type_stream
    (tg : SimpleTaskgen.t) (t_clock : PyFloat.t) (j : Z) :
  consistent (SimpleTaskgen.rndgen tg) ->
  0 <= j < _streams (SimpleTaskgen.rndgen tg) ->
  j <> STREAM_ARRIVAL_TYPE mod _streams (SimpleTaskgen.rndgen tg) ->
  fst (seeds_get j
         (SimpleTaskgen.rndgen
            (snd (SimpleTaskgen._generate_exponential exponential float_add
                    t_clock tg))))
  = fst (seeds_get j (SimpleTaskgen.rndgen tg)).
Proof.
  intros Hc Hj Hne. set (g := SimpleTaskgen.rndgen tg) in *.
  destruct (stream_consistent STREAM_ARRIVAL_TYPE g Hc) as [Hstream Hc1].
  rewrite Hstream in Hc1. cbn [snd] in Hc1.
  set (g1 := set_stream (STREAM_ARRIVAL_TYPE mod _streams g) g) in *.
  pose proof (consistent_wf g1 Hc1) as Hwf1.
  assert (Hlen : _streams g = Z.of_nat (length (_seeds g))) by apply Hc.
  assert (Hj1 : 0 <= j < Z.of_nat (length (_seeds g1))) by (cbn; lia).
  assert (H1 : fst (seeds_get j (snd (rnd g1))) = fst (seeds_get j g)).
  { exact (rnd_keeps_other_seeds g1 j Hwf1 Hj1 Hne). }
  assert (H2 : fst (seeds_get j (snd (rnd (snd (rnd g1))))) = fst (seeds_get j g)).
  { pose proof (rnd_consistent g1 Hc1) as Hc2.
    destruct (rnd_frame_at g1) as (_&_&Hs&_&_&_&_&_&Hl&_).
    rewrite rnd_keeps_other_seeds; [exact H1| |rewrite Hl; exact Hj1|by rewrite Hs].
    by apply consistent_wf. }
  unfold SimpleTaskgen._generate_exponential, SimpleTaskgen.on_rndgen.
  run_m. fold g. rewrite Hstream. cbn.
  destruct (rnd g1) as [[u|e] g2] eqn:Hr1; cbn; [|exact H1].
  destruct (SimpleTaskgen.float_inv (SimpleTaskgen.r_tot tg)) as [m|e]; cbn;
    [|exact H1].
  cbn in H2. destruct (rnd g2) as [[u'|e] g3]; cbn; exact H2.
Qed.

(** C4.  The two stream constants are distinct, but
    [_generate_exponential] selects only [STREAM_ARRIVAL_TYPE]: on the
    default generator the call returns, the generator it leaves is the one
    that [stream(STREAM_ARRIVAL_TYPE); rnd(); rnd()] leaves, with that
    stream still active, and the seed of stream [STREAM_ARRIVAL_TIME] is
    what it was: the draw for the inter-arrival time was taken on the type
    stream. *)
Theorem generate_exponential_draws_on_one_stream (t_clock : PyFloat.t) :
  let tg := SimpleTaskgen.reference default_generator in
  let run := SimpleTaskgen._generate_exponential exponential float_add t_clock tg in
  let g' := SimpleTaskgen.rndgen (snd run) in
  STREAM_ARRIVAL_TYPE <> STREAM_ARRIVAL_TIME /\
  (exists tsk u, fst run = Ok (tsk, float_add t_clock (exponential (2 # 19) u))) /\
  g' = snd ((_ ← stream STREAM_ARRIVAL_TYPE; _ ← rnd; rnd) default_generator) /\
  _stream g' = STREAM_ARRIVAL_TYPE /\
  fst (seeds_get STREAM_ARRIVAL_TIME g')
    = fst (seeds_get STREAM_ARRIVAL_TIME default_generator) /\
  fst (seeds_get STREAM_ARRIVAL_TYPE g')
    <> fst (seeds_get STREAM_ARRIVAL_TYPE default_generator).
Proof.
  cbv zeta. split; [done|]. split; [|split; [|split; [|split]]].
  - eexists _, _. vm_compute. reflexivity.
  - vm_compute. reflexivity.
  - vm_compute. reflexivity.
  - vm_compute. reflexivity.
  - vm_compute. discriminate.
Qed.

End Taskgen.


(** * Further properties *)

(** ** core/random/rndgen.py: the recurrence *)

Section Recurrence.

Import MarcianiMultiStream.

(** The arithmetic of the recurrence: with [Q = m / a] and [R = m % a],
    [t = a * (s % Q) - R * (s / Q)] differs from [a * s] by a multiple of
    [m], lies strictly between [-m] and [m], and both of its products stay
    below [m]. *)
Lemma recurrence_arith (m a s : Z) :
  Lehmer.compatible m a -> 0 <= s <= m ->
  a * s = m * (s / (m / a)) + (a * (s mod (m / a)) - (m mod a) * (s / (m / a))) /\
  0 <= a * (s mod (m / a)) < m /\
  0 <= (m mod a) * (s / (m / a)) < m.
Proof.
  intros (Ha & Hm & Hc) Hs.
  pose proof (Z.div_mod m a ltac:(lia)) as Em.
  pose proof (Z.mod_pos_bound m a Ha) as HR.
  set (Q := m / a) in *. set (R := m mod a) in *.
  assert (HQ : 0 < Q) by lia.
  pose proof (Z.div_mod s Q ltac:(lia)) as Es.
  pose proof (Z.mod_pos_bound s Q HQ) as Hlo.
  assert (0 <= s / Q) by (apply Z.div_pos; lia).
  assert (s / Q <= a).
  { apply Z.lt_succ_r. apply Z.div_lt_upper_bound; [lia|]. nia. }
  repeat split; nia.
Qed.

(** The seed that follows [s] under modulus [m] and multiplier [a], as the
    source computes it. *)
Lemma rnd_computes (g : t) (s : Z) :
  wf g ->
  0 < _multiplier g -> 0 < _modulus g / _multiplier g ->
  _seeds g !! Z.to_nat (_stream g) = Some s -> 0 <= s ->
  let m := _modulus g in
  let a := _multiplier g in
  let t := a * (s mod (m / a)) - (m mod a) * (s / (m / a)) in
  let s' := if 0 <? t then t else t + m in
  rnd g = (Ok (inject_Z s' / inject_Z m)%Q,
           set_seeds (<[Z.to_nat (_stream g) := s']> (_seeds g)) g).
Proof.
  intros Hwf Ha HQ Hs Hs0. cbv zeta.
  pose proof (wf_position g Hwf) as Hpos.
  destruct Hwf as [Hm [Hi0 Hi1]].
  assert (0 < _modulus g).
  { destruct (Z.lt_trichotomy (_modulus g) 0) as [Hneg|[?|?]]; [|lia|done].
    exfalso. pose proof (Z.div_lt_upper_bound (_modulus g) (_multiplier g) 0 Ha).
    lia. }
  unfold rnd, seeds_get, seeds_set, Py.getitem, Py.setitem, Py.int_truediv,
    Py.mod_, Py.truediv.
  run_m. cbn.
  rewrite (proj2 (Z.eqb_neq (_multiplier g) 0)) by lia. cbn.
  rewrite Z.quot_div_nonneg by lia.
  rewrite Hpos, Hs. cbn.
  rewrite (proj2 (Z.eqb_neq (_modulus g / _multiplier g) 0)) by lia. cbn.
  rewrite Z.quot_div_nonneg by lia.
  set (t := _multiplier g * _ - _ * _).
  assert (Hlt : (Z.to_nat (_stream g) < length (_seeds g))%nat) by lia.
  destruct (0 <? t); cbn; rewrite Hpos; cbn; rewrite length_insert, Hpos;
    rewrite list_lookup_insert_eq by done; cbn;
    by rewrite (proj2 (Z.eqb_neq (_modulus g) 0)) by lia.
Qed.

(** X1.  Under a modulus below [2^53], where the quotients [int(m / a)] and
    [int(s / Q)] that the draw takes through a float are exact, and a
    modulus-compatible multiplier, a draw on a seed between 0 and the
    modulus returns; the new seed of the active stream is congruent to
    multiplier times the old one, lies in [(0, m]] (it is [a * s mod m]
    when that is not zero), the number returned is that seed over the
    modulus, and neither product formed on the way reaches the modulus. *)
Theorem rnd_lehmer_step (g : t) (s : Z) :
  wf g ->
  _modulus g < 2 ^ 53 ->
  Lehmer.compatible (_modulus g) (_multiplier g) ->
  _seeds g !! Z.to_nat (_stream g) = Some s ->
  0 <= s <= _modulus g ->
  exists s' : Z,
    rnd g = (Ok (inject_Z s' / inject_Z (_modulus g))%Q,
             set_seeds (<[Z.to_nat (_stream g) := s']> (_seeds g)) g) /\
    0 < s' <= _modulus g /\
    s' mod _modulus g = (_multiplier g * s) mod _modulus g /\
    ((_multiplier g * s) mod _modulus g <> 0 ->
       s' = (_multiplier g * s) mod _modulus g) /\
    _multiplier g * (s mod (_modulus g / _multiplier g)) < _modulus g /\
    (_modulus g mod _multiplier g) * (s / (_modulus g / _multiplier g)) < _modulus g.
Proof.
  intros Hwf _ Hc Hs Hrange.
  destruct (recurrence_arith _ _ s Hc Hrange) as (Eas & Hp1 & Hp2).
  destruct Hc as (Ha & Hm & Hc).
  assert (HQ : 0 < _modulus g / _multiplier g).
  { pose proof (Z.mod_pos_bound (_modulus g) (_multiplier g) Ha). lia. }
  eexists. split; [apply (rnd_computes g s Hwf Ha HQ Hs); lia|].
  set (m := _modulus g) in *. set (a := _multiplier g) in *.
  set (t := a * (s mod (m / a)) - m mod a * (s / (m / a))) in *.
  assert (Ecur : (if 0 <? t then t else t + m) mod m = (a * s) mod m).
  { rewrite Eas. destruct (Z.ltb_spec 0 t).
    - rewrite (Z.add_comm (m * _)), Z.mul_comm, Z.mod_add by lia. done.
    - rewrite (Z.add_comm (m * _)), Z.mul_comm, Z.mod_add by lia.
      rewrite <- (Z.mod_add t 1 m) by lia. f_equal. lia. }
  assert (Hcur : 0 < (if 0 <? t then t else t + m) <= m).
  { destruct (Z.ltb_spec 0 t); lia. }
  repeat split; try lia; try done.
  intros Hnz. rewrite <- Ecur in Hnz |- *.
  destruct (Z.eq_dec (if 0 <? t then t else t + m) m) as [E|E].
  - rewrite E, Z.mod_same in Hnz by lia. done.
  - symmetry. apply Z.mod_small. lia.
Qed.

Lemma rnd_lehmer_step_witness :
  exists s' : Z,
    rnd example_generator
      = (Ok (inject_Z s' / inject_Z (_modulus example_generator))%Q,
         set_seeds (<[Z.to_nat (_stream example_generator) := s']>
                      (_seeds example_generator)) example_generator) /\
    0 < s' <= _modulus example_generator /\
    s' mod _modulus example_generator
      = (_multiplier example_generator * 1) mod _modulus example_generator /\
    ((_multiplier example_generator * 1) mod _modulus example_generator <> 0 ->
       s' = (_multiplier example_generator * 1) mod _modulus example_generator) /\
    _multiplier example_generator
      * (1 mod (_modulus example_generator / _multiplier example_generator))
      < _modulus example_generator /\
    (_modulus example_generator mod _multiplier example_generator)
      * (1 / (_modulus example_generator / _multiplier example_generator))
      < _modulus example_generator.
Proof.
  apply (rnd_lehmer_step example_generator 1).
  - split; [discriminate | simpl; lia].
  - reflexivity.
  - vm_compute. repeat split.
  - reflexivity.
  - vm_compute. split; discriminate.
Defined.

End Recurrence.

Section SingleAndMulti.

Import MarcianiMultiStream.

(** X2.  The single-stream generator is the multi-stream one restricted to
    its active stream: from the same modulus, multiplier and seed, [rnd]
    returns the same number or raises the same exception in both, and leaves
    the same seed. *)
Theorem singlestream_rnd_agrees (g : t) (s : Z) :
  wf g ->
  _seeds g !! Z.to_nat (_stream g) = Some s ->
  fst (rnd g)
    = fst (MarcianiSingleStream.rnd
             (MarcianiSingleStream.mk (_iseed g) s (_modulus g) (_multiplier g))) /\
  fst (get_seed (snd (rnd g)))
    = Ok (MarcianiSingleStream._seed
            (snd (MarcianiSingleStream.rnd
                    (MarcianiSingleStream.mk (_iseed g) s (_modulus g)
                                             (_multiplier g))))).
Proof.
  intros Hwf Hs.
  pose proof (wf_position g Hwf) as Hpos.
  destruct Hwf as [Hm [Hi0 Hi1]].
  assert (Hlt : (Z.to_nat (_stream g) < length (_seeds g))%nat) by lia.
  unfold rnd, MarcianiSingleStream.rnd, get_seed, seeds_get, seeds_set,
    Py.getitem, Py.setitem, Py.int_truediv, Py.mod_, Py.truediv.
  run_m. cbn.
  destruct (_multiplier g =? 0); cbn; [by rewrite Hpos, Hs|].
  rewrite Hpos, Hs. cbn.
  destruct (_modulus g ÷ _multiplier g =? 0); cbn; [by rewrite Hpos, Hs|].
  rewrite (proj2 (Z.eqb_neq (_modulus g) 0)) by done.
  destruct (0 <? _); cbn; rewrite Hpos; cbn; rewrite length_insert, Hpos;
    rewrite list_lookup_insert_eq by done; cbn;
    rewrite ?(proj2 (Z.eqb_neq (_modulus g) 0)) by done; cbn;
    by rewrite length_insert, Hpos, list_lookup_insert_eq.
Qed.

Lemma singlestream_rnd_agrees_witness :
  fst (rnd example_generator)
    = fst (MarcianiSingleStream.rnd
             (MarcianiSingleStream.mk (_iseed example_generator) 1
                (_modulus example_generator) (_multiplier example_generator))) /\
  fst (get_seed (snd (rnd example_generator)))
    = Ok (MarcianiSingleStream._seed
            (snd (MarcianiSingleStream.rnd
                    (MarcianiSingleStream.mk (_iseed example_generator) 1
                       (_modulus example_generator)
                       (_multiplier example_generator))))).
Proof.
  apply (singlestream_rnd_agrees example_generator 1).
  - split; [discriminate | simpl; lia].
  - reflexivity.
Defined.

End SingleAndMulti.

(** ** core/random/rndgen.py: planting the seeds *)

Section Planting.

Import MarcianiMultiStream.

Lemma for_range_nil {St} (lo hi : Z) (body : Z -> M St unit) :
  hi <= lo -> Py.for_range lo hi body = mret tt.
Proof.
  intros H. unfold Py.for_range.
  replace (Z.to_nat (hi - lo)) with 0%nat by lia. done.
Qed.

Lemma for_range_cons {St} (lo hi : Z) (body : Z -> M St unit) :
  lo < hi ->
  Py.for_range lo hi body = (body lo ≫= fun _ => Py.for_range (lo + 1) hi body).
Proof.
  intros H. unfold Py.for_range.
  replace (Z.to_nat (hi - lo)) with (S (Z.to_nat (hi - (lo + 1)))) by lia.
  set (n := Z.to_nat (hi - (lo + 1))).
  assert ((fun i : nat => lo + Z.of_nat i) <$> seq 1 n
          = (fun i : nat => lo + 1 + Z.of_nat i) <$> seq 0 n) as E.
  { rewrite <- fmap_S_seq, <- list_fmap_compose.
    apply list_fmap_ext. intros _ i _. cbn. lia. }
  cbn [seq fmap list_fmap foldr]. cbn [fmap] in E. rewrite E.
  by rewrite Z.add_0_r.
Qed.

(** One turn of the loop of [plant_seeds] at a position in range, on a
    seed before it that is not negative. *)
Lemma plant_seeds_step_computes (g : t) (j : nat) (prev : Z) :
  0 < _jumper g -> 0 < _modulus g / _jumper g ->
  (1 <= j < length (_seeds g))%nat ->
  _seeds g !! (j - 1)%nat = Some prev -> 0 <= prev ->
  let m := _modulus g in
  let G := _jumper g in
  let x := G * (prev mod (m / G)) - (m mod G) * (prev / (m / G)) in
  plant_seeds_step (m / G) (m mod G) (Z.of_nat j) g
  = (Ok tt, set_seeds (<[j := if 0 <? x then x else x + m]> (_seeds g)) g).
Proof.
  intros HG HQ Hj Hprev Hprev0. cbv zeta.
  unfold plant_seeds_step, seeds_get, seeds_set, Py.getitem, Py.setitem,
    Py.int_truediv, Py.mod_.
  run_m. cbn.
  rewrite (position_nonneg _ (Z.of_nat j - 1)) by lia.
  replace (Z.to_nat (Z.of_nat j - 1)) with (j - 1)%nat by lia.
  rewrite Hprev. cbn.
  rewrite (proj2 (Z.eqb_neq (_modulus g / _jumper g) 0)) by lia. cbn.
  rewrite Z.quot_div_nonneg by lia.
  destruct (0 <? _); cbn; rewrite (position_nonneg _ (Z.of_nat j)) by lia;
    cbn; by rewrite Nat2Z.id.
Qed.

(** The loop of [plant_seeds] from position [lo] on: it returns, keeps the
    seeds before [lo], and extends the jump relation to all the seeds. *)
Lemma plant_loop (cnt : nat) :
  forall (g : t) (lo : nat),
    Lehmer.compatible (_modulus g) (_jumper g) ->
    (1 <= lo)%nat -> (lo + cnt)%nat = length (_seeds g) ->
    (exists prev, _seeds g !! (lo - 1)%nat = Some prev /\ 0 <= prev <= _modulus g) ->
    planted (_modulus g) (_jumper g) lo (_seeds g) ->
    exists g',
      Py.for_range (Z.of_nat lo) (Z.of_nat (length (_seeds g)))
        (plant_seeds_step (_modulus g / _jumper g) (_modulus g mod _jumper g)) g
      = (Ok tt, g') /\
      same_shape g g' /\
      planted (_modulus g) (_jumper g) (length (_seeds g)) (_seeds g') /\
      forall k : nat, (k < lo)%nat -> _seeds g' !! k = _seeds g !! k.
Proof.
  induction cnt as [|cnt IH]; intros g lo Hc Hlo Hlen (prev & Hprev & Hrange) Hpl.
  - exists g. rewrite for_range_nil by lia.
    split; [done|]. split; [apply same_shape_refl|].
    split; [|done]. replace (length (_seeds g)) with lo by lia. done.
  - rewrite for_range_cons by lia.
    destruct (recurrence_arith _ _ prev Hc Hrange) as (Eas & Hp1 & Hp2).
    pose proof Hc as (HG & Hm & Hcompat).
    assert (HQ : 0 < _modulus g / _jumper g).
    { pose proof (Z.mod_pos_bound (_modulus g) (_jumper g) HG). lia. }
    unfold mbind, M_bind.
    rewrite (plant_seeds_step_computes g lo prev) by (done || lia).
    set (x := _jumper g * _ - _ * _) in *.
    set (cur := if 0 <? x then x else x + _modulus g).
    assert (Hcur : 0 < cur <= _modulus g).
    { unfold cur. destruct (Z.ltb_spec 0 x); lia. }
    assert (Ecur : cur mod _modulus g = (_jumper g * prev) mod _modulus g).
    { rewrite Eas. unfold cur. fold x. destruct (Z.ltb_spec 0 x).
      - rewrite (Z.add_comm (_modulus g * _)), Z.mul_comm, Z.mod_add by lia. done.
      - rewrite (Z.add_comm (_modulus g * _)), Z.mul_comm, Z.mod_add by lia.
        rewrite <- (Z.mod_add x 1 (_modulus g)) by lia. f_equal. lia. }
    set (g1 := set_seeds (<[lo:=cur]> (_seeds g)) g).
    assert (Hlen1 : length (_seeds g1) = length (_seeds g))
      by apply length_insert.
    destruct (IH g1 (S lo)) as (g' & Hrun & Hshape & Hpl' & Hkeep).
    + exact Hc.
    + lia.
    + rewrite Hlen1. lia.
    + exists cur. split; [|cbn; lia].
      replace (S lo - 1)%nat with lo by lia. cbn.
      apply list_lookup_insert_eq. lia.
    + intros k Hk. cbn.
      destruct (decide (k = lo)) as [->|Hne].
      * exists prev, cur. rewrite list_lookup_insert_ne by lia.
        rewrite list_lookup_insert_eq by lia. done.
      * destruct (Hpl k ltac:(lia)) as (p & c & Hp & Hc' & Hb).
        exists p, c. rewrite !list_lookup_insert_ne by lia. done.
    + exists g'. rewrite Hlen1 in Hrun, Hpl'. cbn in Hrun, Hpl'.
      replace (Z.of_nat lo + 1) with (Z.of_nat (S lo)) by lia.
      split; [exact Hrun|]. split.
      { eapply same_shape_trans; [|exact Hshape].
        unfold same_shape. cbn. by rewrite length_insert. }
      split; [exact Hpl'|].
      intros k Hk. rewrite Hkeep by lia. cbn.
      apply list_lookup_insert_ne. lia.
Qed.

(** X3.  With a positive seed, at least one stream, a modulus below
    [2^53], where the quotients [int(m / G)] and [int(seed / Q)] that
    [plant_seeds] takes through a float are exact, and a jumper that is
    modulus-compatible, the constructor returns: the generator is
    consistent, with stream 0 active and as many seeds as streams; seed 0 is
    [iseed mod m], and every further seed lies in [(0, m]] and is congruent
    modulo [m] to the jumper times the seed before it. *)
Theorem init_plants_streams (iseed modulus multiplier streams jumper : Z) :
  0 < iseed -> 0 < streams ->
  modulus < 2 ^ 53 ->
  Lehmer.compatible modulus jumper ->
  exists g : t,
    __init__ iseed modulus multiplier streams jumper = Ok g /\
    consistent g /\
    _stream g = 0 /\
    length (_seeds g) = Z.to_nat streams /\
    _seeds g !! 0%nat = Some (iseed mod modulus) /\
    planted modulus jumper (length (_seeds g)) (_seeds g).
Proof.
  intros Hiseed Hn _ Hc.
  pose proof Hc as (HG & Hm & Hcompat).
  assert (HQ : 0 < modulus / jumper).
  { pose proof (Z.mod_pos_bound modulus jumper HG). lia. }
  set (l1 := <[0%nat := iseed mod modulus]> (Py.repeat iseed streams)).
  set (g1 := mk iseed iseed 0 modulus multiplier streams jumper true l1).
  assert (Hlen : length l1 = Z.to_nat streams).
  { unfold l1, Py.repeat. by rewrite length_insert, length_replicate. }
  destruct (plant_loop (Z.to_nat streams - 1) g1 1)
    as (g' & Hrun & Hshape & Hpl & Hkeep).
  - exact Hc.
  - lia.
  - cbn. rewrite Hlen. lia.
  - exists (iseed mod modulus). cbn. split.
    + apply list_lookup_insert_eq. unfold Py.repeat.
      rewrite length_replicate. lia.
    + pose proof (Z.mod_pos_bound iseed modulus Hm). lia.
  - intros k Hk. lia.
  - cbn in Hrun, Hpl, Hkeep. rewrite Hlen in Hrun.
    destruct Hshape as (_&_&Hs&Hmod&_&Hstr&_&Hinit&Hl). cbn in *.
    exists g'. split; [|split; [|split; [|split; [|split]]]].
    + unfold __init__, plant_seeds, plant_seeds_with, stream_with, put_seed,
        seeds_set, Py.setitem, Py.int_truediv, Py.mod_.
      run_m. cbn.
      rewrite (proj2 (Z.eqb_neq jumper 0)) by lia. cbn.
      rewrite (proj2 (Z.eqb_neq streams 0)) by lia. cbn.
      rewrite Z.mod_0_l by lia. cbn.
      rewrite (proj2 (Z.ltb_lt 0 iseed)) by done. cbn.
      rewrite (proj2 (Z.eqb_neq modulus 0)) by lia. cbn.
      rewrite (position_nonneg _ 0)
        by (unfold Py.repeat; rewrite length_replicate; lia).
      cbn. rewrite Z.quot_div_nonneg by lia.
      rewrite Z2Nat.id in Hrun by lia.
      change (Z.of_nat 1) with 1 in Hrun.
      change (set_stream 0 _) with g1. by rewrite Hrun.
    + unfold consistent. rewrite Hmod, Hstr, Hs, Hinit, Hl, Hlen.
      split; [lia|]. split; [lia|]. split; [lia|done].
    + exact Hs.
    + by rewrite Hl, Hlen.
    + rewrite Hkeep by lia. apply list_lookup_insert_eq.
      unfold Py.repeat. rewrite length_replicate. lia.
    + by rewrite Hl.
Qed.

Lemma init_plants_streams_witness :
  exists g : t,
    __init__ 1 127 14 4 14 = Ok g /\
    consistent g /\
    _stream g = 0 /\
    length (_seeds g) = Z.to_nat 4 /\
    _seeds g !! 0%nat = Some (1 mod 127) /\
    planted 127 14 (length (_seeds g)) (_seeds g).
Proof.
  apply (init_plants_streams 1 127 14 4 14).
  - lia.
  - lia.
  - reflexivity.
  - vm_compute. repeat split.
Defined.

End Planting.

(** ** core/random/rndgen.py: selecting a stream *)

Section Selecting.

Import MarcianiMultiStream.

(** X4.  On a generator that [__init__] built, [stream] never raises and
    never plants the seeds again: whatever the integer given, negative
    ones included, it makes [stream_id mod streams] the active stream, a
    valid index, and changes nothing else. *)
Theorem stream_selects (g : t) (stream_id : Z) :
  consistent g ->
  stream stream_id g = (Ok tt, set_stream (stream_id mod _streams g) g) /\
  0 <= stream_id mod _streams g < _streams g /\
  _seeds (snd (stream stream_id g)) = _seeds g /\
  consistent (snd (stream stream_id g)).
Proof.
  intros Hc. destruct (stream_consistent stream_id g Hc) as [E Hc'].
  split; [exact E|]. split; [|split; [by rewrite E|exact Hc']].
  destruct Hc as (_ & _ & Hs & _). apply Z.mod_pos_bound. lia.
Qed.

Lemma stream_selects_witness :
  stream (-3) example_generator
    = (Ok tt, set_stream ((-3) mod _streams example_generator) example_generator) /\
  0 <= (-3) mod _streams example_generator < _streams example_generator /\
  _seeds (snd (stream (-3) example_generator)) = _seeds example_generator /\
  consistent (snd (stream (-3) example_generator)).
Proof.
  apply (stream_selects example_generator (-3)).
  unfold consistent. simpl. repeat split; (discriminate || lia).
Defined.

End Selecting.

(** ** core/simulation/model/calendar.py: successive events *)

Section Successive.

Import NextEventCalendar.

(** What a returning [get_next_event] did to the calendar: it dropped a
    run of ignored entries from the front of the queue, with their marks in
    the ignore set, and the entry after them, which it returned. *)
Lemma get_next_event_returns (c c' : t) (ev : SimpleEvent.t) :
  get_next_event c = (Returns (Some ev), c') ->
  exists skipped e,
    _events c = skipped ++ e :: _events c' /\ snd e = ev /\
    Forall (fun x => SimpleEvent.id (snd x) ∈ _ignore c) skipped /\
    _ignore c' = _ignore c ∖ list_to_set (SimpleEvent.id <$> (snd <$> skipped)) /\
    (SimpleEvent.id ev ∉ _ignore c') /\
    _clock c' = SimpleEvent.time ev /\
    _stop c' = _stop c /\
    _arrival_types c' = _arrival_types c.
Proof.
  unfold get_next_event.
  destruct (_events c) as [|[t0 cand] events] eqn:Hq; [done|].
  destruct (skip_ignored cand events (_ignore c)) as [[[ev'|] events'] ignore'] eqn:Hskip;
    [|done].
  intros [= -> <-].
  apply (skip_ignored_returns (t0, cand)) in Hskip
    as (skipped & e & Heq & He & Hall & Hign & Hnot).
  exists skipped, e. cbn. by rewrite Heq.
Qed.

Lemma get_next_event_queued_once (c c' : t) (ev : SimpleEvent.t) :
  get_next_event c = (Returns (Some ev), c') -> queued_once c -> queued_once c'.
Proof.
  intros Hget Hnd.
  destruct (get_next_event_returns c c' ev Hget) as (skipped & e & Hq & _).
  unfold queued_once in *. rewrite Hq, !fmap_app, !fmap_cons in Hnd.
  apply NoDup_app in Hnd as (_ & _ & Hnd). by apply NoDup_cons in Hnd as [_ Hnd].
Qed.

(** Every event that successive calls return was in the queue. *)
Lemma next_events_queued (n : nat) (c : t) :
  Forall (fun ev => ev ∈ snd <$> _events c) (next_events n c).
Proof.
  revert c. induction n as [|n IH]; intros c; cbn; [constructor|].
  destruct (get_next_event c) as [[[ev|]|] c'] eqn:Hget; try constructor.
  - destruct (get_next_event_returns c c' ev Hget) as (skipped & e & Hq & He & _).
    rewrite Hq, fmap_app, fmap_cons, He. set_solver.
  - destruct (get_next_event_returns c c' ev Hget) as (skipped & e & Hq & He & _).
    eapply Forall_impl; [apply IH|]. intros x Hx. cbn in Hx.
    rewrite Hq, fmap_app, fmap_cons. set_solver.
Qed.

(** X5.  After any run of [schedule] and [unschedule] calls on a new
    calendar, the events that successive [get_next_event] calls return come
    in non-decreasing order of time. *)
Theorem calendar_returns_in_time_order (ks : list call) (n : nat)
    (t_clock t_stop : PyFloat.t) (arrival_types : gset EventType.t) :
  nondecreasing
    (next_events n (perform_all ks (__init__ t_clock t_stop arrival_types))).
Proof.
  apply next_events_nondecreasing, perform_all_well_queued, init_well_queued.
Qed.

(** X6.  When no event is queued twice, no event that is cancelled is ever
    returned: none of the events that successive [get_next_event] calls
    return is in the ignore set the calendar had before the calls. *)
Theorem cancelled_events_are_never_returned (n : nat) (c : t) :
  queued_once c ->
  Forall (fun ev => SimpleEvent.id ev ∉ _ignore c) (next_events n c).
Proof.
  revert c. induction n as [|n IH]; intros c Hnd; cbn; [constructor|].
  destruct (get_next_event c) as [[[ev|]|] c'] eqn:Hget; try constructor.
  - destruct (get_next_event_returns c c' ev Hget)
      as (skipped & e & Hq & He & _ & Hign & Hnot & _).
    intros Hin. apply Hnot. rewrite Hign. apply elem_of_difference.
    split; [done|]. intros Hsk%elem_of_list_to_set.
    unfold queued_once in Hnd. rewrite Hq, !fmap_app, !fmap_cons, He in Hnd.
    apply NoDup_app in Hnd as (_ & Hdisj & _). apply (Hdisj _ Hsk). left.
  - pose proof (get_next_event_queued_once c c' ev Hget Hnd) as Hnd'.
    destruct (get_next_event_returns c c' ev Hget)
      as (skipped & e & Hq & He & _ & Hign & _).
    pose proof (next_events_queued n c') as Hqueued.
    specialize (IH c' Hnd'). rewrite Forall_forall in IH, Hqueued |- *.
    intros x Hx Hin. apply (IH x Hx). rewrite Hign.
    apply elem_of_difference. split; [done|].
    intros Hsk%elem_of_list_to_set.
    unfold queued_once in Hnd. rewrite Hq, !fmap_app, !fmap_cons in Hnd.
    apply NoDup_app in Hnd as (_ & Hdisj & _). apply (Hdisj _ Hsk).
    right. apply list_elem_of_fmap. exists x. split; [done|]. by apply Hqueued.
Qed.

Lemma cancelled_events_are_never_returned_witness :
  Forall (fun ev => SimpleEvent.id ev ∉ _ignore example_calendar)
         (next_events 3 example_calendar).
Proof.
  apply (cancelled_events_are_never_returned 3 example_calendar).
  apply (bool_decide_unpack _). vm_compute. exact I.
Defined.

(** The two events left are returned, the earlier first. *)
Example example_calendar_events :
  SimpleEvent.id <$> next_events 3 example_calendar = [2%nat; 0%nat].
Proof. vm_compute. reflexivity. Qed.



(** X8.  When no event is queued twice, [get_next_event] waits for ever
    exactly when the queue is not empty and every queued event is marked as
    ignored; so it returns whenever the queue is empty or holds an event
    that is not cancelled. *)
Theorem get_next_event_hangs_exactly_when (c : t) :
  queued_once c ->
  (fst (get_next_event c) = Blocks <->
   _events c <> [] /\
   Forall (fun e => SimpleEvent.id (snd e) ∈ _ignore c) (_events c)) /\
  ((_events c = [] \/
    Exists (fun e => SimpleEvent.id (snd e) ∉ _ignore c) (_events c)) ->
   exists r, fst (get_next_event c) = Returns r).
Proof.
  intros Hnd. pose proof (get_next_event_blocks c Hnd) as Hiff.
  split; [exact Hiff|]. intros Hsome.
  destruct (fst (get_next_event c)) as [r|] eqn:E; [by exists r|].
  exfalso. destruct Hiff as [[Hne Hall] _]; [done|].
  destruct Hsome as [Hnil|Hex]; [done|].
  apply Exists_exists in Hex as (e & He & Hnot).
  rewrite Forall_forall in Hall. by apply Hnot, Hall.
Qed.

Lemma get_next_event_hangs_exactly_when_witness :
  (fst (get_next_event example_calendar) = Blocks <->
   _events example_calendar <> [] /\
   Forall (fun e => SimpleEvent.id (snd e) ∈ _ignore example_calendar)
          (_events example_calendar)) /\
  ((_events example_calendar = [] \/
    Exists (fun e => SimpleEvent.id (snd e) ∉ _ignore example_calendar)
           (_events example_calendar)) ->
   exists r, fst (get_next_event example_calendar) = Returns r).
Proof.
  apply (get_next_event_hangs_exactly_when example_calendar).
  apply (bool_decide_unpack _). vm_compute. exact I.
Defined.

(** *** The horizon *)

Lemma init_within_horizon t_clock t_stop arrival_types :
  within_horizon (__init__ t_clock t_stop arrival_types).
Proof. constructor. Qed.

Lemma schedule_within_horizon (ev : SimpleEvent.t) (c : t) :
  within_horizon c -> within_horizon (snd (schedule ev c)).
Proof.
  unfold within_horizon, schedule. intros Hc.
  case_bool_decide as Hin; cbn.
  - destruct (PyFloat.geb (SimpleEvent.time ev) (_stop c)) eqn:Hge; cbn; [done|].
    rewrite put_Permutation. constructor; [|done]. cbn. intros _.
    unfold PyFloat.ltb. unfold PyFloat.geb in Hge. by rewrite Hge.
  - rewrite put_Permutation. by constructor.
Qed.

Lemma perform_all_within_horizon (ks : list call) (c : t) :
  within_horizon c -> within_horizon (perform_all ks c).
Proof.
  revert c. induction ks as [|k ks IH]; intros c Hc; [done|].
  apply IH. destruct k; [by apply schedule_within_horizon | done].
Qed.

Lemma next_events_within_horizon (n : nat) (c : t) :
  within_horizon c ->
  Forall (fun ev => SimpleEvent.type ev ∈ _arrival_types c ->
                    PyFloat.ltb (SimpleEvent.time ev) (_stop c) = true)
         (next_events n c).
Proof.
  revert c. induction n as [|n IH]; intros c Hc; cbn; [constructor|].
  destruct (get_next_event c) as [[[ev|]|] c'] eqn:Hget; try constructor.
  - destruct (get_next_event_returns c c' ev Hget) as (skipped & e & Hq & He & _).
    unfold within_horizon in Hc. rewrite Hq in Hc.
    apply Forall_app in Hc as [_ Hc]. apply Forall_cons in Hc as [Hc _].
    by rewrite He in Hc.
  - destruct (get_next_event_returns c c' ev Hget)
      as (skipped & e & Hq & He & _ & _ & _ & _ & Hstop & Hty).
    rewrite <- Hstop, <- Hty. apply IH.
    unfold within_horizon in *. rewrite Hstop, Hty, Hq in *.
    apply Forall_app in Hc as [_ Hc]. by apply Forall_cons in Hc as [_ Hc].
Qed.

(** X9.  An arrival at or past the horizon never comes out of the
    calendar: after any run of [schedule] and [unschedule] calls on a new
    calendar, every event of an arrival type that [get_next_event] returns
    has a time strictly before the horizon. *)
Theorem late_arrivals_are_never_returned (ks : list call) (n : nat)
    (t_clock t_stop : PyFloat.t) (arrival_types : gset EventType.t) :
  Forall (fun ev => SimpleEvent.type ev ∈ arrival_types ->
                    PyFloat.ltb (SimpleEvent.time ev) t_stop = true)
         (next_events n (perform_all ks (__init__ t_clock t_stop arrival_types))).
Proof.
  pose proof (next_events_within_horizon n
                (perform_all ks (__init__ t_clock t_stop arrival_types))
                (perform_all_within_horizon ks _
                   (init_within_horizon t_clock t_stop arrival_types))) as H.
  assert (Hkeep : forall ks c, _stop (perform_all ks c) = _stop c /\
                               _arrival_types (perform_all ks c) = _arrival_types c).
  { clear. induction ks as [|k ks' IH]; intros c; [done|].
    change (perform_all (k :: ks') c) with (perform_all ks' (perform c k)).
    destruct (IH (perform c k)) as [-> ->].
    destruct k; cbn; [|done]. unfold schedule. by destruct (_ && _). }
  destruct (Hkeep ks (__init__ t_clock t_stop arrival_types)) as [Es Et].
  by rewrite Es, Et in H.
Qed.

End Successive.

(** ** core/simulations/cloud/model/system.py: routing and bookkeeping *)

Section Routing.

Import SimpleCloudletCloudSystem.

Context {tiers : Tiers}.

Ltac run_system :=
  cbv [submit_arrival_task_1 submit_arrival_task_2
       submit_completion_cloudlet_task_1 submit_completion_cloudlet_task_2
       submit_completion_cloud_task_1 submit_completion_cloud_task_2
       update_meta_arrival update_meta_completion update_statistics
       on_cloudlet on_cloud SimpleCloudletCloudSystem.modify
       SimpleCloudletCloudSystem.gets mbind State_bind mret State_ret].

Ltac split_calls :=
  repeat
    (cbn;
     match goal with
      | |- context [if ?b then _ else _] => destruct b eqn:?
      | |- context [cloudlet_submit_arrival_task_1 ?t ?x] =>
          destruct (cloudlet_submit_arrival_task_1 t x) as [? [? ?]]
      | |- context [cloudlet_submit_arrival_task_2 ?t ?x] =>
          destruct (cloudlet_submit_arrival_task_2 t x) as [? [? ?]]
      | |- context [cloudlet_submit_removal_task_2 ?t ?x] =>
          destruct (cloudlet_submit_removal_task_2 t x) as [? [? ?]]
      | |- context [cloudlet_submit_completion_task_1 ?t ?x] =>
          destruct (cloudlet_submit_completion_task_1 t x) as [? [? ?]]
      | |- context [cloudlet_submit_completion_task_2 ?t ?x] =>
          destruct (cloudlet_submit_completion_task_2 t x) as [? [? ?]]
      | |- context [cloud_submit_arrival_task_1 ?t ?x] =>
          destruct (cloud_submit_arrival_task_1 t x) as [? [? ?]]
      | |- context [cloud_submit_arrival_task_2 ?t ?x] =>
          destruct (cloud_submit_arrival_task_2 t x) as [? [? ?]]
      | |- context [cloud_submit_restart_task_2 ?t ?x] =>
          destruct (cloud_submit_restart_task_2 t x) as [? [? ?]]
      | |- context [cloud_submit_completion_task_1 ?t ?x] =>
          destruct (cloud_submit_completion_task_1 t x) as [? [? ?]]
      | |- context [cloud_submit_completion_task_2 ?t ?x] =>
          destruct (cloud_submit_completion_task_2 t x) as [? [? ?]]
      end);
  cbn.

(** X10.  An arrival of type 1 preempts exactly when the Cloudlet has a
    free type-1 slot, is at or above its threshold and holds a type-2 task:
    exactly then the second and third results are present.  The Cloud is
    left alone unless all servers hold type-1 tasks or a type-2 task is
    preempted, and the Cloudlet is left alone when all its servers hold
    type-1 tasks. *)
Theorem preemption_exactly_when (s : t) (event_time : PyFloat.t) :
  let preempts :=
    negb (cloudlet_n_1 (cloudlet s) =? cloudlet_n_servers (cloudlet s))
    && (cloudlet_threshold (cloudlet s) <=? cloudlet_n_1 (cloudlet s) + cloudlet_n_2 (cloudlet s))
    && (0 <? cloudlet_n_2 (cloudlet s)) in
  let r := submit_arrival_task_1 event_time s in
  bool_decide (is_Some (snd (fst r))) = preempts /\
  bool_decide (is_Some (snd (fst (fst r)))) = preempts /\
  (((cloudlet_n_1 (cloudlet s) =? cloudlet_n_servers (cloudlet s)) || preempts) = false ->
     cloud (snd r) = cloud s) /\
  ((cloudlet_n_1 (cloudlet s) =? cloudlet_n_servers (cloudlet s)) = true ->
     cloudlet (snd r) = cloudlet s).
Proof.
  cbv zeta. run_system. cbn.
  destruct (0 <? n_1 s + 1 + n_2 s); cbn;
    destruct (cloudlet_n_1 (cloudlet s) =? cloudlet_n_servers (cloudlet s)); cbn;
    destruct (Z.ltb_spec (cloudlet_n_1 (cloudlet s) + cloudlet_n_2 (cloudlet s))
                         (cloudlet_threshold (cloudlet s)));
    destruct (Z.leb_spec (cloudlet_threshold (cloudlet s))
                         (cloudlet_n_1 (cloudlet s) + cloudlet_n_2 (cloudlet s)));
    try lia; cbn;
    destruct (0 <? cloudlet_n_2 (cloudlet s)); cbn;
    split_calls; done.
Qed.

(** What one submission does to the counters and to the two times. *)
Lemma submit_counters (s : t) (e : submission) :
  n_arrival_1 (submit s e) = n_arrival_1 s + (if is_arrival TASK_1 e then 1 else 0) /\
  n_arrival_2 (submit s e) = n_arrival_2 s + (if is_arrival TASK_2 e then 1 else 0) /\
  n_served_1 (submit s e) = n_served_1 s + (if is_completion TASK_1 e then 1 else 0) /\
  n_served_2 (submit s e) = n_served_2 s + (if is_completion TASK_2 e then 1 else 0) /\
  t_last_event (submit s e) = SystemMetrics.event_time e /\
  t_last_completion (submit s e)
    = (if SystemMetrics.completes e then SystemMetrics.event_time e
       else t_last_completion s).
Proof.
  destruct e; unfold submit, SystemMetrics.completes;
    cbn [is_arrival is_completion SystemMetrics.event_time orb];
    run_system; split_calls; repeat split; lia.
Qed.

Lemma submit_all_snoc (es : list submission) (e : submission) (s : t) :
  submit_all (es ++ [e]) s = submit (submit_all es s) e.
Proof. unfold submit_all. by rewrite foldl_app. Qed.

Lemma arrivals_snoc (k : TaskScope) (es : list submission) (e : submission) :
  arrivals k (es ++ [e]) = arrivals k es + (if is_arrival k e then 1 else 0).
Proof.
  unfold arrivals. rewrite filter_app, length_app, filter_cons, filter_nil.
  destruct (is_arrival k e); case_decide; try done; cbn [length]; lia.
Qed.

Lemma completions_snoc (k : TaskScope) (es : list submission) (e : submission) :
  completions k (es ++ [e]) = completions k es + (if is_completion k e then 1 else 0).
Proof.
  unfold completions. rewrite filter_app, length_app, filter_cons, filter_nil.
  destruct (is_completion k e); case_decide; try done; cbn [length]; lia.
Qed.

(** X11.  The statistics counters of the system count the submissions:
    after any run on a new system, arrived and served tasks of each class
    are the arrivals and completions submitted, the tasks in service are the
    arrived ones less the served ones, and [empty] answers true exactly when
    as many tasks were served as arrived. *)
Theorem counters_count_submissions (g : MarcianiMultiStream.t) (cl : Cloudlet)
    (cd : Cloud) (rt : SampleStatistic) (es : list submission) :
  let s := submit_all es (__init__ g cl cd rt) in
  n_arrival_1 s = arrivals TASK_1 es /\
  n_arrival_2 s = arrivals TASK_2 es /\
  n_served_1 s = completions TASK_1 es /\
  n_served_2 s = completions TASK_2 es /\
  n_1 s = n_arrival_1 s - n_served_1 s /\
  n_2 s = n_arrival_2 s - n_served_2 s /\
  (fst (empty s) = true <->
   n_arrival_1 s + n_arrival_2 s = n_served_1 s + n_served_2 s).
Proof.
  cbv zeta.
  assert (n_arrival_1 (submit_all es (__init__ g cl cd rt)) = arrivals TASK_1 es /\
          n_arrival_2 (submit_all es (__init__ g cl cd rt)) = arrivals TASK_2 es /\
          n_served_1 (submit_all es (__init__ g cl cd rt)) = completions TASK_1 es /\
          n_served_2 (submit_all es (__init__ g cl cd rt)) = completions TASK_2 es)
    as (E1 & E2 & E3 & E4).
  { induction es as [|e es IH] using rev_ind; [done|].
    destruct IH as (I1 & I2 & I3 & I4).
    rewrite submit_all_snoc, !arrivals_snoc, !completions_snoc.
    destruct (submit_counters (submit_all es (__init__ g cl cd rt)) e)
      as (-> & -> & -> & -> & _).
    by rewrite I1, I2, I3, I4. }
  pose proof (submit_all_in_service TASK_1 es (__init__ g cl cd rt)) as H1.
  pose proof (submit_all_in_service TASK_2 es (__init__ g cl cd rt)) as H2.
  cbn in H1, H2. rewrite E1, E2, E3, E4.
  repeat split; try lia.
  - unfold empty, gets. cbn. intros H%Z.eqb_eq. lia.
  - unfold empty, gets. cbn. intros H. apply Z.eqb_eq. lia.
Qed.

(** The two times of the bookkeeping, after a run. *)
Lemma submit_all_times (es : list submission) (s : t) :
  t_last_event (submit_all es s)
    = default (t_last_event s) (SystemMetrics.event_time <$> last es) /\
  t_last_completion (submit_all es s)
    = default (t_last_completion s)
        (SystemMetrics.event_time
           <$> last (filter (fun e => SystemMetrics.completes e = true) es)).
Proof.
  induction es as [|e es [IH1 IH2]] using rev_ind; [by split|].
  rewrite submit_all_snoc, filter_app, filter_cons, filter_nil, last_snoc.
  destruct (submit_counters (submit_all es s) e) as (_ & _ & _ & _ & -> & ->).
  split; [done|].
  destruct (SystemMetrics.completes e); case_decide; try done.
  - by rewrite last_snoc.
  - by rewrite app_nil_r.
Qed.

Variable int_div_float : Z -> PyFloat.t -> PyFloat.t.
Variable float_div : PyFloat.t -> PyFloat.t -> PyFloat.t.

(** X12.  [get_utilization] raises [ZeroDivisionError] exactly when the
    time of the last submitted event is zero, as it is on a new system;
    [get_throughput] raises it exactly when the time of the last submitted
    completion is zero, as it is as long as no completion was submitted. *)
Theorem metrics_undefined_at_time_zero (g : MarcianiMultiStream.t) (cl : Cloudlet)
    (cd : Cloud) (rt : SampleStatistic) (es : list submission) :
  let s := submit_all es (__init__ g cl cd rt) in
  (SystemMetrics.get_utilization float_div s = Raise ZeroDivisionError <->
   SystemMetrics.is_zero (SystemMetrics.last_event_time es) = true) /\
  (SystemMetrics.get_throughput int_div_float s = Raise ZeroDivisionError <->
   SystemMetrics.is_zero (SystemMetrics.last_completion_time es) = true) /\
  (Forall (fun e => SystemMetrics.completes e = false) es ->
   SystemMetrics.get_throughput int_div_float s = Raise ZeroDivisionError) /\
  SystemMetrics.get_utilization float_div (__init__ g cl cd rt)
    = Raise ZeroDivisionError.
Proof.
  cbv zeta. destruct (submit_all_times es (__init__ g cl cd rt)) as [Ee Ec].
  unfold SystemMetrics.get_utilization, SystemMetrics.get_throughput,
    SystemMetrics.last_event_time, SystemMetrics.last_completion_time.
  rewrite Ee, Ec. cbn [t_last_event t_last_completion __init__].
  split; [|split; [|split]].
  - destruct (SystemMetrics.is_zero _); split; congruence.
  - destruct (SystemMetrics.is_zero _); split; congruence.
  - intros Hall.
    assert (filter (fun e => SystemMetrics.completes e = true) es = []) as ->.
    { clear -Hall. induction Hall as [|e es' He _ IH]; [done|].
      rewrite filter_cons. case_decide; [congruence|exact IH]. }
    done.
  - done.
Qed.

End Routing.

(** ** core/simulation/model/taskgen.py: the streams left alone *)

Section ArrivalStreams.

Import MarcianiMultiStream.

Variable exponential : Q -> Q -> PyFloat.t.
Variable float_add : PyFloat.t -> PyFloat.t -> PyFloat.t.

(** X13.  The task generator draws on one stream only: on a generator that
    [__init__] built, [_generate_exponential] leaves the seed of every
    stream other than [STREAM_ARRIVAL_TYPE mod streams] as it was, whether
    it returns or raises; the streams of the other components of the
    simulation are not disturbed. *)
Theorem arrival_generator_leaves_other_streams
    (tg : SimpleTaskgen.t) (t_clock : PyFloat.t) (j : Z) :
  consistent (SimpleTaskgen.rndgen tg) ->
  0 <= j < _streams (SimpleTaskgen.rndgen tg) ->
  j <> STREAM_ARRIVAL_TYPE mod _streams (SimpleTaskgen.rndgen tg) ->
  fst (seeds_get j
         (SimpleTaskgen.rndgen
            (snd (SimpleTaskgen._generate_exponential exponential float_add
                    t_clock tg))))
  = fst (seeds_get j (SimpleTaskgen.rndgen tg)).
Proof. apply generate_exponential_touches_only_type_stream. Qed.

End ArrivalStreams.

Lemma arrival_generator_leaves_other_streams_witness :
  fst (MarcianiMultiStream.seeds_get STREAM_ARRIVAL_TIME
         (SimpleTaskgen.rndgen
            (snd (SimpleTaskgen._generate_exponential
                    (fun m _ => PyFloat.fin m) Deterministic.float_add
                    (PyFloat.of_Z 0)
                    (SimpleTaskgen.reference MarcianiMultiStream.default_generator)))))
  = fst (MarcianiMultiStream.seeds_get STREAM_ARRIVAL_TIME
           (SimpleTaskgen.rndgen
              (SimpleTaskgen.reference MarcianiMultiStream.default_generator))).
Proof.
  apply (arrival_generator_leaves_other_streams
           (fun m _ => PyFloat.fin m) Deterministic.float_add
           (SimpleTaskgen.reference MarcianiMultiStream.default_generator)
           (PyFloat.of_Z 0) STREAM_ARRIVAL_TIME).
  - vm_compute. repeat split; discriminate.
  - vm_compute. split; [discriminate | reflexivity].
  - vm_compute. discriminate.
Defined.

(** ** core/simulation/model/statistics.py: the group along a run *)

Section BatchRuns.

Import BatchStatistics BatchCalls.

Context {Measure SampleStatistic SamplePathStatistic V : Type}.
Context {measure : Accumulator Measure V}.
Context {sample : Accumulator SampleStatistic V}.
Context {sample_path : Accumulator SamplePathStatistic V}.

(** A group of four measures, two sample statistics and one sample-path
    statistic, each kind with its own open accumulator. *)
#[local] Abbreviation group :=
  (@BatchStatistics.t Measure SampleStatistic SamplePathStatistic V).
#[local] Abbreviation call :=
  (@BatchCalls.call Measure SampleStatistic SamplePathStatistic).
#[local] Abbreviation new_group :=
  (@BatchStatistics.__init__ Measure SampleStatistic SamplePathStatistic V
     measure sample sample_path).

Lemma register_batch_group_sealed (c : Z) (s : group) :
  all_sealed c s -> all_sealed (c + 1) (register_batch s).
Proof.
  unfold all_sealed. cbn.
  unfold Batched.sealed, Batched.register_batch. cbn.
  rewrite !length_app. cbn.
  intros (<- & E2 & E3 & E4 & E5 & E6 & E7). repeat split; lia.
Qed.

Lemma perform_sealed (k : call) (s : group) (c : Z) :
  n_batches s = c /\ all_sealed c s ->
  n_batches (perform s k) = c + (if is_register k then 1 else 0) /\
  all_sealed (c + (if is_register k then 1 else 0)) (perform s k).
Proof.
  intros [Hn Hs]. destruct k; cbn [perform is_register].
  - split; [cbn; lia|]. by apply register_batch_group_sealed.
  - rewrite Z.add_0_r. by split.
  - rewrite Z.add_0_r. by split.
Qed.

Lemma registers_snoc (ks : list call) (k : call) :
  registers (ks ++ [k]) = registers ks + (if is_register k then 1 else 0).
Proof.
  unfold registers. rewrite filter_app, length_app, filter_cons, filter_nil.
  destruct (is_register k); case_decide; try done; cbn [length]; lia.
Qed.

Lemma perform_all_sealed (ks : list call) :
  n_batches (perform_all ks new_group) = registers ks /\
  all_sealed (registers ks) (perform_all ks new_group).
Proof.
  induction ks as [|k ks IH] using rev_ind; [by repeat split|].
  unfold perform_all in *. rewrite foldl_app, registers_snoc. cbn [foldl].
  by apply perform_sealed.
Qed.

(** X14.  Along any run of [register_batch], [discard_batch] and additions
    to the open batches on a new group, [n_batches] is the number of
    [register_batch] calls made and is the number of sealed batches of each
    of the seven accumulators: [discard_batch] and the additions seal
    nothing, and [discard_batch] leaves every open batch empty. *)
Theorem group_counts_registered_batches (ks : list call) (s : group) :
  n_batches (perform_all ks new_group) = registers ks /\
  all_sealed (registers ks) (perform_all ks new_group) /\
  n_batches (discard_batch s) = n_batches s /\
  sealed_counts (discard_batch s) = sealed_counts s /\
  all_reset (discard_batch s).
Proof.
  destruct (perform_all_sealed ks) as [Hn Hs].
  split; [exact Hn|]. split; [exact Hs|]. by repeat split.
Qed.

End BatchRuns.

(** ** core/simulation/model/config.py *)

Section Normalize.

Import Config.

Lemma normalize_entry_cases (e : entry) :
  (zero_rate e /\ normalize_entry e = Raise ZeroDivisionError) \/
  (~ zero_rate e /\ exists e', normalize_entry e = Ok e' /\
                               normalized_from e e' /\ normal e').
Proof.
  unfold normalize_entry, zero_rate, normalized_from, normal.
  destruct (String.eqb_spec (distribution e) EXPONENTIAL) as [Hd|Hd].
  - destruct (parameters e !! "r") as [r|] eqn:Hr.
    + destruct (Qeq_bool r 0) eqn:Hz.
      * left. split; [|done]. split; [done|]. by exists r.
      * right. split.
        { intros (_ & r' & [= <-] & Hz'). congruence. }
        eexists. split; [done|]. cbn. split; [|intros _; apply lookup_delete_eq].
        split; [done|]. split; [apply lookup_delete_eq|].
        split.
        { rewrite lookup_delete_ne by done. apply lookup_insert_eq. }
        intros k Hk1 Hk2. rewrite lookup_delete_ne by done.
        by rewrite lookup_insert_ne.
    + right. split; [by intros (_ & r' & [=] & _)|].
      exists e. split; [done|]. split; [done|]. by intros _.
  - right. split; [by intros [? _]|].
    exists e. split; [done|]. split; [done|]. by intros ?.
Qed.

Lemma normalize_entry_normal (e : entry) :
  normal e -> normalize_entry e = Ok e.
Proof.
  unfold normal, normalize_entry. intros Hn.
  destruct (String.eqb_spec (distribution e) EXPONENTIAL) as [Hd|Hd]; [|done].
  by rewrite (Hn Hd).
Qed.

(** One loop: it returns when no entry asks for a division by zero, and
    raises [ZeroDivisionError] otherwise. *)
Lemma normalize_section_cases (sec : section) :
  (Exists zero_rate (snd <$> sec) /\
   fst (normalize_section sec) = Raise ZeroDivisionError) \/
  (Forall (fun e => ~ zero_rate e) (snd <$> sec) /\
   fst (normalize_section sec) = Ok tt /\
   normalized_section sec (snd (normalize_section sec))).
Proof.
  induction sec as [|[tsk e] sec IH]; cbn.
  - right. by repeat constructor.
  - destruct (normalize_entry_cases e) as [[Hz ->]|[Hnz (e' & -> & Hfrom & Hnorm)]].
    + left. split; [by left|done].
    + destruct (normalize_section sec) as [r sec'] eqn:Hsec. cbn in *.
      destruct IH as [[Hex ->]|(Hall & -> & Hrel)].
      * left. split; [by right|done].
      * right. split; [by constructor|]. split; [done|]. by constructor.
Qed.

Lemma normalize_section_normal (sec : section) :
  Forall normal (snd <$> sec) -> normalize_section sec = (Ok tt, sec).
Proof.
  induction sec as [|[tsk e] sec IH]; cbn; [done|].
  intros [Hn Hall]%Forall_cons.
  by rewrite (normalize_entry_normal e Hn), (IH Hall).
Qed.

Lemma section_no_zero_rate (sec : section) :
  Forall (fun e => ~ zero_rate e) (snd <$> sec) ->
  normalize_section sec = (Ok tt, snd (normalize_section sec)) /\
  normalized_section sec (snd (normalize_section sec)).
Proof.
  intros Hall. destruct (normalize_section_cases sec) as [[Hex _]|(_ & Hok & Hrel)].
  - apply Exists_exists in Hex as (e & He & Hz).
    rewrite Forall_forall in Hall. by destruct (Hall e He).
  - split; [|done]. destruct (normalize_section sec) as [r sec']. cbn in *.
    by rewrite Hok.
Qed.

Lemma section_zero_rate (sec : section) :
  Exists zero_rate (snd <$> sec) ->
  fst (normalize_section sec) = Raise ZeroDivisionError.
Proof.
  intros Hex. destruct (normalize_section_cases sec) as [[_ H]|(Hall & _)]; [done|].
  apply Exists_exists in Hex as (e & He & Hz).
  rewrite Forall_forall in Hall. by destruct (Hall e He).
Qed.

Lemma section_decide (sec : section) :
  Exists zero_rate (snd <$> sec) \/ Forall (fun e => ~ zero_rate e) (snd <$> sec).
Proof. destruct (normalize_section_cases sec) as [[? _]|[? _]]; auto. Qed.

(** The whole of [normalize], by cases. *)
Lemma normalize_cases (c : t) :
  (Exists zero_rate (entries c) /\ fst (normalize c) = Raise ZeroDivisionError) \/
  (Forall (fun e => ~ zero_rate e) (entries c) /\
   fst (normalize c) = Ok tt /\
   normalized_section (arrival c) (arrival (snd (normalize c))) /\
   normalized_section (cloudlet_service c) (cloudlet_service (snd (normalize c))) /\
   normalized_section (cloud_service c) (cloud_service (snd (normalize c))) /\
   normalized_section (cloud_setup c) (cloud_setup (snd (normalize c)))).
Proof.
  unfold entries. rewrite !fmap_app, !Exists_app, !Forall_app.
  unfold normalize, normalize_arrival, normalize_cloudlet,
    normalize_cloud_service, normalize_cloud_setup. run_m.
  destruct (section_decide (arrival c)) as [H1|H1].
  { left. split; [auto|]. apply section_zero_rate in H1.
    destruct (normalize_section (arrival c)) as [r s1]. cbn in *. by subst r. }
  destruct (section_no_zero_rate _ H1) as [E1 R1]. rewrite E1. cbn.
  destruct (section_decide (cloudlet_service c)) as [H2|H2].
  { left. split; [auto|]. apply section_zero_rate in H2.
    destruct (normalize_section (cloudlet_service c)) as [r s2]. cbn in *. by subst r. }
  destruct (section_no_zero_rate _ H2) as [E2 R2]. rewrite E2. cbn.
  destruct (section_decide (cloud_service c)) as [H3|H3].
  { left. split; [auto|]. apply section_zero_rate in H3.
    destruct (normalize_section (cloud_service c)) as [r s3]. cbn in *. by subst r. }
  destruct (section_no_zero_rate _ H3) as [E3 R3]. rewrite E3. cbn.
  destruct (section_decide (cloud_setup c)) as [H4|H4].
  { left. split; [auto|]. apply section_zero_rate in H4.
    destruct (normalize_section (cloud_setup c)) as [r s4]. cbn in *. by subst r. }
  destruct (section_no_zero_rate _ H4) as [E4 R4]. rewrite E4. cbn.
  right. done.
Qed.

(** X15.  On a well-formed configuration, one whose entries all have a
    distribution and numeric parameters, [normalize] raises
    [ZeroDivisionError] exactly when some exponential entry has the rate
    zero, and returns exactly when none has. *)
Theorem normalize_raises_exactly_on_zero_rate (c : t) :
  (fst (normalize c) = Raise ZeroDivisionError <-> Exists zero_rate (entries c)) /\
  (fst (normalize c) = Ok tt <-> Forall (fun e => ~ zero_rate e) (entries c)).
Proof.
  destruct (normalize_cases c) as [[Hex Hr]|(Hall & Hr & _)]; rewrite Hr.
  - split; [done|]. split; [done|].
    intros Hall. apply Exists_exists in Hex as (e & He & Hz).
    rewrite Forall_forall in Hall. by destruct (Hall e He).
  - split; [|done]. split; [done|].
    intros Hex. apply Exists_exists in Hex as (e & He & Hz).
    rewrite Forall_forall in Hall. by destruct (Hall e He).
Qed.



(** What [get_default_configuration] hands out for the arrivals: the means
    [1/6] and [4/25] in place of the rates. *)
Example normalize_default_arrival :
  arrival (snd (normalize default_configuration))
  = [("TASK_1", mk_entry EXPONENTIAL {["m" := (1 / 6)%Q]});
     ("TASK_2", mk_entry EXPONENTIAL {["m" := (1 / (25 # 4))%Q]})].
Proof. vm_compute. reflexivity. Qed.

(** X17.  [normalize] is idempotent: on a configuration that a call of
    [normalize] returned, another call returns and changes nothing. *)
Theorem normalize_idempotent (c : t) :
  fst (normalize c) = Ok tt ->
  normalize (snd (normalize c)) = (Ok tt, snd (normalize c)).
Proof.
  intros Hok. destruct (normalize_cases c) as [[_ Hr]|(_ & _ & R1 & R2 & R3 & R4)];
    [congruence|].
  assert (Hn : forall sec sec', normalized_section sec sec' -> Forall normal (snd <$> sec')).
  { intros sec sec' H. induction H as [|x x' ? ? (_ & _ & Hx) _ IH]; by constructor. }
  destruct (snd (normalize c)) as [a b d e]. cbn in *.
  unfold normalize, normalize_arrival, normalize_cloudlet,
    normalize_cloud_service, normalize_cloud_setup. run_m. cbn.
  rewrite (normalize_section_normal a) by eauto. cbn.
  rewrite (normalize_section_normal b) by eauto. cbn.
  rewrite (normalize_section_normal d) by eauto. cbn.
  by rewrite (normalize_section_normal e) by eauto.
Qed.

Lemma normalize_idempotent_witness :
  normalize (snd (normalize default_configuration))
  = (Ok tt, snd (normalize default_configuration)).
Proof.
  apply (normalize_idempotent default_configuration).
  vm_compute. reflexivity.
Defined.

End Normalize.

(** ** demule/rnd/tests/permutation.py *)

Section Permutation.

Import PermutationTest.

Lemma getitem_in_range {A} (l : list A) (i : Z) :
  0 <= i < Z.of_nat (length l) -> exists x, Py.getitem l i = Ok x.
Proof.
  intros Hi. unfold Py.getitem. rewrite (position_nonneg _ i Hi).
  destruct (l !! Z.to_nat i) as [x|] eqn:E; [by exists x|].
  apply lookup_ge_None in E. lia.
Qed.

Lemma setitem_in_range {A} (l : list A) (i : Z) (x : A) :
  0 <= i < Z.of_nat (length l) ->
  exists l', Py.setitem l i x = Ok l' /\ length l' = length l.
Proof.
  intros Hi. unfold Py.setitem. rewrite (position_nonneg _ i Hi).
  eexists. split; [done|]. apply length_insert.
Qed.

(** The inner loop returns an index among those it was given. *)
Lemma argmax_in_range (U : list Q) (js : list Z) (mx hi : Z) :
  hi < Z.of_nat (length U) ->
  Forall (fun j => 0 <= j <= hi) js -> 0 <= mx <= hi ->
  exists mx', argmax U js mx = Ok mx' /\ 0 <= mx' <= hi.
Proof.
  intros Hhi Hjs. revert mx. induction Hjs as [|j js Hj _ IH]; intros mx Hmx; cbn.
  - by exists mx.
  - destruct (getitem_in_range U j ltac:(lia)) as [uj ->].
    destruct (getitem_in_range U mx ltac:(lia)) as [um ->].
    apply IH. by destruct (negb _).
Qed.

Lemma range_bounds (lo hi : Z) :
  Forall (fun j => lo <= j <= hi - 1) (range lo hi).
Proof.
  unfold range. apply Forall_fmap, Forall_forall. intros i Hi. cbn.
  apply elem_of_seq in Hi. lia.
Qed.

(** One turn keeps the length of the sample and adds an index at most [r]
    to [(r + 1) * b]. *)
Lemma round_bounds (r : Z) (U : list Q) (b : Z) :
  0 <= r < Z.of_nat (length U) ->
  exists U' mx,
    round r U b = Ok (U', (r + 1) * b + mx) /\
    length U' = length U /\ 0 <= mx <= r.
Proof.
  intros Hr. unfold round.
  destruct (argmax_in_range U (range 1 (r + 1)) 0 r) as (mx & -> & Hmx); [lia| |lia|].
  { eapply Forall_impl; [apply range_bounds|]. cbn. intros j Hj. lia. }
  destruct (getitem_in_range U r ltac:(lia)) as [ur ->].
  destruct (getitem_in_range U mx ltac:(lia)) as [um ->].
  destruct (setitem_in_range U mx ur ltac:(lia)) as (U1 & -> & Hl1).
  destruct (setitem_in_range U1 r um ltac:(lia)) as (U2 & -> & Hl2).
  exists U2, mx. split; [done|]. split; [congruence|done].
Qed.

Lemma rounds_bounds (k : nat) :
  forall (U : list Q) (b : Z),
    (k < length U \/ k = 0)%nat -> 0 <= b ->
    exists b', rounds k U b = Ok b' /\
               0 <= b' < (b + 1) * Z.of_nat (fact (S k)).
Proof.
  induction k as [|k IH]; intros U b Hk Hb.
  - exists b. cbn. split; [done|]. lia.
  - cbn [rounds].
    destruct (round_bounds (Z.of_nat (S k)) U b ltac:(lia)) as (U' & mx & -> & Hl & Hmx).
    destruct (IH U' (Z.of_nat (S k + 1) * b + mx)) as (b' & Hb' & Hrange).
    + lia.
    + nia.
    + exists b'. replace (Z.of_nat (S k) + 1) with (Z.of_nat (S k + 1)) by lia.
      split; [exact Hb'|].
      change (fact (S (S k))) with ((S (S k)) * fact (S k))%nat.
      rewrite Nat2Z.inj_mul.
      assert (0 < Z.of_nat (fact (S k))) by (pose proof (lt_O_fact (S k)); lia).
      nia.
Qed.

Lemma permutation_index_returns (t : Z) (U : list Q) :
  length U = Z.to_nat t ->
  exists b, permutation_index t U = Ok b /\
            0 <= b < Z.of_nat (fact (Z.to_nat t)).
Proof.
  intros Hlen. unfold permutation_index.
  destruct (rounds_bounds (Z.to_nat (t - 1)) U 0) as (b & Hb & Hrange); [lia|lia|].
  exists b. split; [exact Hb|].
  destruct (Z.le_gt_cases t 0) as [Ht|Ht].
  - replace (Z.to_nat (t - 1)) with 0%nat in Hrange by lia.
    replace (Z.to_nat t) with 0%nat by lia. cbn in *. lia.
  - replace (S (Z.to_nat (t - 1))) with (Z.to_nat t) in Hrange by lia. lia.
Qed.

(** X18.  The bin computed for a sample of [t] numbers is always a valid
    index of a histogram with [t!] bins: the computation raises no
    [IndexError] and its result lies between 0 and [t! - 1]. *)
Theorem permutation_index_in_range (t : Z) (U : list Q) :
  length U = Z.to_nat t ->
  exists b, permutation_index t U = Ok b /\
            0 <= b < Z.of_nat (fact (Z.to_nat t)).
Proof. apply permutation_index_returns. Qed.

Lemma permutation_index_in_range_witness :
  exists b, permutation_index 3 [(3 # 10)%Q; (1 # 10)%Q; (2 # 10)%Q] = Ok b /\
            0 <= b < Z.of_nat (fact (Z.to_nat 3)).
Proof.
  apply (permutation_index_in_range 3 [(3 # 10)%Q; (1 # 10)%Q; (2 # 10)%Q]).
  reflexivity.
Defined.

Lemma total_insert (l : list Z) (p : nat) (n m : Z) :
  l !! p = Some n -> total (<[p:=m]> l) = total l - n + m.
Proof.
  unfold total. revert p.
  induction l as [|x l IH]; intros [|p] Hp; try done.
  - injection Hp as ->. cbn. lia.
  - change (<[S p:=m]> (x :: l)) with (x :: <[p:=m]> l).
    cbn [foldr]. rewrite (IH p Hp). lia.
Qed.

Lemma total_replicate (n : nat) : total (replicate n 0) = 0.
Proof. induction n as [|n IH]; [done|]. unfold total in *. cbn. by rewrite IH. Qed.

Section Histogram.

Context {St : Type}.
Variable uniform : M St Q.
Variable Inv : St -> Prop.
Hypothesis uniform_returns :
  forall s, Inv s -> exists u s', uniform s = (Ok u, s') /\ Inv s'.

Lemma draws_returns (t : nat) :
  forall s, Inv s ->
    exists U s', draws uniform t s = (Ok U, s') /\ Inv s' /\ length U = t.
Proof.
  induction t as [|t IH]; intros s Hs; cbn [draws].
  - by exists [], s.
  - destruct (uniform_returns s Hs) as (u & s1 & Hu & Hs1).
    destruct (IH s1 Hs1) as (U & s2 & HU & Hs2 & Hl).
    exists (u :: U), s2. run_m. rewrite Hu, HU. cbn. by rewrite Hl.
Qed.

Lemma observe_counts (t : Z) (observed : list Z) (s : St) :
  Inv s ->
  Z.of_nat (fact (Z.to_nat t)) <= Z.of_nat (length observed) ->
  exists observed' s',
    observe uniform t observed s = (Ok observed', s') /\ Inv s' /\
    length observed' = length observed /\
    total observed' = total observed + 1 /\
    (Forall (fun n => 0 <= n) observed -> Forall (fun n => 0 <= n) observed').
Proof.
  intros Hs Hbins. unfold observe.
  destruct (draws_returns (Z.to_nat t) s Hs) as (U & s' & HU & Hs' & Hl).
  destruct (permutation_index_returns t U Hl) as (b & Hb & Hrange).
  assert (Hpos : Py.position (length observed) b = Some (Z.to_nat b))
    by (apply position_nonneg; lia).
  destruct (observed !! Z.to_nat b) as [n|] eqn:Hn;
    [|apply lookup_ge_None in Hn; lia].
  exists (<[Z.to_nat b := n + 1]> observed), s'.
  run_m. rewrite HU, Hb. unfold Py.getitem, Py.setitem. rewrite Hpos, Hn.
  split; [done|]. split; [done|]. split; [apply length_insert|].
  split; [rewrite (total_insert _ _ n) by done; lia|].
  intros Hall. apply Forall_insert; [done|].
  rewrite Forall_lookup in Hall. specialize (Hall _ _ Hn). cbn in Hall. lia.
Qed.

Lemma observe_all_counts (samsize : nat) (t : Z) :
  forall (observed : list Z) (s : St),
    Inv s ->
    Z.of_nat (fact (Z.to_nat t)) <= Z.of_nat (length observed) ->
    exists observed' s',
      observe_all uniform samsize t observed s = (Ok observed', s') /\ Inv s' /\
      length observed' = length observed /\
      total observed' = total observed + Z.of_nat samsize /\
      (Forall (fun n => 0 <= n) observed -> Forall (fun n => 0 <= n) observed').
Proof.
  induction samsize as [|n IH]; intros observed s Hs Hbins; cbn [observe_all].
  - exists observed, s. run_m. repeat split; [done|lia|done].
  - destruct (observe_counts t observed s Hs Hbins)
      as (o1 & s1 & H1 & Hs1 & Hl1 & Ht1 & Hp1).
    destruct (IH o1 s1 Hs1 ltac:(lia)) as (o2 & s2 & H2 & Hs2 & Hl2 & Ht2 & Hp2).
    exists o2, s2. run_m. rewrite H1, H2.
    repeat split; [done|congruence|lia|auto].
Qed.

End Histogram.

(** X19.  With at least [t!] bins and a source of numbers that never raises,
    [observations] returns a histogram of [bins] non-negative counts that
    add up to the sample size: every sample is counted in exactly one bin
    and no index falls outside the histogram. *)
Theorem observations_count_every_sample {St : Type} (uniform : M St Q)
    (Inv : St -> Prop) (samsize bins t : Z) (s : St) :
  (forall s, Inv s -> exists u s', uniform s = (Ok u, s') /\ Inv s') ->
  Inv s ->
  Z.of_nat (fact (Z.to_nat t)) <= bins ->
  exists observed s',
    observations uniform samsize bins t s = (Ok observed, s') /\ Inv s' /\
    Z.of_nat (length observed) = bins /\
    Forall (fun n => 0 <= n) observed /\
    total observed = Z.max 0 samsize.
Proof.
  intros Huniform Hs Hbins. unfold observations.
  assert (Hlen : Z.of_nat (length (Py.repeat 0 bins)) = bins).
  { unfold Py.repeat. rewrite length_replicate.
    pose proof (lt_O_fact (Z.to_nat t)). lia. }
  destruct (observe_all_counts uniform Inv Huniform (Z.to_nat samsize) t
              (Py.repeat 0 bins) s Hs ltac:(lia))
    as (observed & s' & Hrun & Hs' & Hl & Ht & Hp).
  exists observed, s'. split; [done|]. split; [done|].
  split; [lia|]. split.
  - apply Hp. unfold Py.repeat. by apply Forall_replicate.
  - rewrite Ht. unfold Py.repeat. rewrite total_replicate. lia.
Qed.

Lemma observations_count_every_sample_witness :
  exists observed s',
    observations MarcianiSingleStream.rnd 5 6 3
      (MarcianiSingleStream.__init__ 1 127 14) = (Ok observed, s') /\
    MarcianiSingleStream._modulus s' = 127 /\
    Z.of_nat (length observed) = 6 /\
    Forall (fun n => 0 <= n) observed /\
    total observed = Z.max 0 5.
Proof.
  destruct (observations_count_every_sample MarcianiSingleStream.rnd
              (fun g => MarcianiSingleStream._modulus g = 127 /\
                        MarcianiSingleStream._multiplier g = 14)
              5 6 3 (MarcianiSingleStream.__init__ 1 127 14))
    as (observed & s' & H & [Hm _] & Hrest).
  - intros [i s m a] [Hm Ha]. cbn in Hm, Ha. subst m a.
    unfold MarcianiSingleStream.rnd. run_m. simpl.
    match goal with |- context [0 <? ?x] => destruct (0 <? x) end;
      cbn; eexists _, _; (split; [reflexivity|by split]).
  - by split.
  - vm_compute. discriminate.
  - exists observed, s'. split; [exact H|]. split; [exact Hm|exact Hrest].
Defined.

End Permutation.
